(** * The voice relay and the transcript store of the journal application

    A shallow embedding of [main.py]: prompt selection
    ([get_session_prompt], [start_session]), the entries table with its
    category queries ([JournalDB]), the transcript flush
    ([save_voice_transcript]) and the websocket relay ([voice_websocket]
    with its inner task [relay_from_openai]); then the reading of stored
    prompt data ([parse_ai_prompts], [get_entries]), the context built
    from recent entries ([get_recent_context]) and the summaries table
    with the generation of a summary ([save_summary], [get_summary],
    [generate_summary], [get_historical_summary]).

    Python [str] values are sequences of Unicode code points; they are
    lists of [N] here, and [py "..."] writes a literal.  [json.dumps] and
    [json.loads] are CPython's, with the default arguments the program
    uses; they are embedded in [Module Json].

    A text that holds a lone surrogate cannot be encoded as UTF-8
    ([encodable]).  Binding it to an SQL statement, printing it and
    rendering it in a response raise [UnicodeEncodeError]: the inserts
    and the query for recent entries return [None] then, the transcript
    flush and the generation of a summary catch the exception and store
    nothing, and the setup of a voice session and [start_session] fail. *)

From Stdlib Require Import List NArith ZArith Bool Ascii String Lia.
From Stdlib Require Import Sorted.
Import ListNotations.

Local Open Scope N_scope.
Local Open Scope list_scope.

(** ** Python text *)

Definition pystr := list N.

Definition py (s : string) : pystr := map N_of_ascii (list_ascii_of_string s).

Fixpoint str_eqb (a b : pystr) : bool :=
  match a, b with
  | [], [] => true
  | x :: a', y :: b' => (x =? y) && str_eqb a' b'
  | _, _ => false
  end.

(** [sep.join(parts)] *)
Fixpoint join (sep : pystr) (parts : list pystr) : pystr :=
  match parts with
  | [] => []
  | [p] => p
  | p :: rest => p ++ sep ++ join sep rest
  end.

(** A code point is a Unicode scalar value when it is in range and is not
    a surrogate; text decoded from UTF-8 consists of scalar values. *)
Definition is_high_surrogate (c : N) : bool := (0xd800 <=? c) && (c <=? 0xdbff).
Definition is_low_surrogate (c : N) : bool := (0xdc00 <=? c) && (c <=? 0xdfff).
Definition scalar_value (c : N) : Prop :=
  c < 0x110000 /\ ~ (0xd800 <= c <= 0xdfff).
Definition unicode_text (s : pystr) : Prop := Forall scalar_value s.

Definition scalar_valueb (c : N) : bool :=
  (c <? 0x110000) && negb ((0xd800 <=? c) && (c <=? 0xdfff)).

(** [s.encode("utf-8")] succeeds: no code point of [s] is a surrogate.
    Binding a [str] to an SQL statement, printing it and rendering it in
    a response encode it, and raise [UnicodeEncodeError] otherwise. *)
Definition encodable (s : pystr) : bool := forallb scalar_valueb s.

(** ** Python dictionaries with text keys

    A [dict] keeps its keys in insertion order; assigning to a key that is
    present replaces the value in place. *)
Section Dict.
Context {V : Type}.

Fixpoint dict_get (d : list (pystr * V)) (k : pystr) : option V :=
  match d with
  | [] => None
  | (k', v) :: d' => if str_eqb k' k then Some v else dict_get d' k
  end.

Fixpoint dict_set (d : list (pystr * V)) (k : pystr) (v : V) : list (pystr * V) :=
  match d with
  | [] => [(k, v)]
  | (k', v') :: d' =>
      if str_eqb k' k then (k', v) :: d' else (k', v') :: dict_set d' k v
  end.

(** [d.get(k, default)] *)
Definition dict_get_default (d : list (pystr * V)) (k : pystr) (default : V) : V :=
  match dict_get d k with Some v => v | None => default end.

(** [dict(pairs)] *)
Definition dict_of_pairs (pairs : list (pystr * V)) : list (pystr * V) :=
  fold_left (fun d kv => dict_set d (fst kv) (snd kv)) pairs [].
End Dict.

(** ** JSON values and CPython's [json] module

    [json.loads] yields [None], [bool], [int] or [float], [str], [list]
    and [dict] values.  A number keeps the literal it was read from: its
    numeric value is never inspected by the program, only written back,
    and the text Python writes for it is left to the runtime record
    below.  CPython's limits on nesting depth and on the digits of an
    integer literal are not modelled. *)
#[warnings="-register-all"]
Inductive json :=
| JNull
| JBool (b : bool)
| JNum (lit : pystr)
| JStr (s : pystr)
| JArr (items : list json)
| JObj (members : list (pystr * json)).

(** What the embedding takes from the Python runtime without computing it:
    [num_repr lit] is the text [json.dumps] writes for the number read from
    the literal [lit]; [py_str v] is [str(v)] for a value that is not a
    [str] (as an f-string formats it); [exn_text e] is [str(e)]. *)
Inductive exn :=
| WebSocketDisconnect
| ConnectionClosed
| JSONDecodeError
| AttributeError
| TypeError
| KeyError
| OtherException (name : pystr).

Record runtime := {
  num_repr : pystr -> pystr;
  py_str : json -> pystr;
  exn_text : exn -> pystr
}.

Module Json.

(** *** [json.dumps], with [ensure_ascii=True] and separators [", "], [": "] *)

Definition hex_digit (n : N) : N := if n <? 10 then 48 + n else 87 + n.

(** ['{0:04x}'.format(n)] for [n < 0x10000] *)
Definition hex4 (n : N) : pystr :=
  [ hex_digit (N.land (N.shiftr n 12) 15); hex_digit (N.land (N.shiftr n 8) 15);
    hex_digit (N.land (N.shiftr n 4) 15); hex_digit (N.land n 15) ].

Definition backslash_u (n : N) : pystr := 92 :: 117 :: hex4 n.

(** [ESCAPE_ASCII] replacement of one code point *)
Definition escape_char (c : N) : pystr :=
  if c =? 34 then [92; 34]
  else if c =? 92 then [92; 92]
  else if c =? 10 then [92; 110]
  else if c =? 13 then [92; 114]
  else if c =? 9 then [92; 116]
  else if c =? 8 then [92; 98]
  else if c =? 12 then [92; 102]
  else if (32 <=? c) && (c <=? 126) then [c]
  else if c <? 0x10000 then backslash_u c
  else
    let n := c - 0x10000 in
    let s1 := N.lor 0xd800 (N.land (N.shiftr n 10) 0x3ff) in
    let s2 := N.lor 0xdc00 (N.land n 0x3ff) in
    backslash_u s1 ++ backslash_u s2.

Definition encode_string (s : pystr) : pystr :=
  34 :: flat_map escape_char s ++ [34].

Section Dumps.
Variable rt : runtime.

Fixpoint dumps (j : json) : pystr :=
  match j with
  | JNull => py "null"
  | JBool true => py "true"
  | JBool false => py "false"
  | JNum lit => num_repr rt lit
  | JStr s => encode_string s
  | JArr items => py "[" ++ join (py ", ") (map dumps items) ++ py "]"
  | JObj members =>
      py "{"
      ++ join (py ", ")
           (map (fun kv => let '(k, v) := kv in
                           encode_string k ++ py ": " ++ dumps v) members)
      ++ py "}"
  end.
End Dumps.

(** *** [json.loads] of a [str], strict mode *)

Definition is_ws (c : N) : bool :=
  (c =? 32) || (c =? 9) || (c =? 10) || (c =? 13).

Fixpoint skip_ws (s : pystr) : pystr :=
  match s with
  | c :: r => if is_ws c then skip_ws r else s
  | [] => []
  end.

Definition hex_value (c : N) : option N :=
  if (48 <=? c) && (c <=? 57) then Some (c - 48)
  else if (97 <=? c) && (c <=? 102) then Some (c - 87)
  else if (65 <=? c) && (c <=? 70) then Some (c - 55)
  else None.

Definition decode_hex4 (a b c d : N) : option N :=
  match hex_value a, hex_value b, hex_value c, hex_value d with
  | Some x, Some y, Some z, Some w => Some (((x * 16 + y) * 16 + z) * 16 + w)
  | _, _, _, _ => None
  end.

Definition join_surrogates (hi lo : N) : N :=
  0x10000 + N.lor (N.shiftl (hi - 0xd800) 10) (lo - 0xdc00).

(** The [BACKSLASH] table of the decoder *)
Definition simple_escape (e : N) : option N :=
  if e =? 34 then Some 34
  else if e =? 92 then Some 92
  else if e =? 47 then Some 47
  else if e =? 98 then Some 8
  else if e =? 102 then Some 12
  else if e =? 110 then Some 10
  else if e =? 114 then Some 13
  else if e =? 116 then Some 9
  else None.

Definition cons_char (c : N) (r : option (pystr * pystr)) : option (pystr * pystr) :=
  match r with
  | Some (x, rest) => Some (c :: x, rest)
  | None => None
  end.

(** [scanstring]: the text after an opening quote, up to the closing one.
    A high surrogate escape directly followed by a low surrogate escape
    is read as one code point. *)
Fixpoint scanstring (s : pystr) : option (pystr * pystr) :=
  match s with
  | [] => None
  | c :: r =>
      if c =? 34 then Some ([], r)
      else if c =? 92 then
        match r with
        | [] => None
        | e :: r1 =>
            if e =? 117 then
              match r1 with
              | h1 :: h2 :: h3 :: h4 :: r2 =>
                  match decode_hex4 h1 h2 h3 h4 with
                  | None => None
                  | Some u =>
                      if is_high_surrogate u then
                        match r2 with
                        | b :: r3 =>
                            if b =? 92 then
                              match r3 with
                              | u' :: r4 =>
                                  if u' =? 117 then
                                    match r4 with
                                    | l1 :: l2 :: l3 :: l4 :: r5 =>
                                        match decode_hex4 l1 l2 l3 l4 with
                                        | None => None
                                        | Some u2 =>
                                            if is_low_surrogate u2
                                            then cons_char (join_surrogates u u2) (scanstring r5)
                                            else cons_char u (scanstring r2)
                                        end
                                    | _ => None
                                    end
                                  else cons_char u (scanstring r2)
                              | [] => cons_char u (scanstring r2)
                              end
                            else cons_char u (scanstring r2)
                        | [] => cons_char u (scanstring r2)
                        end
                      else cons_char u (scanstring r2)
                  end
              | _ => None
              end
            else
              match simple_escape e with
              | Some x => cons_char x (scanstring r1)
              | None => None
              end
        end
      else if c <? 32 then None
      else cons_char c (scanstring r)
  end.

Definition is_digit (c : N) : bool := (48 <=? c) && (c <=? 57).

Fixpoint span_digits (s : pystr) : pystr * pystr :=
  match s with
  | c :: r =>
      if is_digit c then let '(d, r') := span_digits r in (c :: d, r')
      else ([], s)
  | [] => ([], [])
  end.

(** [NUMBER_RE]: an optional minus sign, then 0 or a digit string that
    does not start with 0; an optional fraction (a dot and digits); an
    optional exponent (e or E, an optional sign, digits). *)
Definition match_int (s : pystr) : option (pystr * pystr) :=
  let '(sign, s1) :=
    match s with
    | c :: r => if c =? 45 then ([45], r) else ([], s)
    | [] => ([], s)
    end in
  match s1 with
  | c :: r =>
      if c =? 48 then Some (sign ++ [48], r)
      else if is_digit c then
        let '(d, r') := span_digits r in Some (sign ++ c :: d, r')
      else None
  | [] => None
  end.

Definition match_frac (s : pystr) : pystr * pystr :=
  match s with
  | c :: r =>
      if c =? 46 then
        match span_digits r with
        | ([], _) => ([], s)
        | (d, r') => (46 :: d, r')
        end
      else ([], s)
  | [] => ([], s)
  end.

Definition match_exp (s : pystr) : pystr * pystr :=
  match s with
  | c :: r =>
      if (c =? 101) || (c =? 69) then
        let '(sg, r1) :=
          match r with
          | c2 :: r2 => if (c2 =? 45) || (c2 =? 43) then ([c2], r2) else ([], r)
          | [] => ([], r)
          end in
        match span_digits r1 with
        | ([], _) => ([], s)
        | (d, r') => (c :: sg ++ d, r')
        end
      else ([], s)
  | [] => ([], s)
  end.

Definition match_number (s : pystr) : option (pystr * pystr) :=
  match match_int s with
  | None => None
  | Some (i, r) =>
      let '(f, r1) := match_frac r in
      let '(e, r2) := match_exp r1 in
      Some (i ++ f ++ e, r2)
  end.

Fixpoint strip_prefix (p s : pystr) : option pystr :=
  match p, s with
  | [], _ => Some s
  | x :: p', y :: s' => if x =? y then strip_prefix p' s' else None
  | _ :: _, [] => None
  end.

Definition scan_constant (s : pystr) : option (json * pystr) :=
  match strip_prefix (py "null") s with
  | Some r => Some (JNull, r)
  | None =>
  match strip_prefix (py "true") s with
  | Some r => Some (JBool true, r)
  | None =>
  match strip_prefix (py "false") s with
  | Some r => Some (JBool false, r)
  | None =>
  match match_number s with
  | Some (lit, r) => Some (JNum lit, r)
  | None =>
  match strip_prefix (py "NaN") s with
  | Some r => Some (JNum (py "NaN"), r)
  | None =>
  match strip_prefix (py "Infinity") s with
  | Some r => Some (JNum (py "Infinity"), r)
  | None =>
  match strip_prefix (py "-Infinity") s with
  | Some r => Some (JNum (py "-Infinity"), r)
  | None => None
  end end end end end end end.

(** [scan_once] with [JSONArray] and [JSONObject].  [scan_items] starts at
    an element; [scan_members] starts just after the opening quote of a
    key.  The fuel bounds the number of nested calls. *)
Fixpoint scan_once (fuel : nat) (s : pystr) : option (json * pystr) :=
  match fuel with
  | O => None
  | S fuel' =>
      match s with
      | [] => None
      | c :: r =>
          if c =? 34 then
            match scanstring r with
            | Some (x, r') => Some (JStr x, r')
            | None => None
            end
          else if c =? 123 then
            match skip_ws r with
            | c1 :: r1 =>
                if c1 =? 125 then Some (JObj [], r1)
                else if c1 =? 34 then
                  match scan_members fuel' r1 with
                  | Some (pairs, r') => Some (JObj (dict_of_pairs pairs), r')
                  | None => None
                  end
                else None
            | [] => None
            end
          else if c =? 91 then
            match skip_ws r with
            | c1 :: r1 =>
                if c1 =? 93 then Some (JArr [], r1)
                else
                  match scan_items fuel' (c1 :: r1) with
                  | Some (vs, r') => Some (JArr vs, r')
                  | None => None
                  end
            | [] => None
            end
          else scan_constant s
      end
  end
with scan_items (fuel : nat) (s : pystr) : option (list json * pystr) :=
  match fuel with
  | O => None
  | S fuel' =>
      match scan_once fuel' s with
      | None => None
      | Some (v, r) =>
          match skip_ws r with
          | c :: r1 =>
              if c =? 93 then Some ([v], r1)
              else if c =? 44 then
                match scan_items fuel' (skip_ws r1) with
                | Some (vs, r') => Some (v :: vs, r')
                | None => None
                end
              else None
          | [] => None
          end
      end
  end
with scan_members (fuel : nat) (s : pystr) : option (list (pystr * json) * pystr) :=
  match fuel with
  | O => None
  | S fuel' =>
      match scanstring s with
      | None => None
      | Some (key, r) =>
          match skip_ws r with
          | c :: r1 =>
              if c =? 58 then
                match scan_once fuel' (skip_ws r1) with
                | None => None
                | Some (v, r2) =>
                    match skip_ws r2 with
                    | c2 :: r3 =>
                        if c2 =? 125 then Some ([(key, v)], r3)
                        else if c2 =? 44 then
                          match skip_ws r3 with
                          | c3 :: r4 =>
                              if c3 =? 34 then
                                match scan_members fuel' r4 with
                                | Some (kvs, r') => Some ((key, v) :: kvs, r')
                                | None => None
                                end
                              else None
                          | [] => None
                          end
                        else None
                    | [] => None
                    end
                end
              else None
          | [] => None
          end
      end
  end.

(** [json.loads(s)]: [None] stands for the raised [JSONDecodeError]. *)
Definition loads (s : pystr) : option json :=
  match scan_once (S (2 * List.length s)) (skip_ws s) with
  | Some (v, r) =>
      match skip_ws r with
      | [] => Some v
      | _ :: _ => None
      end
  | None => None
  end.

End Json.

(** ** Configuration constants *)

Module JournalPrompts.

Definition BASE_PROMPTS : list (pystr * pystr) :=
  [ (py "reflection",
     py "You are a thoughtful journaling assistant helping someone reflect on their day. 
        Ask open-ended questions that encourage deep thinking about experiences, emotions, and lessons learned. 
        Be empathetic, curious, and help them process their thoughts. Keep responses concise but meaningful.");
    (py "planning",
     py "You are a planning assistant helping someone organize their thoughts for upcoming days/weeks. 
        Help them set realistic goals, prioritize tasks, and think through potential challenges. 
        Ask clarifying questions about their intentions and help them create actionable plans.");
    (py "notes",
     py "You are a note-taking assistant helping someone do a brain dump. 
        Help them organize their thoughts, capture all items, and structure their ideas clearly. 
        Ask clarifying questions to ensure nothing is missed.");
    (py "goals",
     py "You are a goal-tracking assistant. Help review previous goals, assess progress, 
        and set new objectives. Be encouraging but realistic about what can be accomplished.") ].

Definition VOICE_PROMPTS : list (pystr * pystr) :=
  [ (py "reflection",
     py "You are a thoughtful journaling assistant helping someone reflect on their day while they're driving. 
        Keep responses conversational and concise. Ask one question at a time. Be empathetic and encouraging. 
        Help them process their thoughts safely while driving.");
    (py "planning",
     py "You are a planning assistant helping someone organize their thoughts for upcoming days while driving. 
        Keep responses brief and focused. Help them set realistic goals and think through challenges. 
        Ask clarifying questions one at a time.");
    (py "notes",
     py "You are a note-taking assistant helping someone do a brain dump while driving. 
        Help them organize their thoughts clearly. Acknowledge what they've shared and ask for clarification when needed. 
        Keep responses short and conversational.");
    (py "goals",
     py "You are a goal-tracking assistant helping someone review and set goals while driving. 
        Be encouraging and realistic. Keep responses brief and ask one question at a time. 
        Help them think through their objectives safely.") ].

Definition INITIAL_MESSAGES : list (pystr * pystr) :=
  [ (py "reflection",
     py "Hi! I'm here to help you reflect on your day. What's been on your mind today?");
    (py "planning",
     py "Let's plan ahead! What are you thinking about for tomorrow or the coming days?");
    (py "notes",
     py "Ready for a brain dump! Tell me everything that's on your mind - I'll help you organize it.");
    (py "goals",
     py "Let's talk about your goals. What would you like to work on or review?") ].

End JournalPrompts.

Module VoiceConfig.
Definition DEFAULT_VOICE : pystr := py "coral".
Definition DEFAULT_MODEL : pystr := py "gpt-4.1".
Definition DEFAULT_VOICE_MODEL : pystr := py "gpt-4o-realtime-preview".
Definition AUDIO_FORMAT : pystr := py "pcm16".
Definition MAX_TOKENS : json := JNum (py "300").
Definition TEMPERATURE : json := JNum (py "0.7").
End VoiceConfig.

(** The session types the prompt tables know. *)
Definition known_session_types : list pystr :=
  [ py "reflection"; py "planning"; py "notes"; py "goals" ].

(** ** Results of fallible calls *)

Inductive result (A : Type) :=
| Ok (a : A)
| Raise (e : exn).
Arguments Ok {A} a.
Arguments Raise {A} e.

(** The outcome of a call made for its effect (a send, a connect). *)
Inductive outcome :=
| Done
| Raises (e : exn).

Definition is_done (o : outcome) : bool :=
  match o with Done => true | Raises _ => false end.

(** Two exceptions of the library: of an encoding that fails, and of a
    number that JSON cannot hold. *)
Definition UnicodeEncodeError : exn := OtherException (py "UnicodeEncodeError").

(** ** Helper functions *)

(** [get_session_prompt(session_type, is_voice)].  The second argument of
    [prompts.get] is evaluated first; a list or a dict is not hashable and
    makes the lookup raise; a key that is not a [str] is never present. *)
Definition get_session_prompt (session_type : json) (is_voice : bool) : result pystr :=
  let prompts :=
    if is_voice then JournalPrompts.VOICE_PROMPTS else JournalPrompts.BASE_PROMPTS in
  match dict_get prompts (py "reflection") with
  | None => Raise KeyError
  | Some default =>
      match session_type with
      | JStr s => Ok (dict_get_default prompts s default)
      | JArr _ | JObj _ => Raise TypeError
      | JNull | JBool _ | JNum _ => Ok default
      end
  end.

(** ** The entries table *)

Record entry := {
  entry_id : N;
  entry_date : pystr;
  entry_type : pystr;
  entry_content : pystr;
  entry_ai_prompts : pystr;
  entry_created_at : pystr;
  entry_updated_at : pystr
}.

(** The table, in insertion order. *)
Definition database := list entry.

(** What the clock reads when a row is written: [date.today().isoformat()],
    [datetime.now().isoformat()] and SQLite's [CURRENT_TIMESTAMP]. *)
Record clock := {
  today : pystr;
  now : pystr;
  current_timestamp : pystr
}.

(** The row that
    [INSERT INTO entries (date, type, content, ai_prompts) VALUES (?, ?, ?, ?)]
    writes: the id counts up and both timestamps default to
    [CURRENT_TIMESTAMP]. *)
Definition new_entry (ck : clock) (date type content ai_prompts : pystr)
    (db : database) : entry :=
  {| entry_id := N.of_nat (List.length db) + 1;
     entry_date := date;
     entry_type := type;
     entry_content := content;
     entry_ai_prompts := ai_prompts;
     entry_created_at := current_timestamp ck;
     entry_updated_at := current_timestamp ck |}.

(** The [execute] of that statement.  Binding a text that cannot be
    encoded raises [UnicodeEncodeError] and nothing is written: [None].
    The date is an isoformat text and [ai_prompts] is written by
    [json.dumps] with [ensure_ascii], so both are ASCII; the type and the
    content are what the caller was handed. *)
Definition insert_entry (ck : clock) (date type content ai_prompts : pystr)
    (db : database) : option database :=
  if encodable type && encodable content
  then Some (db ++ [new_entry ck date type content ai_prompts db])
  else None.

(** Text comparison of the [BINARY] collation. *)
Fixpoint str_leb (a b : pystr) : bool :=
  match a, b with
  | [], _ => true
  | _ :: _, [] => false
  | x :: a', y :: b' => (x <? y) || ((x =? y) && str_leb a' b')
  end.

(** [ORDER BY created_at DESC].  SQL leaves the order of rows with equal
    keys open; SQLite hands them out as they were inserted, the earlier
    row first, and so does [insert_desc]: [e] was inserted before every
    row of [sorted] and goes behind the rows that are strictly newer. *)
Fixpoint insert_desc (e : entry) (sorted : list entry) : list entry :=
  match sorted with
  | [] => [e]
  | x :: rest =>
      if str_leb (entry_created_at x) (entry_created_at e)
      then e :: sorted
      else x :: insert_desc e rest
  end.

Definition order_by_created_at_desc (rows : list entry) : list entry :=
  fold_right insert_desc [] rows.

(** [LIMIT ?]: a negative limit is no limit. *)
Definition sql_limit {A : Type} (limit : Z) (rows : list A) : list A :=
  if (limit <? 0)%Z then rows else firstn (Z.to_nat limit) rows.

(** [WHERE (type = ? OR type = ?)] with [(session_type, f"voice_{session_type}")] *)
Definition in_category (session_type : pystr) (e : entry) : bool :=
  str_eqb (entry_type e) session_type
  || str_eqb (entry_type e) (py "voice_" ++ session_type).

(** [SELECT content, ai_prompts, date] *)
Definition selected_columns (e : entry) : pystr * pystr * pystr :=
  (entry_content e, entry_ai_prompts e, entry_date e).

(** A Python [int] is bound as a 64-bit integer; outside of it the
    [execute] raises [OverflowError]. *)
Definition sql_integer (n : Z) : bool := (- 2 ^ 63 <=? n)%Z && (n <? 2 ^ 63)%Z.

Module JournalDB.

(** [get_recent_entries(session_type, limit)]: [None] stands for the
    exception of an [execute] that cannot bind the session type or the
    limit. *)
Definition get_recent_entries (session_type : pystr) (limit : Z) (db : database)
    : option (list (pystr * pystr * pystr)) :=
  if encodable session_type && sql_integer limit
  then Some (map selected_columns
               (sql_limit limit
                  (order_by_created_at_desc (filter (in_category session_type) db))))
  else None.

(** [save_entry(content, entry_type, ai_response)]: [None] stands for the
    exception of an [execute] that cannot bind the type or the content. *)
Definition save_entry (rt : runtime) (ck : clock)
    (content entry_type ai_response : pystr) (db : database) : option database :=
  let ai_data :=
    Json.dumps rt
      (JArr [ JObj [ (py "user", JStr content);
                     (py "ai", JStr ai_response);
                     (py "timestamp", JStr (now ck)) ] ]) in
  insert_entry ck (today ck) entry_type content ai_data db.

(** [count_entries(session_type)]: the number the statement yields.  A
    session type that cannot be encoded cannot be bound, so that the call
    raises instead; what is stated of such a count below is stated for
    session types that can be encoded. *)
Definition count_entries (session_type : pystr) (db : database) : nat :=
  List.length (filter (in_category session_type) db).

End JournalDB.

(** ** Starting a text session *)








(** ** Transcript fragments and their flush *)

Inductive role :=
| user
| assistant.

Definition role_name (r : role) : pystr :=
  match r with user => py "user" | assistant => py "assistant" end.

Definition is_user (r : role) : bool :=
  match r with user => true | assistant => false end.

(** One element of [conversation_transcript]: the dict
    [{"role": ..., "content": ..., "timestamp": ...}].  The content is
    whatever value the upstream event carried. *)
Record fragment := {
  frag_role : role;
  frag_content : json;
  frag_timestamp : pystr
}.

Definition fragment_json (f : fragment) : json :=
  JObj [ (py "role", JStr (role_name (frag_role f)));
         (py "content", frag_content f);
         (py "timestamp", JStr (frag_timestamp f)) ].

Definition transcript_json (transcript : list fragment) : json :=
  JArr (map fragment_json transcript).

(** The items [" ".join] accepts: every one a [str], else [TypeError]. *)
Fixpoint all_text (items : list json) : option (list pystr) :=
  match items with
  | [] => Some []
  | JStr s :: rest =>
      match all_text rest with
      | Some texts => Some (s :: texts)
      | None => None
      end
  | _ :: _ => None
  end.

(** A value inside an f-string. *)
Definition format_value (rt : runtime) (v : json) : pystr :=
  match v with
  | JStr s => s
  | _ => py_str rt v
  end.

Definition user_content (transcript : list fragment) : list json :=
  map frag_content (filter (fun f => is_user (frag_role f)) transcript).

(** [save_voice_transcript(transcript, session_type)].  Any exception is
    caught and printed, and then nothing has been written. *)
Definition save_voice_transcript (rt : runtime) (ck : clock)
    (transcript : list fragment) (session_type : json) (db : database) : database :=
  match user_content transcript with
  | [] => db
  | _ :: _ =>
      let full_transcript := Json.dumps rt (transcript_json transcript) in
      match all_text (user_content transcript) with
      | None => db
      | Some texts =>
          let user_summary := join (py " ") texts in
          match
            insert_entry ck (today ck) (py "voice_" ++ format_value rt session_type)
              user_summary full_transcript db
          with
          | Some db' => db'
          | None => db
          end
      end
  end.

(** A fragment of the data model carries text; [text_fragment] says that
    of the content alone, [unicode_fragment] also that content and
    timestamp are made of Unicode scalar values. *)
Definition text_fragment (f : fragment) : Prop :=
  exists s, frag_content f = JStr s.

Definition unicode_fragment (f : fragment) : Prop :=
  (exists s, frag_content f = JStr s /\ unicode_text s)
  /\ unicode_text (frag_timestamp f).

(** The texts of the [user] fragments, in recorded order. *)
Definition user_texts (transcript : list fragment) : list pystr :=
  flat_map (fun f => match frag_role f, frag_content f with
                     | user, JStr s => [s]
                     | _, _ => []
                     end) transcript.

(** ** The voice relay

    Two tasks run on one event loop: the handler's own loop reads the
    client and writes upstream, the task [relay_from_openai] reads upstream
    and writes to the client.  Each event below is one iteration of one of
    the two loops, from its receive to its last send; the outcome of every
    send that iteration makes is part of the event.  An iteration is
    taken as one step: the interleaving of the two tasks at the awaits
    inside an iteration is not modelled.  The trace lists the calls made
    on the two connections in order, whether they raised or not.
    Printing and logging are not recorded, and the entries table is a
    list that always accepts a row. *)

Inductive frame :=
| Text (s : pystr)
| Binary (b : list Byte.byte).

Inductive action :=
| ToClient (f : frame)
| Connect (url : pystr)
| ToUpstream (f : frame)
| CloseUpstream.

(** The local variables of [voice_websocket]. *)
Record session := {
  openai_ws : bool;
  conversation_transcript : list fragment;
  session_type : json;
  awaiting_response : bool
}.

Definition set_awaiting (st : session) (b : bool) : session :=
  {| openai_ws := openai_ws st;
     conversation_transcript := conversation_transcript st;
     session_type := session_type st;
     awaiting_response := b |}.

Definition append_fragment (st : session) (f : fragment) : session :=
  {| openai_ws := openai_ws st;
     conversation_transcript := conversation_transcript st ++ [f];
     session_type := session_type st;
     awaiting_response := awaiting_response st |}.

(** [data.get("type") == name] *)
Definition type_is (d : list (pystr * json)) (name : pystr) : bool :=
  match dict_get d (py "type") with
  | Some (JStr t) => str_eqb t name
  | _ => false
  end.

Definition completion_events : list pystr :=
  [ py "response.completed";
    py "response.audio.done";
    py "response.output_audio.done";
    py "response.text.done";
    py "response.output_text.done" ].

Definition response_create : json :=
  JObj [ (py "type", JStr (py "response.create"));
         (py "response", JObj [ (py "modalities",
                                  JArr [ JStr (py "text"); JStr (py "audio") ]) ]) ].

(** What one iteration of the relay task meets: the outcome of its own
    [response.create] send (if it makes one), the clock for a fragment's
    timestamp, and the outcome of forwarding the frame to the client. *)
Record relay_io := {
  create_sent : outcome;
  fragment_time : pystr;
  forwarded : outcome
}.

(** One iteration of [relay_from_openai] on the frame [message].  The
    boolean tells whether the task goes on to the next frame: every
    exception is caught in the task, which then ends. *)
Definition relay_step (rt : runtime) (st : session) (message : frame) (io : relay_io)
    : list action * session * bool :=
  match message with
  | Binary b => ([ToClient (Binary b)], st, is_done (forwarded io))
  | Text m =>
      match Json.loads m with
      | None => ([ToClient (Text m)], st, is_done (forwarded io))
      | Some (JObj data) =>
          let commit :=
            type_is data (py "input_audio_buffer.committed")
            && negb (awaiting_response st) in
          let requests :=
            if commit then [ToUpstream (Text (Json.dumps rt response_create))] else [] in
          let st1 :=
            if commit && is_done (create_sent io) then set_awaiting st true else st in
          let st2 :=
            if existsb (type_is data) completion_events
            then set_awaiting st1 false else st1 in
          let st3 :=
            if type_is data (py "conversation.item.input_audio_transcription.completed")
            then append_fragment st2
                   {| frag_role := user;
                      frag_content := dict_get_default data (py "transcript") (JStr []);
                      frag_timestamp := fragment_time io |}
            else if type_is data (py "response.text.done")
            then append_fragment st2
                   {| frag_role := assistant;
                      frag_content := dict_get_default data (py "text") (JStr []);
                      frag_timestamp := fragment_time io |}
            else st2 in
          (requests ++ [ToClient (Text m)], st3, is_done (forwarded io))
      | Some _ => ([], st, false)
      end
  end.

(** What [websocket.receive()] returns. *)
Inductive asgi_message :=
| Disconnect
| ReceiveBytes (b : list Byte.byte)
| ReceiveText (t : pystr).

Inductive step_end :=
| Continue
| Break
| Escapes (e : exn).

Definition after_send (o : outcome) : step_end :=
  match o with Done => Continue | Raises e => Escapes e end.

(** One iteration of the handler's loop on the client message [m];
    [sent] is the outcome of its [openai_ws.send]. *)
Definition client_step (st : session) (m : asgi_message) (sent : outcome)
    : list action * session * step_end :=
  match m with
  | Disconnect => ([], st, Break)
  | ReceiveBytes b => ([ToUpstream (Binary b)], st, after_send sent)
  | ReceiveText t =>
      let st' :=
        match Json.loads t with
        | Some (JObj payload) =>
            if type_is payload (py "response.create") then set_awaiting st true else st
        | _ => st
        end in
      ([ToUpstream (Text t)], st', after_send sent)
  end.

Inductive event :=
| Upstream (m : frame) (io : relay_io)
| UpstreamClosed
| Client (m : asgi_message) (sent : outcome)
| ClientRaises (e : exn).

(** How the handler's loop is left: not yet ([Pending], the events ran
    out), normally (a disconnect message, or [WebSocketDisconnect], which
    the loop's own handler swallows), or by an exception that escapes. *)
Inductive loop_end :=
| Pending
| Left
| Failed (e : exn).

Definition leave (e : exn) : loop_end :=
  match e with
  | WebSocketDisconnect => Left
  | _ => Failed e
  end.

(** The two loops, interleaved as the events say.  Once the relay task
    has ended, frames from upstream are no longer read. *)
Fixpoint relay_loops (rt : runtime) (st : session) (relay_alive : bool)
    (events : list event) : list action * session * loop_end :=
  match events with
  | [] => ([], st, Pending)
  | Upstream m io :: rest =>
      if relay_alive then
        let '(acts, st', alive') := relay_step rt st m io in
        let '(acts', st'', e) := relay_loops rt st' alive' rest in
        (acts ++ acts', st'', e)
      else relay_loops rt st false rest
  | UpstreamClosed :: rest => relay_loops rt st false rest
  | Client m sent :: rest =>
      match client_step st m sent with
      | (acts, st', Continue) =>
          let '(acts', st'', e) := relay_loops rt st' relay_alive rest in
          (acts ++ acts', st'', e)
      | (acts, st', Break) => (acts, st', Left)
      | (acts, st', Escapes e) => (acts, st', leave e)
      end
  | ClientRaises e :: _ => ([], st, leave e)
  end.

(** What the setup meets, and the clock at the flush. *)
Record setup_io := {
  api_key : option pystr;
  key_error_sent : outcome;
  config_data : result pystr;
  connected : outcome;
  config_sent : outcome;
  ready_sent : outcome;
  error_sent : outcome;
  flush_clock : clock
}.

Definition error_message (text : pystr) : json :=
  JObj [ (py "type", JStr (py "error")); (py "message", JStr text) ].

Definition ready_message : json :=
  JObj [ (py "type", JStr (py "ready"));
         (py "message", JStr (py "Voice session ready")) ].

Definition session_config (instructions : pystr) : json :=
  JObj [ (py "type", JStr (py "session.update"));
         (py "session",
          JObj [ (py "modalities", JArr [ JStr (py "text"); JStr (py "audio") ]);
                 (py "instructions", JStr instructions);
                 (py "voice", JStr VoiceConfig.DEFAULT_VOICE);
                 (py "input_audio_format", JStr VoiceConfig.AUDIO_FORMAT);
                 (py "output_audio_format", JStr VoiceConfig.AUDIO_FORMAT);
                 (py "input_audio_transcription",
                  JObj [ (py "model", JStr (py "whisper-1")) ]);
                 (py "temperature", VoiceConfig.TEMPERATURE);
                 (py "max_response_output_tokens", VoiceConfig.MAX_TOKENS) ]) ].

Definition realtime_url : pystr :=
  py "wss://api.openai.com/v1/realtime?model=" ++ VoiceConfig.DEFAULT_VOICE_MODEL.

Definition initial_session : session :=
  {| openai_ws := false;
     conversation_transcript := [];
     session_type := JStr (py "reflection");
     awaiting_response := false |}.

Definition set_session_type (st : session) (v : json) : session :=
  {| openai_ws := openai_ws st;
     conversation_transcript := conversation_transcript st;
     session_type := v;
     awaiting_response := awaiting_response st |}.

Definition set_connected (st : session) : session :=
  {| openai_ws := true;
     conversation_transcript := conversation_transcript st;
     session_type := session_type st;
     awaiting_response := awaiting_response st |}.

Definition key_missing (k : option pystr) : bool :=
  match k with
  | None | Some [] => true
  | Some (_ :: _) => false
  end.

(** [print(f"Starting voice session: {session_type}")], between the
    reading of the configuration and the connect.  The text of a [str] is
    written as it is and has to be encodable; of any other value Python
    writes the [repr], which escapes what cannot be encoded. *)
Definition printable (v : json) : bool :=
  match v with
  | JStr s => encodable s
  | _ => true
  end.

(** The body of the outer [try] up to the ready signal.  [None] says that
    the setup went through and the two loops start; otherwise the body is
    left at once, by the [return] after the missing key or by an
    exception. *)
Definition session_setup (rt : runtime) (io : setup_io)
    : list action * session * option loop_end :=
  let st0 := initial_session in
  if key_missing (api_key io) then
    ([ToClient (Text (Json.dumps rt
                        (error_message (py "OpenAI API key not configured"))))],
     st0,
     match key_error_sent io with
     | Done => Some Left
     | Raises e => Some (Failed e)
     end)
  else
    match config_data io with
    | Raise e => ([], st0, Some (Failed e))
    | Ok text =>
        match Json.loads text with
        | None => ([], st0, Some (Failed JSONDecodeError))
        | Some (JObj config) =>
            let st1 :=
              set_session_type st0
                (dict_get_default config (py "session_type") (JStr (py "reflection"))) in
            if printable (session_type st1) then
              match connected io with
              | Raises e => ([Connect realtime_url], st1, Some (Failed e))
              | Done =>
                  let st2 := set_connected st1 in
                  match get_session_prompt (session_type st2) true with
                  | Raise e => ([Connect realtime_url], st2, Some (Failed e))
                  | Ok instructions =>
                      let configure :=
                        [ Connect realtime_url;
                          ToUpstream (Text (Json.dumps rt (session_config instructions))) ] in
                      match config_sent io with
                      | Raises e => (configure, st2, Some (Failed e))
                      | Done =>
                          let ready :=
                            configure ++ [ToClient (Text (Json.dumps rt ready_message))] in
                          match ready_sent io with
                          | Raises e => (ready, st2, Some (Failed e))
                          | Done => (ready, st2, None)
                          end
                      end
                  end
              end
            else ([], st1, Some (Failed UnicodeEncodeError))
        | Some _ => ([], st0, Some (Failed AttributeError))
        end
    end.

(** The body of the outer [try]: the setup, then the two loops. *)
Definition session_body (rt : runtime) (io : setup_io) (events : list event)
    : list action * session * loop_end :=
  match session_setup rt io with
  | (acts, st, Some e) => (acts, st, e)
  | (acts, st, None) =>
      let '(acts', st', e) := relay_loops rt st true events in
      (acts ++ acts', st', e)
  end.

(** How a run of the handler stands when the events are used up. *)
Inductive status :=
| Running
| Returned
| Propagated (e : exn).

Record run := {
  trace : list action;
  final : session;
  stored : database;
  ended : status
}.

(** The [finally] clause. *)
Definition teardown (rt : runtime) (io : setup_io) (st : session) (db : database)
    : list action * database :=
  ( (if openai_ws st then [CloseUpstream] else []),
    match conversation_transcript st with
    | [] => db
    | _ :: _ =>
        save_voice_transcript rt (flush_clock io)
          (conversation_transcript st) (session_type st) db
    end ).

(** [voice_websocket], from after [websocket.accept()]. *)
Definition voice_websocket (rt : runtime) (io : setup_io) (events : list event)
    (db : database) : run :=
  let '(acts, st, e) := session_body rt io events in
  match e with
  | Pending => {| trace := acts; final := st; stored := db; ended := Running |}
  | Left =>
      let '(closing, db') := teardown rt io st db in
      {| trace := acts ++ closing; final := st; stored := db'; ended := Returned |}
  | Failed e =>
      let report := [ToClient (Text (Json.dumps rt (error_message (exn_text rt e))))] in
      let '(closing, db') := teardown rt io st db in
      {| trace := acts ++ report ++ closing;
         final := st;
         stored := db';
         ended := match error_sent io with
                  | Done => Returned
                  | Raises e' => Propagated e'
                  end |}
  end.

(** ** Sample inputs

    [jq] writes a JSON text with an apostrophe for each double quote. *)

Definition jq (s : string) : pystr :=
  map (fun c => if c =? 39 then 34 else c) (py s).

Definition sample_runtime : runtime :=
  {| num_repr := fun lit => lit;
     py_str := fun _ => py "None";
     exn_text := fun _ => py "connection closed" |}.

Definition sample_clock : clock :=
  {| today := py "2025-03-01";
     now := py "2025-03-01T10:00:00";
     current_timestamp := py "2025-03-01 10:00:00" |}.

Definition sample_setup (config : pystr) : setup_io :=
  {| api_key := Some (py "sk-test");
     key_error_sent := Done;
     config_data := Ok config;
     connected := Done;
     config_sent := Done;
     ready_sent := Done;
     error_sent := Done;
     flush_clock := sample_clock |}.

Definition no_key_setup : setup_io :=
  {| api_key := None;
     key_error_sent := Done;
     config_data := Raise WebSocketDisconnect;
     connected := Done;
     config_sent := Done;
     ready_sent := Done;
     error_sent := Done;
     flush_clock := sample_clock |}.

Definition all_sent (time : string) : relay_io :=
  {| create_sent := Done; fragment_time := py time; forwarded := Done |}.

Definition create_fails : relay_io :=
  {| create_sent := Raises ConnectionClosed;
     fragment_time := py "2025-03-01T10:00:01";
     forwarded := Done |}.

Definition committed_text : pystr := jq "{'type': 'input_audio_buffer.committed'}".

Definition three_fragments : list fragment :=
  [ {| frag_role := user; frag_content := JStr (py "A");
       frag_timestamp := py "2025-03-01T10:00:01" |};
    {| frag_role := assistant; frag_content := JStr (py "B");
       frag_timestamp := py "2025-03-01T10:00:02" |};
    {| frag_role := user; frag_content := JStr (py "C");
       frag_timestamp := py "2025-03-01T10:00:03" |} ].

Definition three_fragment_events : list event :=
  [ Upstream
      (Text (jq "{'type': 'conversation.item.input_audio_transcription.completed', 'transcript': 'A'}"))
      (all_sent "2025-03-01T10:00:01");
    Upstream (Text (jq "{'type': 'response.text.done', 'text': 'B'}"))
      (all_sent "2025-03-01T10:00:02");
    Upstream
      (Text (jq "{'type': 'conversation.item.input_audio_transcription.completed', 'transcript': 'C'}"))
      (all_sent "2025-03-01T10:00:03");
    Client Disconnect Done ].

Definition dreams_config : pystr := jq "{'session_type': 'dreams'}".

(** ** Two sentences of the specification, as they are written

    The specification has the flag true after every committed buffer that
    finds it false, and has no failure after the setup reported to the
    client.  The relay does otherwise; the two statements are refuted
    below and the amended ones are proved. *)

Definition committed_always_sets_flag : Prop :=
  forall (rt : runtime) (st : session) (m : pystr) (data : list (pystr * json))
         (io : relay_io),
    Json.loads m = Some (JObj data) ->
    dict_get data (py "type") = Some (JStr (py "input_audio_buffer.committed")) ->
    awaiting_response st = false ->
    fst (fst (relay_step rt st (Text m) io))
    = [ ToUpstream (Text (Json.dumps rt response_create)); ToClient (Text m) ]
    /\ awaiting_response (snd (fst (relay_step rt st (Text m) io))) = true.

(** A consequence of the sentence: with no frame from upstream there is
    nothing to forward, so after the setup the client would be sent
    nothing at all, whatever fails. *)
Definition failures_after_setup_are_silent : Prop :=
  forall (rt : runtime) (io : setup_io) (events : list event) (db : database)
         (acts0 : list action) (st0 : session),
    session_setup rt io = (acts0, st0, None) ->
    (forall f io', ~ In (Upstream f io') events) ->
    forall f,
      ~ In (ToClient f)
           (skipn (List.length acts0) (trace (voice_websocket rt io events db))).

(** ** Further sentences, as they are written

    The specification has no session type on which the start of a
    session fails, has a transcript persisted whenever it holds a [user]
    fragment, and has every fragment list recovered from the persisted
    text.  The program does otherwise for content that is not text and
    for text with lone surrogates; the three statements are refuted below
    and the amended ones are proved. *)


Definition persisted_iff_user_fragment : Prop :=
  forall (rt : runtime) (io : setup_io) (events : list event) (db : database),
    let r := voice_websocket rt io events db in
    ended r <> Running ->
    ((exists e, stored r = db ++ [e])
     <-> exists f, In f (conversation_transcript (final r)) /\ frag_role f = user).


(** A transcription event that carries [null], then the disconnect. *)
Definition null_transcript_events : list event :=
  [ Upstream
      (Text (jq "{'type': 'conversation.item.input_audio_transcription.completed', 'transcript': null}"))
      (all_sent "2025-03-01T10:00:01");
    Client Disconnect Done ].


(** ** What a run shows: frames, fragments and requests

    The frames the relay task was handed, the frames the client was sent,
    the fragments one upstream frame adds to the transcript, and the
    events that complete a response. *)

Fixpoint upstream_events (events : list event) : list (frame * relay_io) :=
  match events with
  | [] => []
  | Upstream m io :: rest => (m, io) :: upstream_events rest
  | _ :: rest => upstream_events rest
  end.

Fixpoint client_frames (acts : list action) : list frame :=
  match acts with
  | [] => []
  | ToClient f :: rest => f :: client_frames rest
  | _ :: rest => client_frames rest
  end.

Fixpoint upstream_sends (acts : list action) : list frame :=
  match acts with
  | [] => []
  | ToUpstream f :: rest => f :: upstream_sends rest
  | _ :: rest => upstream_sends rest
  end.

Definition recorded (m : frame) (io : relay_io) : list fragment :=
  match m with
  | Text t =>
      match Json.loads t with
      | Some (JObj data) =>
          if type_is data (py "conversation.item.input_audio_transcription.completed")
          then [ {| frag_role := user;
                    frag_content := dict_get_default data (py "transcript") (JStr []);
                    frag_timestamp := fragment_time io |} ]
          else if type_is data (py "response.text.done")
          then [ {| frag_role := assistant;
                    frag_content := dict_get_default data (py "text") (JStr []);
                    frag_timestamp := fragment_time io |} ]
          else []
      | _ => []
      end
  | Binary _ => []
  end.

Definition is_completion (m : frame) : bool :=
  match m with
  | Text t =>
      match Json.loads t with
      | Some (JObj data) => existsb (type_is data) completion_events
      | _ => false
      end
  | Binary _ => false
  end.

Definition is_object (v : json) : bool :=
  match v with JObj _ => true | _ => false end.

(** An event list in which only the relay task runs and every
    [response.create] it sends goes through. *)
Definition relay_only (ev : event) : bool :=
  match ev with
  | Upstream _ io => is_done (create_sent io)
  | UpstreamClosed => true
  | Client _ _ | ClientRaises _ => false
  end.

Definition flag_count (b : bool) : nat := if b then 1%nat else 0%nat.

(** Frames going one way or the other, as opposed to opening and closing
    the connection upstream. *)
Definition is_traffic (a : action) : bool :=
  match a with
  | ToClient _ | ToUpstream _ => true
  | Connect _ | CloseUpstream => false
  end.

Definition is_to_client (a : action) : bool :=
  match a with
  | ToClient _ => true
  | _ => false
  end.

(** The values Python can use as a key of a dict. *)
Definition hashable (v : json) : bool :=
  match v with
  | JArr _ | JObj _ => false
  | _ => true
  end.

Definition committed_twice_events : list event :=
  [ Upstream (Text committed_text) (all_sent "2025-03-01T10:00:01");
    Upstream (Text committed_text) (all_sent "2025-03-01T10:00:02");
    Upstream (Text (jq "{'type': 'response.audio.done'}"))
      (all_sent "2025-03-01T10:00:03");
    Upstream (Text committed_text) (all_sent "2025-03-01T10:00:04") ].

(** ** Reading the table: order and selection *)


(** ** Reading stored prompt data *)

(** [parse_ai_prompts(ai_prompts_json)]: a list as it is, a dict as a list
    of one, anything else (and a text that is not JSON) as no prompts. *)
Definition parse_ai_prompts (ai_prompts_json : pystr) : list json :=
  match ai_prompts_json with
  | [] => []
  | _ :: _ =>
      match Json.loads ai_prompts_json with
      | Some (JArr parsed) => parsed
      | Some (JObj parsed) => [JObj parsed]
      | Some _ => []
      | None => []
      end
  end.

(** The record [save_entry] stores for one exchange of a text chat. *)
Definition chat_record (content ai_response time : pystr) : json :=
  JObj [ (py "user", JStr content);
         (py "ai", JStr ai_response);
         (py "timestamp", JStr time) ].

(** ** A sample table *)

(** The table of a save that went through, the empty one otherwise. *)
Definition saved (o : option database) : database :=
  match o with
  | Some db => db
  | None => []
  end.

Definition later_clock : clock :=
  {| today := py "2025-03-02";
     now := py "2025-03-02T09:00:00";
     current_timestamp := py "2025-03-02 09:00:00" |}.

(** A text chat, then a voice session of the same category, then a text
    chat of another one on the next day. *)
Definition sample_entries : database :=
  saved
    (JournalDB.save_entry sample_runtime later_clock
       (py "plan the week") (py "planning") (py "Which day first?")
       (save_voice_transcript sample_runtime sample_clock three_fragments
          (JStr (py "reflection"))
          (saved
             (JournalDB.save_entry sample_runtime sample_clock
                (py "hello") (py "reflection") (py "How was your day?") [])))).

(** ** Listing entries *)






(** ** Recent conversations as context *)

(** [bool(v)]; [nonzero lit] tells whether the number read from the
    literal [lit] is not zero, which the embedding does not compute. *)
Definition truthy (nonzero : pystr -> bool) (v : json) : bool :=
  match v with
  | JNull => false
  | JBool b => b
  | JNum lit => nonzero lit
  | JStr s => match s with [] => false | _ :: _ => true end
  | JArr items => match items with [] => false | _ :: _ => true end
  | JObj members => match members with [] => false | _ :: _ => true end
  end.

(** [s[:n] + "..." if len(s) > n else s] for a [str]. *)
Definition clip (n : nat) (s : pystr) : pystr :=
  if (n <? List.length s)%nat then firstn n s ++ py "..." else s.

(** [v[:n] + "..." if len(v) > n else v] for a parsed value; [None]
    stands for a raised exception: [len] of a number, of a [bool] or of
    [None], a list slice added to a [str], a slice of a [dict]. *)
Definition clip_value (n : nat) (v : json) : option json :=
  match v with
  | JStr s => Some (JStr (clip n s))
  | JArr items => if (n <? List.length items)%nat then None else Some v
  | JObj members => if (n <? List.length members)%nat then None else Some v
  | JNull | JBool _ | JNum _ => None
  end.

(** [d.get(k)] *)
Definition get_or_none (d : list (pystr * json)) (k : pystr) : json :=
  dict_get_default d k JNull.

(** [d.get(k) == text] *)
Definition get_is (d : list (pystr * json)) (k text : pystr) : bool :=
  match get_or_none d k with
  | JStr s => str_eqb s text
  | _ => false
  end.

(** The loop over the prompts, already reversed, that looks for the last
    reply; [ai_summary] starts as the empty text. *)
Fixpoint last_ai_reply (nonzero : pystr -> bool) (prompts : list json)
    : option json :=
  match prompts with
  | [] => Some (JStr [])
  | JObj prompt :: rest =>
      if truthy nonzero (get_or_none prompt (py "ai"))
      then clip_value 150 (get_or_none prompt (py "ai"))
      else if get_is prompt (py "role") (py "assistant")
              && truthy nonzero (get_or_none prompt (py "content"))
      then clip_value 150 (get_or_none prompt (py "content"))
      else last_ai_reply nonzero rest
  | _ :: rest => last_ai_reply nonzero rest
  end.

(** One round of the loop over the entries: the parts it appends. *)
Definition entry_context (rt : runtime) (nonzero : pystr -> bool)
    (row : pystr * pystr * pystr) : option (list pystr) :=
  let '(content, ai_prompts_json, entry_date) := row in
  let key_points := clip 200 content in
  let ai_prompts := parse_ai_prompts ai_prompts_json in
  match
    match ai_prompts with
    | [] => Some (JStr [])
    | _ :: _ => last_ai_reply nonzero (rev ai_prompts)
    end
  with
  | None => None
  | Some ai_summary =>
      Some ((py "[" ++ entry_date ++ py "] You: " ++ key_points)
            :: if truthy nonzero ai_summary
               then [py "AI: " ++ format_value rt ai_summary]
               else [])
  end.

Fixpoint context_parts (rt : runtime) (nonzero : pystr -> bool)
    (entries : list (pystr * pystr * pystr)) : option (list pystr) :=
  match entries with
  | [] => Some []
  | row :: rest =>
      match entry_context rt nonzero row with
      | None => None
      | Some parts =>
          match context_parts rt nonzero rest with
          | None => None
          | Some more => Some (parts ++ more)
          end
      end
  end.

(** [get_recent_context(session_type, limit)]: the outer [None] stands for
    a raised exception, [Some None] for the returned [None]. *)
Definition get_recent_context (rt : runtime) (nonzero : pystr -> bool)
    (session_type : pystr) (limit : Z) (db : database) : option (option pystr) :=
  match JournalDB.get_recent_entries session_type limit db with
  | None => None
  | Some [] => Some None
  | Some entries =>
      match context_parts rt nonzero entries with
      | None => None
      | Some parts => Some (Some (join (py " | ") parts))
      end
  end.

(** A fragment the loop takes as a reply: spoken by the assistant, with
    text that is not empty. *)
Definition is_reply (f : fragment) : bool :=
  match frag_role f, frag_content f with
  | assistant, JStr (_ :: _) => true
  | _, _ => false
  end.

(** The text of a fragment's content, empty when it has none. *)
Definition content_text (f : fragment) : pystr :=
  match frag_content f with
  | JStr s => s
  | _ => []
  end.

Definition latest_clock : clock :=
  {| today := py "2025-03-03";
     now := py "2025-03-03T08:00:00";
     current_timestamp := py "2025-03-03 08:00:00" |}.

(** ** The summaries table *)

Record summary := {
  summary_id : N;
  summary_session_type : pystr;
  summary_text : pystr;
  summary_key_themes : pystr;
  summary_mentioned_goals : pystr;
  summary_entry_count : nat;
  summary_last_entry_date : pystr;
  summary_created_at : pystr;
  summary_updated_at : pystr
}.

(** The table, in insertion order.  No statement of the program deletes
    from it. *)
Definition summaries := list summary.

(** [WHERE session_type = ?] *)
Definition of_session_type (session_type : pystr) (r : summary) : bool :=
  str_eqb (summary_session_type r) session_type.

(** [ORDER BY updated_at DESC], as for the entries. *)
Fixpoint insert_updated_desc (r : summary) (sorted : list summary) : list summary :=
  match sorted with
  | [] => [r]
  | x :: rest =>
      if str_leb (summary_updated_at x) (summary_updated_at r)
      then r :: sorted
      else x :: insert_updated_desc r rest
  end.

Definition order_by_updated_at_desc (rows : list summary) : list summary :=
  fold_right insert_updated_desc [] rows.

(** [get_summary(session_type)]: [fetchone] of the newest row, [None]
    when there is none. *)
Definition get_summary (session_type : pystr) (tbl : summaries)
    : option (pystr * pystr * pystr) :=
  match order_by_updated_at_desc (filter (of_session_type session_type) tbl) with
  | [] => None
  | r :: _ =>
      Some (summary_text r, summary_key_themes r, summary_mentioned_goals r)
  end.

(** The row that [save_summary(...)] writes.  [updated_at] is the
    isoformat time of the program, not the table's default. *)
Definition new_summary (rt : runtime) (ck : clock)
    (session_type text : pystr) (key_themes mentioned_goals : list pystr)
    (entry_count : nat) (tbl : summaries) : summary :=
  {| summary_id := N.of_nat (List.length tbl) + 1;
     summary_session_type := session_type;
     summary_text := text;
     summary_key_themes := Json.dumps rt (JArr (map JStr key_themes));
     summary_mentioned_goals := Json.dumps rt (JArr (map JStr mentioned_goals));
     summary_entry_count := entry_count;
     summary_last_entry_date := today ck;
     summary_created_at := current_timestamp ck;
     summary_updated_at := now ck |}.

(** [save_summary(...)].  The statement is [INSERT OR REPLACE], but the
    only key of the table is the id, which the statement leaves to the
    table: it never meets a row to replace.  Binding a session type or a
    summary text that cannot be encoded raises and nothing is written:
    [None]; the other texts are JSON written with [ensure_ascii] and
    isoformat times. *)
Definition save_summary (rt : runtime) (ck : clock)
    (session_type text : pystr) (key_themes mentioned_goals : list pystr)
    (entry_count : nat) (tbl : summaries) : option summaries :=
  if encodable session_type && encodable text
  then Some (tbl ++ [new_summary rt ck session_type text key_themes
                       mentioned_goals entry_count tbl])
  else None.

(** [has_recent_summary(session_type)]; [week_ago] is the text of
    [datetime('now', '-7 days')], and [>] compares the two texts. *)
Definition has_recent_summary (week_ago session_type : pystr) (tbl : summaries)
    : bool :=
  (0 <? List.length
          (filter (fun r => of_session_type session_type r
                            && negb (str_leb (summary_updated_at r) week_ago))
             tbl))%nat.

(** ** Generating a summary *)

(** [str.lower] and [str.strip], whose Unicode tables the embedding does
    not carry. *)
Record text_ops := {
  lower : pystr -> pystr;
  strip : pystr -> pystr
}.

(** [s.split(sep)] for a separator of one character. *)
Fixpoint split_on (sep : N) (s : pystr) : list pystr :=
  match s with
  | [] => [[]]
  | c :: r =>
      if c =? sep then [] :: split_on sep r
      else match split_on sep r with
           | p :: ps => (c :: p) :: ps
           | [] => [[c]]
           end
  end.

(** [s.split(sep, 1)[1]]: [None] stands for the [IndexError] of a text
    without the separator. *)
Fixpoint after_first (sep : N) (s : pystr) : option pystr :=
  match s with
  | [] => None
  | c :: r => if c =? sep then Some r else after_first sep r
  end.

Fixpoint starts_with (p s : pystr) : bool :=
  match p, s with
  | [], _ => true
  | x :: p', y :: s' => (x =? y) && starts_with p' s'
  | _ :: _, [] => false
  end.

(** [needle in hay] *)
Fixpoint contains (needle hay : pystr) : bool :=
  starts_with needle hay
  || match hay with
     | [] => false
     | _ :: r => contains needle r
     end.

(** The loop over the lines of the answer: a later line of a kind
    replaces what an earlier one gave. *)
Fixpoint read_lines (ops : text_ops) (lines : list pystr)
    (key_themes mentioned_goals : list pystr)
    : option (list pystr * list pystr) :=
  match lines with
  | [] => Some (key_themes, mentioned_goals)
  | line :: rest =>
      if contains (py "themes:") (lower ops line) then
        match after_first 58 line with
        | None => None
        | Some text =>
            read_lines ops rest
              (map (strip ops) (split_on 44 (strip ops text))) mentioned_goals
        end
      else if contains (py "goals:") (lower ops line) then
        match after_first 58 line with
        | None => None
        | Some text =>
            read_lines ops rest
              key_themes (map (strip ops) (split_on 44 (strip ops text)))
        end
      else read_lines ops rest key_themes mentioned_goals
  end.

(** The rows [LIMIT 20 OFFSET 3] of the category, newest first. *)
Definition summary_window (session_type : pystr) (db : database) : list entry :=
  firstn 20
    (skipn 3 (order_by_created_at_desc (filter (in_category session_type) db))).

Definition summary_prompt (session_type combined_content : pystr) : pystr :=
  py "Please create a concise summary of these " ++ session_type
    ++ py " journal entries. Focus on:" ++ [10]
    ++ py "1. Key recurring themes and patterns" ++ [10]
    ++ py "2. Important goals or objectives mentioned" ++ [10]
    ++ py "3. Progress or changes over time" ++ [10]
    ++ py "4. Any significant insights or breakthroughs" ++ [10]
    ++ [10]
    ++ py "Entries:" ++ [10]
    ++ combined_content ++ [10]
    ++ [10]
    ++ py "Provide a summary in 2-3 sentences, followed by key themes (comma-separated) and any goals mentioned (comma-separated).".

(** [generate_summary(session_type)].  [ai prompt] is the text the model
    answers to the request made with [prompt], or the exception of the
    call or of reading its answer.  The result is the table and the
    requests made.  Every exception is caught and printed: that of the
    first statement, which binds the session type, that of the request,
    of the lines of the answer and of [save_summary]. *)
Definition generate_summary (rt : runtime) (ops : text_ops)
    (ai : pystr -> result pystr) (ck : clock)
    (session_type : pystr) (db : database) (tbl : summaries)
    : summaries * list pystr :=
  if negb (encodable session_type) then (tbl, [])
  else
  let entries := summary_window session_type db in
  if (List.length entries <? 3)%nat then (tbl, [])
  else
    let content_for_summary :=
      map (fun e => py "[" ++ entry_date e ++ py "] " ++ entry_content e) entries in
    let combined_content := join [10; 10] content_for_summary in
    let prompt := summary_prompt session_type combined_content in
    match ai prompt with
    | Raise _ => (tbl, [prompt])
    | Ok summary_response =>
        let lines := split_on 10 summary_response in
        let text := match lines with
                    | first :: _ => first
                    | [] => summary_response
                    end in
        match read_lines ops lines [] [] with
        | None => (tbl, [prompt])
        | Some (key_themes, mentioned_goals) =>
            match
              save_summary rt ck session_type text key_themes mentioned_goals
                (List.length entries) tbl
            with
            | Some tbl' => (tbl', [prompt])
            | None => (tbl, [prompt])
            end
        end
    end.

(** [maybe_generate_summary(session_type)]: the table and the requests
    made.  For a session type that cannot be encoded the count raises,
    with the table as it was and no request, which are the values here
    too. *)
Definition maybe_generate_summary (rt : runtime) (ops : text_ops)
    (ai : pystr -> result pystr) (ck : clock) (week_ago : pystr)
    (session_type : pystr) (db : database) (tbl : summaries)
    : summaries * list pystr :=
  let entry_count := JournalDB.count_entries session_type db in
  if (5 <=? entry_count)%nat && negb (has_recent_summary week_ago session_type tbl)
  then generate_summary rt ops ai ck session_type db tbl
  else (tbl, []).

(** ** The stored summary as context *)

(** [sep.join(v)] for a parsed value: a list of texts, the characters of
    a text, the keys of an object; [None] stands for the [TypeError] of
    anything else. *)
Definition join_value (sep : pystr) (v : json) : option pystr :=
  match v with
  | JArr items =>
      match all_text items with
      | Some texts => Some (join sep texts)
      | None => None
      end
  | JStr s => Some (join sep (map (fun c => [c]) s))
  | JObj members => Some (join sep (map fst members))
  | JNull | JBool _ | JNum _ => None
  end.

(** [json.loads(column) if column else []] *)
Definition loads_or_empty (column : pystr) : option json :=
  match column with
  | [] => Some (JArr [])
  | _ :: _ => Json.loads column
  end.

(** The branch of [get_historical_summary] for a row that was found;
    [None] stands for a raised exception. *)
Definition summary_context (nonzero : pystr -> bool)
    (row : pystr * pystr * pystr) : option pystr :=
  let '(text, key_themes, mentioned_goals) := row in
  match loads_or_empty key_themes with
  | None => None
  | Some themes =>
      match loads_or_empty mentioned_goals with
      | None => None
      | Some goals =>
          match
            (if truthy nonzero themes
             then option_map (fun j => [py "Key themes: " ++ j])
                    (join_value (py ", ") themes)
             else Some [])
          with
          | None => None
          | Some themes_part =>
              match
                (if truthy nonzero goals
                 then option_map (fun j => [py "Goals mentioned: " ++ j])
                        (join_value (py ", ") goals)
                 else Some [])
              with
              | None => None
              | Some goals_part =>
                  Some (join (py " | ") ([text] ++ themes_part ++ goals_part))
              end
          end
      end
  end.

(** [get_historical_summary(session_type)]: what it returns (the outer
    [None] for a raised exception), the table and the requests made.
    [get_summary] binds the session type, and its exception is not
    caught here. *)
Definition get_historical_summary (rt : runtime) (ops : text_ops)
    (nonzero : pystr -> bool) (ai : pystr -> result pystr) (ck : clock)
    (week_ago : pystr) (session_type : pystr) (db : database) (tbl : summaries)
    : option (option pystr) * summaries * list pystr :=
  if negb (encodable session_type) then (None, tbl, [])
  else
  match get_summary session_type tbl with
  | Some row =>
      (option_map Some (summary_context nonzero row), tbl, [])
  | None =>
      let '(tbl', requests) :=
        maybe_generate_summary rt ops ai ck week_ago session_type db tbl in
      (Some None, tbl', requests)
  end.

(** An answer with a line of each kind. *)
Definition sample_answer : pystr :=
  py "Calm weeks, steady work." ++ [10]
    ++ py "Key themes: rest, focus" ++ [10]
    ++ py "Goals: sleep early".

(** ASCII lower case and the removal of spaces at both ends, enough for
    the sample answer. *)
Definition ascii_ops : text_ops :=
  {| lower := map (fun c => if (65 <=? c) && (c <=? 90) then c + 32 else c);
     strip := fun s =>
                let drop := fix drop (l : pystr) : pystr :=
                              match l with
                              | 32 :: r => drop r
                              | _ => l
                              end in
                rev (drop (rev (drop s))) |}.

(** The clock at ten on a day. *)
Definition clock_on (day : string) : clock :=
  {| today := py day;
     now := py day ++ py "T10:00:00";
     current_timestamp := py day ++ py " 10:00:00" |}.

(** Six text chats of one category, on six days. *)
Definition six_entries : database :=
  fold_left
    (fun db day =>
       saved (JournalDB.save_entry sample_runtime (clock_on day)
                (py "hello") (py "reflection") (py "How was your day?") db))
    [ "2025-03-01"; "2025-03-02"; "2025-03-03";
      "2025-03-04"; "2025-03-05"; "2025-03-06" ]%string
    [].

(** The table of a summary that was saved, the empty one otherwise. *)
Definition saved_summaries (o : option summaries) : summaries :=
  match o with
  | Some tbl => tbl
  | None => []
  end.

(** * Properties *)

(** ** Text and dictionaries *)

Lemma str_eqb_spec (a b : pystr) : reflect (a = b) (str_eqb a b).
Proof.
  revert b; induction a as [|x a IH]; intros [|y b]; simpl;
    try (constructor; congruence).
  destruct (N.eqb_spec x y) as [->|Hxy]; simpl.
  - destruct (IH b) as [->|Hab]; constructor; congruence.
  - constructor; congruence.
Qed.

Lemma str_eqb_refl (a : pystr) : str_eqb a a = true.
Proof. destruct (str_eqb_spec a a); congruence. Qed.

Lemma str_eqb_eq (a b : pystr) : str_eqb a b = true <-> a = b.
Proof. destruct (str_eqb_spec a b); split; congruence. Qed.

Lemma str_eqb_neq (a b : pystr) : str_eqb a b = false <-> a <> b.
Proof. destruct (str_eqb_spec a b); split; congruence. Qed.

Lemma scalar_valueb_sound (c : N) : scalar_valueb c = true -> scalar_value c.
Proof.
  unfold scalar_valueb, scalar_value. rewrite andb_true_iff, negb_true_iff.
  rewrite andb_false_iff, N.ltb_lt, !N.leb_gt. lia.
Qed.

Lemma unicode_text_check (s : pystr) :
  forallb scalar_valueb s = true -> unicode_text s.
Proof.
  intros H. apply Forall_forall. intros c Hc.
  apply scalar_valueb_sound. revert c Hc. now apply forallb_forall.
Qed.

Lemma scalar_valueb_complete (c : N) : scalar_value c -> scalar_valueb c = true.
Proof.
  unfold scalar_valueb, scalar_value. intros [Hlt Hsur].
  rewrite andb_true_iff, negb_true_iff. split; [now apply N.ltb_lt|].
  apply andb_false_iff.
  destruct (N.leb_spec 0xd800 c); [|now left].
  destruct (N.leb_spec c 0xdfff); [|now right].
  exfalso. apply Hsur. split; assumption.
Qed.

Lemma encodable_unicode (s : pystr) : encodable s = true <-> unicode_text s.
Proof.
  split; [apply unicode_text_check|].
  unfold encodable, unicode_text. intros H. apply forallb_forall.
  intros c Hc. apply scalar_valueb_complete. revert c Hc. now apply Forall_forall.
Qed.

Lemma encodable_app (a b : pystr) :
  encodable (a ++ b) = encodable a && encodable b.
Proof. apply forallb_app. Qed.

Lemma dict_get_absent {V : Type} (d : list (pystr * V)) (k : pystr) :
  ~ In k (map fst d) -> dict_get d k = None.
Proof.
  induction d as [|[k' v] d IH]; simpl; intros Hk; [reflexivity|].
  destruct (str_eqb_spec k' k) as [->|_].
  - exfalso; apply Hk; now left.
  - apply IH; intros Hin; apply Hk; now right.
Qed.

(** ** Prompt selection *)

Lemma prompt_tables_keys :
  map fst JournalPrompts.BASE_PROMPTS = known_session_types
  /\ map fst JournalPrompts.VOICE_PROMPTS = known_session_types
  /\ map fst JournalPrompts.INITIAL_MESSAGES = known_session_types.
Proof. repeat split; reflexivity. Qed.

Lemma get_session_prompt_unknown (s : pystr) (is_voice : bool) :
  ~ In s known_session_types ->
  get_session_prompt (JStr s) is_voice
  = get_session_prompt (JStr (py "reflection")) is_voice.
Proof.
  intros Hs. unfold get_session_prompt, dict_get_default.
  destruct prompt_tables_keys as (Hb & Hv & _).
  destruct is_voice.
  - rewrite (dict_get_absent JournalPrompts.VOICE_PROMPTS s) by (rewrite Hv; exact Hs).
    reflexivity.
  - rewrite (dict_get_absent JournalPrompts.BASE_PROMPTS s) by (rewrite Hb; exact Hs).
    reflexivity.
Qed.

Lemma get_session_prompt_text (s : pystr) (is_voice : bool) :
  exists text, get_session_prompt (JStr s) is_voice = Ok text.
Proof.
  unfold get_session_prompt.
  destruct is_voice; simpl dict_get at 1; eexists; reflexivity.
Qed.


(** ** The setup of a voice session *)

Lemma session_setup_configured (rt : runtime) (io : setup_io)
    (text : pystr) (config : list (pystr * json)) (s : pystr) :
  key_missing (api_key io) = false ->
  config_data io = Ok text ->
  Json.loads text = Some (JObj config) ->
  dict_get config (py "session_type") = Some (JStr s) ->
  encodable s = true ->
  exists instructions,
    get_session_prompt (JStr s) true = Ok instructions
    /\ session_setup rt io =
       let st1 := set_session_type initial_session (JStr s) in
       match connected io with
       | Raises e => ([Connect realtime_url], st1, Some (Failed e))
       | Done =>
           let st2 := set_connected st1 in
           let configure :=
             [ Connect realtime_url;
               ToUpstream (Text (Json.dumps rt (session_config instructions))) ] in
           match config_sent io with
           | Raises e => (configure, st2, Some (Failed e))
           | Done =>
               let ready :=
                 configure ++ [ToClient (Text (Json.dumps rt ready_message))] in
               match ready_sent io with
               | Raises e => (ready, st2, Some (Failed e))
               | Done => (ready, st2, None)
               end
           end
       end.
Proof.
  intros Hk Hc Hl Hs He.
  destruct (get_session_prompt_text s true) as [instructions Hi].
  exists instructions. split; [exact Hi|].
  unfold session_setup. rewrite Hk, Hc, Hl.
  unfold dict_get_default. rewrite Hs.
  cbv zeta.
  change (printable (session_type (set_session_type initial_session (JStr s))))
    with (encodable s).
  rewrite He.
  destruct (connected io); [|reflexivity].
  change (session_type (set_connected (set_session_type initial_session (JStr s))))
    with (JStr s).
  rewrite Hi. reflexivity.
Qed.

Lemma session_setup_unprintable (rt : runtime) (io : setup_io)
    (text : pystr) (config : list (pystr * json)) (s : pystr) :
  key_missing (api_key io) = false ->
  config_data io = Ok text ->
  Json.loads text = Some (JObj config) ->
  dict_get config (py "session_type") = Some (JStr s) ->
  encodable s = false ->
  session_setup rt io
  = ([], set_session_type initial_session (JStr s),
     Some (Failed UnicodeEncodeError)).
Proof.
  intros Hk Hc Hl Hs He.
  unfold session_setup. rewrite Hk, Hc, Hl.
  unfold dict_get_default. rewrite Hs.
  cbv zeta.
  change (printable (session_type (set_session_type initial_session (JStr s))))
    with (encodable s).
  now rewrite He.
Qed.


(** ** One iteration of the relay task *)

Lemma type_is_name (data : list (pystr * json)) (name other : pystr) :
  dict_get data (py "type") = Some (JStr name) ->
  type_is data other = str_eqb name other.
Proof. intros H; unfold type_is; now rewrite H. Qed.





Lemma committed_is_no_completion (data : list (pystr * json)) :
  dict_get data (py "type") = Some (JStr (py "input_audio_buffer.committed")) ->
  type_is data (py "input_audio_buffer.committed") = true
  /\ existsb (type_is data) completion_events = false
  /\ type_is data (py "conversation.item.input_audio_transcription.completed") = false
  /\ type_is data (py "response.text.done") = false.
Proof.
  intros Hd. unfold completion_events, existsb.
  rewrite !(type_is_name data _ _ Hd). repeat split; reflexivity.
Qed.

Lemma relay_step_committed (rt : runtime) (st : session) (m : pystr)
    (data : list (pystr * json)) (io : relay_io) :
  Json.loads m = Some (JObj data) ->
  dict_get data (py "type") = Some (JStr (py "input_audio_buffer.committed")) ->
  relay_step rt st (Text m) io
  = if awaiting_response st
    then ([ToClient (Text m)], st, is_done (forwarded io))
    else ([ ToUpstream (Text (Json.dumps rt response_create)); ToClient (Text m) ],
          (if is_done (create_sent io) then set_awaiting st true else st),
          is_done (forwarded io)).
Proof.
  intros Hl Hd. unfold relay_step. rewrite Hl. cbv zeta.
  destruct (committed_is_no_completion data Hd) as (-> & -> & -> & ->).
  destruct (awaiting_response st); reflexivity.
Qed.

(** C1, as the code has it.  When [input_audio_buffer.committed] arrives
    while the flag is false, the relay makes exactly one [response.create]
    send upstream, before it forwards the event, and the flag becomes true
    if that send succeeds; if the send raises, the flag stays false.  When
    the flag is already true, nothing is sent upstream and the flag stays
    true.  In both cases the event is forwarded to the client. *)
Theorem committed_requests_one_response (rt : runtime) (st : session) (m : pystr)
    (data : list (pystr * json)) (io : relay_io) :
  Json.loads m = Some (JObj data) ->
  dict_get data (py "type") = Some (JStr (py "input_audio_buffer.committed")) ->
  (awaiting_response st = false ->
     fst (fst (relay_step rt st (Text m) io))
     = [ ToUpstream (Text (Json.dumps rt response_create)); ToClient (Text m) ]
     /\ awaiting_response (snd (fst (relay_step rt st (Text m) io)))
        = is_done (create_sent io))
  /\ (awaiting_response st = true ->
        fst (fst (relay_step rt st (Text m) io)) = [ToClient (Text m)]
        /\ awaiting_response (snd (fst (relay_step rt st (Text m) io))) = true).
Proof.
  intros Hl Hd. rewrite (relay_step_committed rt st m data io Hl Hd).
  split; intros Haw; rewrite Haw; simpl.
  - split; [reflexivity|]. destruct (create_sent io); simpl; [reflexivity|exact Haw].
  - split; [reflexivity|exact Haw].
Qed.



(** C5. An upstream text that [json.loads] rejects is forwarded to the
    client as it came, and nothing else happens in that iteration: the
    flag and the transcript are untouched.  No exception leaves the relay
    task, and the session goes on with the events that follow; the task
    itself goes on exactly when the forward to the client did not raise. *)
Theorem unparsable_upstream_text_is_forwarded_raw (rt : runtime) (st : session)
    (m : pystr) (io : relay_io) (rest : list event) :
  Json.loads m = None ->
  relay_step rt st (Text m) io = ([ToClient (Text m)], st, is_done (forwarded io))
  /\ relay_loops rt st true (Upstream (Text m) io :: rest)
     = (let '(acts, st', e) := relay_loops rt st (is_done (forwarded io)) rest in
        (ToClient (Text m) :: acts, st', e)).
Proof.
  intros Hl.
  assert (Hstep : relay_step rt st (Text m) io
                  = ([ToClient (Text m)], st, is_done (forwarded io))).
  { unfold relay_step. now rewrite Hl. }
  split; [exact Hstep|].
  cbn [relay_loops]. rewrite Hstep.
  destruct (relay_loops rt st (is_done (forwarded io)) rest) as [[acts st'] e].
  reflexivity.
Qed.

(** ** The two loops *)

Lemma relay_step_client_frames (rt : runtime) (st : session) (m : frame)
    (io : relay_io) (f : frame) :
  In (ToClient f) (fst (fst (relay_step rt st m io))) -> f = m.
Proof.
  unfold relay_step. destruct m as [m|b]; simpl.
  - destruct (Json.loads m) as [[| | | | |data]|]; simpl;
      try (intros [H|[]]; congruence); try (intros []).
    rewrite in_app_iff. intros [H|[H|[]]]; [|congruence].
    destruct (type_is data (py "input_audio_buffer.committed")
              && negb (awaiting_response st)); simpl in H.
    + destruct H as [H|[]]; discriminate.
    + destruct H.
  - intros [H|[]]; congruence.
Qed.

Lemma relay_step_keeps (rt : runtime) (st : session) (m : frame) (io : relay_io) :
  let st' := snd (fst (relay_step rt st m io)) in
  openai_ws st' = openai_ws st /\ session_type st' = session_type st.
Proof.
  unfold relay_step. destruct m as [m|b]; simpl; [|auto].
  destruct (Json.loads m) as [[| | | | |data]|]; cbv zeta; simpl; auto.
  repeat match goal with
         | |- context [if ?c then _ else _] => destruct c
         end; simpl; auto.
Qed.

Lemma client_step_keeps (st : session) (m : asgi_message) (sent : outcome) :
  let st' := snd (fst (client_step st m sent)) in
  openai_ws st' = openai_ws st
  /\ session_type st' = session_type st
  /\ conversation_transcript st' = conversation_transcript st.
Proof.
  unfold client_step. destruct m as [|b|t]; simpl; auto.
  destruct (Json.loads t) as [[| | | | |payload]|]; simpl; auto.
  destruct (type_is payload (py "response.create")); simpl; auto.
Qed.

Lemma client_step_no_client_frames (st : session) (m : asgi_message)
    (sent : outcome) (f : frame) :
  ~ In (ToClient f) (fst (fst (client_step st m sent))).
Proof.
  unfold client_step. destruct m as [|b|t]; simpl; intros H;
    repeat (destruct H as [H|H]; try discriminate); auto.
Qed.

Lemma relay_loops_keeps (rt : runtime) (events : list event) :
  forall st alive,
    let st' := snd (fst (relay_loops rt st alive events)) in
    openai_ws st' = openai_ws st /\ session_type st' = session_type st.
Proof.
  induction events as [|ev rest IH]; intros st alive; [simpl; auto|].
  destruct ev as [m io| |m sent|e]; cbn [relay_loops].
  - destruct alive; [|apply IH].
    pose proof (relay_step_keeps rt st m io) as Hk.
    destruct (relay_step rt st m io) as [[acts st1] alive1]. simpl in Hk.
    specialize (IH st1 alive1).
    destruct (relay_loops rt st1 alive1 rest) as [[acts2 st2] e2]. simpl in *.
    destruct Hk, IH. split; congruence.
  - apply IH.
  - pose proof (client_step_keeps st m sent) as Hk.
    destruct (client_step st m sent) as [[acts st1] [| |e]]; simpl in Hk.
    + specialize (IH st1 alive).
      destruct (relay_loops rt st1 alive rest) as [[acts2 st2] e2]. simpl in *.
      destruct Hk as (? & ? & _), IH. split; congruence.
    + simpl. tauto.
    + simpl. tauto.
  - simpl. auto.
Qed.

Lemma relay_loops_client_frames (rt : runtime) (events : list event) :
  forall st alive f,
    In (ToClient f) (fst (fst (relay_loops rt st alive events))) ->
    exists io, In (Upstream f io) events.
Proof.
  induction events as [|ev rest IH]; intros st alive f; [intros []|].
  destruct ev as [m io| |m sent|e]; cbn [relay_loops].
  - destruct alive.
    + pose proof (relay_step_client_frames rt st m io f) as Hs.
      destruct (relay_step rt st m io) as [[acts st1] alive1]. simpl in Hs.
      specialize (IH st1 alive1 f).
      destruct (relay_loops rt st1 alive1 rest) as [[acts2 st2] e2]. simpl in *.
      rewrite in_app_iff. intros [H|H].
      * exists io. left. now rewrite (Hs H).
      * destruct (IH H) as [io' Hio]. exists io'. now right.
    + intros H. destruct (IH st false f H) as [io' Hio]. exists io'. now right.
  - intros H. destruct (IH st false f H) as [io' Hio]. exists io'. now right.
  - pose proof (client_step_no_client_frames st m sent f) as Hn.
    destruct (client_step st m sent) as [[acts st1] [| |e]]; simpl in Hn.
    + specialize (IH st1 alive f).
      destruct (relay_loops rt st1 alive rest) as [[acts2 st2] e2]. simpl in *.
      rewrite in_app_iff. intros [H|H]; [contradiction|].
      destruct (IH H) as [io' Hio]. exists io'. now right.
    + simpl. contradiction.
    + simpl. contradiction.
  - intros [].
Qed.

Lemma leave_failed (e x : exn) : leave e = Failed x -> e = x /\ x <> WebSocketDisconnect.
Proof. destruct e; simpl; intros H; inversion H; subst; split; congruence. Qed.

Lemma relay_loops_failed (rt : runtime) (events : list event) :
  forall st alive x,
    snd (relay_loops rt st alive events) = Failed x ->
    x <> WebSocketDisconnect
    /\ exists before after,
         (exists m, events = before ++ Client m (Raises x) :: after)
         \/ events = before ++ ClientRaises x :: after.
Proof.
  induction events as [|ev rest IH]; intros st alive x; [discriminate|].
  assert (Hcons : forall st' alive',
             snd (relay_loops rt st' alive' rest) = Failed x ->
             x <> WebSocketDisconnect
             /\ exists before after,
                  (exists m, ev :: rest = before ++ Client m (Raises x) :: after)
                  \/ ev :: rest = before ++ ClientRaises x :: after).
  { intros st' alive' H. destruct (IH st' alive' x H) as (Hx & before & after & Hev).
    split; [exact Hx|]. exists (ev :: before), after.
    destruct Hev as [[m ->]| ->]; [left; exists m|right]; reflexivity. }
  destruct ev as [m io| |m sent|e]; cbn [relay_loops].
  - destruct alive; [|apply Hcons].
    destruct (relay_step rt st m io) as [[acts st1] alive1].
    specialize (Hcons st1 alive1).
    destruct (relay_loops rt st1 alive1 rest) as [[acts2 st2] e2]. exact Hcons.
  - apply Hcons.
  - unfold client_step.
    destruct m as [|b|t]; simpl; [discriminate| |];
      (destruct sent as [|e]; simpl;
       [ match goal with
         | |- context [relay_loops rt ?s alive rest] =>
             specialize (Hcons s alive);
             destruct (relay_loops rt s alive rest) as [[acts2 st2] e2]; exact Hcons
         end
       | intros H; apply leave_failed in H; destruct H as [-> Hx];
         split; [exact Hx|]; exists [], rest; left; eexists; reflexivity ]).
  - simpl. intros H. apply leave_failed in H. destruct H as [-> Hx].
    split; [exact Hx|]. exists [], rest. right. reflexivity.
Qed.

(** ** The handler as a whole *)

Arguments Json.dumps : simpl never.
Arguments save_voice_transcript : simpl never.

Lemma session_setup_state (rt : runtime) (io : setup_io) :
  let '(_, st, o) := session_setup rt io in
  conversation_transcript st = []
  /\ awaiting_response st = false
  /\ (o = None -> openai_ws st = true)
  /\ (o = Some Left -> openai_ws st = false).
Proof.
  unfold session_setup.
  destruct (key_missing (api_key io)).
  { destruct (key_error_sent io); simpl; repeat split; congruence. }
  destruct (config_data io) as [text|e]; [|simpl; repeat split; congruence].
  destruct (Json.loads text) as [[| | | | |config]|];
    try (simpl; repeat split; congruence).
  cbv zeta.
  destruct (printable _); [|simpl; repeat split; congruence].
  destruct (connected io); [|simpl; repeat split; congruence].
  destruct (get_session_prompt _ true); [|simpl; repeat split; congruence].
  destruct (config_sent io); [|simpl; repeat split; congruence].
  destruct (ready_sent io); simpl; repeat split; congruence.
Qed.


(** C7. Without an API key the handler sends the client the structured
    error "OpenAI API key not configured" and returns: nothing but error
    messages to the client is in the trace (no connection upstream is
    opened, nothing is sent there), the table is unchanged, and the run
    has ended.  When that send goes through, the error message is the
    whole trace. *)
Theorem missing_api_key_reports_and_stops (rt : runtime) (io : setup_io)
    (events : list event) (db : database) :
  key_missing (api_key io) = true ->
  let r := voice_websocket rt io events db in
  let report :=
    ToClient (Text (Json.dumps rt (error_message (py "OpenAI API key not configured")))) in
  hd_error (trace r) = Some report
  /\ (forall a, In a (trace r) ->
        exists text, a = ToClient (Text (Json.dumps rt (error_message text))))
  /\ final r = initial_session
  /\ stored r = db
  /\ ended r <> Running
  /\ (key_error_sent io = Done -> trace r = [report] /\ ended r = Returned).
Proof.
  intros Hk r report. unfold r, voice_websocket, session_body, session_setup.
  rewrite Hk. destruct (key_error_sent io) as [|e]; simpl.
  - repeat split; try congruence.
    intros a [<-|[]]. eexists; reflexivity.
  - repeat split; try congruence.
    + intros a [<-|[<-|[]]]; eexists; reflexivity.
    + destruct (error_sent io); congruence.
Qed.

Lemma leave_other (x : exn) : x <> WebSocketDisconnect -> leave x = Failed x.
Proof. destruct x; simpl; congruence. Qed.

Lemma relay_loops_send_failure (rt : runtime) (st : session) (alive : bool)
    (m : asgi_message) (x : exn) (rest : list event) :
  m <> Disconnect -> x <> WebSocketDisconnect ->
  snd (relay_loops rt st alive (Client m (Raises x) :: rest)) = Failed x.
Proof.
  intros Hm Hx. cbn [relay_loops]. unfold client_step.
  destruct m as [|b|t]; [congruence| |]; simpl; apply leave_other, Hx.
Qed.

(** C6, as the code has it.  A failed setup is reported to the client
    as a structured error.  Once the session is established, everything
    the two loops send to the client is a frame that came from upstream,
    forwarded as it is: a failure in the relay task is never reported,
    and a client disconnect closes the session silently.  But an
    exception other than [WebSocketDisconnect] that leaves an iteration
    of the client-to-upstream loop (a failed send upstream) is reported
    to the client as a structured error before the connection upstream
    is closed, and the loop is left by [Failed] in no other way. *)
Theorem failures_reported_to_client (rt : runtime) (io : setup_io)
    (events : list event) (db : database) :
  let r := voice_websocket rt io events db in
  let report x := ToClient (Text (Json.dumps rt (error_message (exn_text rt x)))) in
  (forall acts0 st0 x,
     session_setup rt io = (acts0, st0, Some (Failed x)) ->
     exists closing, trace r = acts0 ++ [report x] ++ closing)
  /\ (forall acts0 st0,
        session_setup rt io = (acts0, st0, None) ->
        exists acts,
          (forall f, In (ToClient f) acts -> exists io', In (Upstream f io') events)
          /\ match snd (relay_loops rt st0 true events) with
             | Pending => trace r = acts0 ++ acts
             | Left => trace r = acts0 ++ acts ++ [CloseUpstream]
             | Failed x =>
                 x <> WebSocketDisconnect
                 /\ (exists before after,
                       (exists m, events = before ++ Client m (Raises x) :: after)
                       \/ events = before ++ ClientRaises x :: after)
                 /\ trace r = acts0 ++ acts ++ [report x; CloseUpstream]
             end)
  /\ (forall st alive m x rest,
        m <> Disconnect -> x <> WebSocketDisconnect ->
        snd (relay_loops rt st alive (Client m (Raises x) :: rest)) = Failed x).
Proof.
  intros r report. split; [|split].
  - intros acts0 st0 x Hsetup. unfold r, voice_websocket, session_body.
    rewrite Hsetup. destruct (teardown rt io st0 db) as [closing db'].
    exists closing. reflexivity.
  - intros acts0 st0 Hsetup.
    pose proof (session_setup_state rt io) as Hst. rewrite Hsetup in Hst.
    destruct Hst as (_ & _ & Hopen & _). specialize (Hopen eq_refl).
    pose proof (relay_loops_keeps rt events st0 true) as Hkeep.
    pose proof (relay_loops_client_frames rt events st0 true) as Hframes.
    pose proof (relay_loops_failed rt events st0 true) as Hfail.
    unfold r, voice_websocket, session_body. rewrite Hsetup.
    destruct (relay_loops rt st0 true events) as [[acts st] e].
    simpl in Hkeep, Hframes, Hfail. destruct Hkeep as [Hws _].
    exists acts. split; [exact Hframes|].
    unfold teardown. rewrite Hws, Hopen.
    destruct e as [| |x]; simpl.
    + reflexivity.
    + now rewrite app_assoc.
    + destruct (Hfail x eq_refl) as [Hx Hev].
      repeat split; try assumption. now rewrite app_assoc.
  - intros st alive m x rest. apply relay_loops_send_failure.
Qed.

(** ** The transcript flush *)

Lemma user_content_none (t : list fragment) :
  (forall f, In f t -> frag_role f = assistant) -> user_content t = [].
Proof.
  induction t as [|f t IH]; intros H; [reflexivity|].
  unfold user_content in *. simpl.
  rewrite (H f (or_introl eq_refl)). simpl.
  apply IH. intros g Hg. apply H. now right.
Qed.

Lemma user_content_some (t : list fragment) :
  (exists f, In f t /\ frag_role f = user) -> user_content t <> [].
Proof.
  intros (f & Hin & Hrole). unfold user_content.
  assert (Hf : In f (filter (fun f => is_user (frag_role f)) t)).
  { apply filter_In. split; [exact Hin|]. now rewrite Hrole. }
  destruct (filter (fun f => is_user (frag_role f)) t); [destruct Hf|discriminate].
Qed.

Lemma all_text_user_content (t : list fragment) :
  Forall text_fragment t -> all_text (user_content t) = Some (user_texts t).
Proof.
  induction 1 as [|f t [s Hs] _ IH]; [reflexivity|].
  unfold user_content, user_texts in *. simpl.
  destruct (frag_role f); simpl.
  - rewrite Hs, IH. reflexivity.
  - exact IH.
Qed.

Lemma save_voice_transcript_spoken (rt : runtime) (ck : clock) (t : list fragment)
    (ty : json) (db : database) :
  Forall text_fragment t ->
  (exists f, In f t /\ frag_role f = user) ->
  save_voice_transcript rt ck t ty db
  = match
      insert_entry ck (today ck) (py "voice_" ++ format_value rt ty)
        (join (py " ") (user_texts t)) (Json.dumps rt (transcript_json t)) db
    with
    | Some db' => db'
    | None => db
    end.
Proof.
  intros Htext Huser. unfold save_voice_transcript.
  rewrite (all_text_user_content t Htext).
  pose proof (user_content_some t Huser) as Hne.
  destruct (user_content t); [congruence|reflexivity].
Qed.

Lemma save_voice_transcript_stored (rt : runtime) (ck : clock) (t : list fragment)
    (ty : json) (db : database) :
  Forall text_fragment t ->
  (exists f, In f t /\ frag_role f = user) ->
  encodable (py "voice_" ++ format_value rt ty) = true ->
  encodable (join (py " ") (user_texts t)) = true ->
  save_voice_transcript rt ck t ty db
  = db ++ [new_entry ck (today ck) (py "voice_" ++ format_value rt ty)
             (join (py " ") (user_texts t)) (Json.dumps rt (transcript_json t)) db].
Proof.
  intros Htext Huser Hty Hcontent.
  rewrite (save_voice_transcript_spoken rt ck t ty db Htext Huser).
  unfold insert_entry. now rewrite Hty, Hcontent.
Qed.

Lemma save_voice_transcript_silent (rt : runtime) (ck : clock) (t : list fragment)
    (ty : json) (db : database) :
  (forall f, In f t -> frag_role f = assistant) ->
  save_voice_transcript rt ck t ty db = db.
Proof.
  intros H. unfold save_voice_transcript. now rewrite (user_content_none t H).
Qed.

Lemma save_voice_transcript_cases (rt : runtime) (ck : clock) (t : list fragment)
    (ty : json) (db : database) :
  save_voice_transcript rt ck t ty db = db
  \/ exists e, save_voice_transcript rt ck t ty db = db ++ [e]
               /\ entry_type e = py "voice_" ++ format_value rt ty.
Proof.
  unfold save_voice_transcript, insert_entry.
  destruct (user_content t); [now left|].
  destruct (all_text (j :: l)); [|now left].
  destruct (_ && _); [|now left].
  right. eexists. split; reflexivity.
Qed.

Lemma roles_split (t : list fragment) :
  (exists f, In f t /\ frag_role f = user)
  \/ (forall f, In f t -> frag_role f = assistant).
Proof.
  induction t as [|f t [(g & Hg & Hr)|IH]].
  - right. intros f [].
  - left. exists g. split; [now right|exact Hr].
  - destruct (frag_role f) eqn:Hf.
    + left. exists f. split; [now left|exact Hf].
    + right. intros g [<-|Hg]; [exact Hf|now apply IH].
Qed.

Lemma stored_after_end (rt : runtime) (io : setup_io) (events : list event)
    (db : database) :
  let r := voice_websocket rt io events db in
  ended r <> Running ->
  stored r
  = match conversation_transcript (final r) with
    | [] => db
    | _ :: _ =>
        save_voice_transcript rt (flush_clock io)
          (conversation_transcript (final r)) (session_type (final r)) db
    end.
Proof.
  unfold voice_websocket.
  destruct (session_body rt io events) as [[acts st] [| |x]]; simpl;
    [congruence|reflexivity|reflexivity].
Qed.

Lemma app_one_neq {A : Type} (l : list A) (x : A) : l ++ [x] <> l.
Proof.
  intros H. apply (f_equal (@List.length A)) in H.
  rewrite length_app in H. simpl in H. lia.
Qed.

Lemma save_voice_transcript_adds (rt : runtime) (ck : clock) (t : list fragment)
    (ty : json) (db : database) :
  (exists e, save_voice_transcript rt ck t ty db = db ++ [e])
  <-> (exists f, In f t /\ frag_role f = user)
      /\ exists texts,
           all_text (user_content t) = Some texts
           /\ encodable (join (py " ") texts) = true
           /\ encodable (py "voice_" ++ format_value rt ty) = true.
Proof.
  assert (Hno : forall e, db = db ++ [e] -> False)
    by (intros e He; symmetry in He; now apply app_one_neq in He).
  unfold save_voice_transcript, insert_entry.
  destruct (user_content t) as [|j l] eqn:Hu.
  - split; [intros [e He]; destruct (Hno e He)|].
    intros [Huser _]. apply user_content_some in Huser. congruence.
  - assert (Huser : exists f, In f t /\ frag_role f = user).
    { destruct (roles_split t) as [H|H]; [exact H|].
      rewrite (user_content_none t H) in Hu. discriminate. }
    destruct (all_text (j :: l)) as [texts|].
    + destruct (encodable (py "voice_" ++ format_value rt ty)) eqn:Hty;
        destruct (encodable (join (py " ") texts)) eqn:Hc; cbn [andb].
      * split; [intros _|intros _; eexists; reflexivity].
        split; [exact Huser|]. exists texts. repeat split; assumption.
      * split; [intros [e He]; destruct (Hno e He)|].
        intros (_ & texts' & [= <-] & Hc' & _). congruence.
      * split; [intros [e He]; destruct (Hno e He)|].
        intros (_ & texts' & _ & _ & Hty'). congruence.
      * split; [intros [e He]; destruct (Hno e He)|].
        intros (_ & texts' & _ & _ & Hty'). congruence.
    + split; [intros [e He]; destruct (Hno e He)|].
      intros (_ & texts & H & _). discriminate.
Qed.

(** C3. When the handler has ended, one entry has been added to the
    table if and only if the transcript holds a [user] fragment, the
    content of every [user] fragment is text, and the joined text and
    the type tag can be encoded (hold no lone surrogate); with no
    fragment, or with [assistant] fragments only, the table is as it
    was. *)
Theorem transcript_persisted_iff_user_fragment (rt : runtime) (io : setup_io)
    (events : list event) (db : database) :
  let r := voice_websocket rt io events db in
  let transcript := conversation_transcript (final r) in
  ended r <> Running ->
  ((exists e, stored r = db ++ [e])
   <-> (exists f, In f transcript /\ frag_role f = user)
       /\ exists texts,
            all_text (user_content transcript) = Some texts
            /\ encodable (join (py " ") texts) = true
            /\ encodable (py "voice_" ++ format_value rt (session_type (final r)))
               = true)
  /\ ((forall f, In f transcript -> frag_role f = assistant) -> stored r = db).
Proof.
  intros r transcript Hend.
  pose proof (stored_after_end rt io events db Hend) as Hst.
  fold r in Hst. fold transcript in Hst.
  split.
  - rewrite Hst. destruct transcript as [|f0 t0] eqn:Ht.
    + split.
      * intros [e He]. symmetry in He. now apply app_one_neq in He.
      * intros [(f & [] & _) _].
    + apply save_voice_transcript_adds.
  - intros Hnone. rewrite Hst. destruct transcript; [reflexivity|].
    now apply save_voice_transcript_silent.
Qed.

Lemma final_of_body (rt : runtime) (io : setup_io) (events : list event)
    (db : database) :
  final (voice_websocket rt io events db) = snd (fst (session_body rt io events)).
Proof.
  unfold voice_websocket.
  destruct (session_body rt io events) as [[acts st] [| |x]]; simpl; try reflexivity;
    destruct (teardown rt io st db); reflexivity.
Qed.

Lemma stored_cases (rt : runtime) (io : setup_io) (events : list event)
    (db : database) :
  let r := voice_websocket rt io events db in
  stored r = db
  \/ exists e, stored r = db ++ [e]
               /\ entry_type e = py "voice_" ++ format_value rt (session_type (final r)).
Proof.
  intros r. unfold r. rewrite final_of_body. unfold voice_websocket.
  destruct (session_body rt io events) as [[acts st] [| |x]]; simpl; [now left| |];
    (destruct (conversation_transcript st); [now left|];
     apply save_voice_transcript_cases).
Qed.

Lemma final_session_type (rt : runtime) (io : setup_io) (events : list event)
    (db : database) (text : pystr) (config : list (pystr * json)) (s : pystr) :
  key_missing (api_key io) = false ->
  config_data io = Ok text ->
  Json.loads text = Some (JObj config) ->
  dict_get config (py "session_type") = Some (JStr s) ->
  session_type (final (voice_websocket rt io events db)) = JStr s.
Proof.
  intros Hk Hc Hl Hs. rewrite final_of_body. unfold session_body.
  destruct (encodable s) eqn:He.
  2:{ now rewrite (session_setup_unprintable rt io text config s Hk Hc Hl Hs He). }
  destruct (session_setup_configured rt io text config s Hk Hc Hl Hs He)
    as (instructions & _ & ->).
  cbv zeta.
  destruct (connected io); [|reflexivity].
  destruct (config_sent io); [|reflexivity].
  destruct (ready_sent io); [|reflexivity].
  match goal with
  | |- context [relay_loops rt ?st0 true events] =>
      pose proof (relay_loops_keeps rt events st0 true) as Hkeep;
      destruct (relay_loops rt st0 true events) as [[acts st] e]
  end.
  simpl in *. destruct Hkeep as [_ ->]. reflexivity.
Qed.

(** C10. Whatever session type text [s] the client's first message
    names, known or not, an entry that the session adds to the table has
    the type ["voice_" ++ s]: the session keeps the raw text.  Only the
    instruction text chosen for the upstream configuration falls back to
    "reflection" when [s] is not a known type. *)
Theorem persisted_type_is_voice_prefixed_raw_type (rt : runtime) (io : setup_io)
    (events : list event) (db : database) (text : pystr)
    (config : list (pystr * json)) (s : pystr) :
  key_missing (api_key io) = false ->
  config_data io = Ok text ->
  Json.loads text = Some (JObj config) ->
  dict_get config (py "session_type") = Some (JStr s) ->
  let r := voice_websocket rt io events db in
  session_type (final r) = JStr s
  /\ (stored r = db
      \/ exists e, stored r = db ++ [e] /\ entry_type e = py "voice_" ++ s)
  /\ (~ In s known_session_types ->
      get_session_prompt (session_type (final r)) true
      = get_session_prompt (JStr (py "reflection")) true).
Proof.
  intros Hk Hc Hl Hs r.
  pose proof (final_session_type rt io events db text config s Hk Hc Hl Hs) as Hty.
  fold r in Hty. split; [exact Hty|split].
  - pose proof (stored_cases rt io events db) as Hcases. fold r in Hcases.
    destruct Hcases as [H|(e & He & Htag)].
    + now left.
    + right. exists e. split; [exact He|]. now rewrite Htag, Hty.
  - intros Hunknown. rewrite Hty. apply get_session_prompt_unknown, Hunknown.
Qed.

(** ** Category queries *)

Lemma voice_prefix_differs (s : pystr) : py "voice_" ++ s <> s.
Proof.
  intros H. apply (f_equal (@List.length N)) in H.
  rewrite length_app in H. simpl in H. lia.
Qed.

Lemma in_category_spec (s : pystr) (e : entry) :
  in_category s e = true <-> entry_type e = s \/ entry_type e = py "voice_" ++ s.
Proof.
  unfold in_category. rewrite orb_true_iff, !str_eqb_eq. reflexivity.
Qed.

Lemma insert_desc_In (e x : entry) (l : list entry) :
  In x (insert_desc e l) <-> x = e \/ In x l.
Proof.
  induction l as [|y l IH]; simpl.
  - split; intros [H|H]; auto.
  - destruct (str_leb (entry_created_at y) (entry_created_at e)); simpl.
    + split; intros [H|H]; auto.
    + rewrite IH. tauto.
Qed.

Lemma order_by_In (x : entry) (rows : list entry) :
  In x (order_by_created_at_desc rows) <-> In x rows.
Proof.
  induction rows as [|y rows IH]; simpl; [tauto|].
  rewrite insert_desc_In, IH. split; intros [H|H]; auto.
Qed.

Lemma insert_desc_length (e : entry) (l : list entry) :
  List.length (insert_desc e l) = S (List.length l).
Proof.
  induction l as [|y l IH]; simpl; [reflexivity|].
  destruct (str_leb (entry_created_at y) (entry_created_at e)); simpl; congruence.
Qed.

Lemma order_by_length (rows : list entry) :
  List.length (order_by_created_at_desc rows) = List.length rows.
Proof.
  induction rows as [|y rows IH]; simpl; [reflexivity|].
  now rewrite insert_desc_length, IH.
Qed.

Lemma sql_limit_In {A : Type} (limit : Z) (rows : list A) (x : A) :
  In x (sql_limit limit rows) -> In x rows.
Proof.
  unfold sql_limit. destruct (limit <? 0)%Z; [auto|].
  rewrite <- (firstn_skipn (Z.to_nat limit) rows) at 2.
  intros H. apply in_or_app. now left.
Qed.

Lemma sql_limit_all {A : Type} (limit : Z) (rows : list A) :
  (limit < 0 \/ Z.of_nat (List.length rows) <= limit)%Z ->
  sql_limit limit rows = rows.
Proof.
  intros H. unfold sql_limit. destruct (Z.ltb_spec limit 0); [reflexivity|].
  apply firstn_all2. lia.
Qed.

Lemma get_recent_entries_runs (s : pystr) (limit : Z) (db : database) :
  encodable s = true -> sql_integer limit = true ->
  JournalDB.get_recent_entries s limit db
  = Some (map selected_columns
            (sql_limit limit
               (order_by_created_at_desc (filter (in_category s) db)))).
Proof. intros Hs Hl. unfold JournalDB.get_recent_entries. now rewrite Hs, Hl. Qed.

Lemma get_recent_entries_sound (s : pystr) (limit : Z) (db : database)
    (rows : list (pystr * pystr * pystr)) (row : pystr * pystr * pystr) :
  JournalDB.get_recent_entries s limit db = Some rows ->
  In row rows ->
  exists e, In e db /\ row = selected_columns e
            /\ (entry_type e = s \/ entry_type e = py "voice_" ++ s).
Proof.
  unfold JournalDB.get_recent_entries. destruct (_ && _); [|discriminate].
  intros [= <-]. rewrite in_map_iff.
  intros (e & <- & He). apply sql_limit_In, order_by_In, filter_In in He.
  destruct He as [Hin Hcat]. exists e. repeat split; [exact Hin|].
  now apply in_category_spec.
Qed.

Lemma get_recent_entries_complete (s : pystr) (limit : Z) (db : database)
    (rows : list (pystr * pystr * pystr)) (e : entry) :
  JournalDB.get_recent_entries s limit db = Some rows ->
  (limit < 0 \/ Z.of_nat (JournalDB.count_entries s db) <= limit)%Z ->
  In e db ->
  entry_type e = s \/ entry_type e = py "voice_" ++ s ->
  In (selected_columns e) rows.
Proof.
  unfold JournalDB.get_recent_entries. destruct (_ && _); [|discriminate].
  intros [= <-] Hlimit Hin Hty.
  apply in_map. rewrite sql_limit_all.
  - apply order_by_In, filter_In. split; [exact Hin|]. now apply in_category_spec.
  - now rewrite order_by_length.
Qed.

Lemma count_entries_app (s : pystr) (tbl : database) (e : entry) :
  (entry_type e = s \/ entry_type e = py "voice_" ++ s ->
   JournalDB.count_entries s (tbl ++ [e]) = S (JournalDB.count_entries s tbl))
  /\ (entry_type e <> s -> entry_type e <> py "voice_" ++ s ->
      JournalDB.count_entries s (tbl ++ [e]) = JournalDB.count_entries s tbl).
Proof.
  unfold JournalDB.count_entries. rewrite filter_app, length_app. cbn [filter].
  split.
  - intros H. apply in_category_spec in H. rewrite H. simpl. lia.
  - intros H1 H2. destruct (in_category s e) eqn:Hc; [|simpl; lia].
    apply in_category_spec in Hc. tauto.
Qed.

Lemma save_entry_some (rt : runtime) (ck : clock)
    (content ty response : pystr) (db db' : database) :
  JournalDB.save_entry rt ck content ty response db = Some db' ->
  encodable ty = true /\ encodable content = true
  /\ db' = db ++ [new_entry ck (today ck) ty content
                    (Json.dumps rt (JArr [chat_record content response (now ck)])) db].
Proof.
  unfold JournalDB.save_entry, insert_entry.
  destruct (encodable ty); destruct (encodable content); cbn [andb];
    intros [= <-]; repeat split.
Qed.

(** C8. When a text chat of type [s] and then a voice session of type
    [s] have been stored, the chat is stored under [s] and the voice
    session under ["voice_" ++ s]: the two entries differ in their type.
    [count_entries s] counts both, and counts an entry exactly when its
    type is one of the two; [get_recent_entries s] returns rows of
    entries of these two types only, and returns both entries when the
    limit does not cut them off. *)
Theorem voice_and_text_entries_by_category (rt : runtime) (ck ck' : clock)
    (content ai_response s : pystr) (t : list fragment) (db db1 : database) :
  JournalDB.save_entry rt ck content s ai_response db = Some db1 ->
  save_voice_transcript rt ck' t (JStr s) db1 <> db1 ->
  exists chat voice,
    db1 = db ++ [chat]
    /\ save_voice_transcript rt ck' t (JStr s) db1 = db ++ [chat; voice]
    /\ entry_type chat = s
    /\ entry_type voice = py "voice_" ++ s
    /\ entry_type voice <> entry_type chat
    /\ JournalDB.count_entries s (db ++ [chat; voice])
       = (JournalDB.count_entries s db + 2)%nat
    /\ (forall tbl e,
          (entry_type e = s \/ entry_type e = py "voice_" ++ s ->
           JournalDB.count_entries s (tbl ++ [e])
           = S (JournalDB.count_entries s tbl))
          /\ (entry_type e <> s -> entry_type e <> py "voice_" ++ s ->
              JournalDB.count_entries s (tbl ++ [e])
              = JournalDB.count_entries s tbl))
    /\ (forall limit,
          sql_integer limit = true ->
          exists rows,
            JournalDB.get_recent_entries s limit (db ++ [chat; voice]) = Some rows
            /\ (forall row,
                  In row rows ->
                  exists e, In e (db ++ [chat; voice]) /\ row = selected_columns e
                            /\ (entry_type e = s
                                \/ entry_type e = py "voice_" ++ s))
            /\ ((limit < 0
                  \/ Z.of_nat (JournalDB.count_entries s (db ++ [chat; voice]))
                     <= limit)%Z ->
                In (selected_columns chat) rows
                /\ In (selected_columns voice) rows)).
Proof.
  intros Hsave Hflush.
  destruct (save_entry_some rt ck content s ai_response db db1 Hsave)
    as (Hs & _ & Hdb1).
  destruct (save_voice_transcript_cases rt ck' t (JStr s) db1)
    as [Hnone|(voice & Hvoice & Htv)]; [contradiction|].
  cbn [format_value] in Htv.
  set (chat := new_entry ck (today ck) s content
                 (Json.dumps rt (JArr [chat_record content ai_response (now ck)]))
                 db) in *.
  assert (Htc : entry_type chat = s) by reflexivity.
  clearbody chat. exists chat, voice.
  assert (Hdb2 : save_voice_transcript rt ck' t (JStr s) db1 = db ++ [chat; voice])
    by (rewrite Hvoice, Hdb1, <- app_assoc; reflexivity).
  split; [exact Hdb1|]. split; [exact Hdb2|].
  split; [exact Htc|]. split; [exact Htv|].
  split; [rewrite Htc, Htv; apply voice_prefix_differs|].
  split; [|split].
  - change (db ++ [chat; voice]) with (db ++ [chat] ++ [voice]).
    rewrite app_assoc.
    rewrite (proj1 (count_entries_app s (db ++ [chat]) voice) (or_intror Htv)).
    rewrite (proj1 (count_entries_app s db chat) (or_introl Htc)). lia.
  - intros tbl e. apply count_entries_app.
  - intros limit Hlimit. eexists.
    split; [apply (get_recent_entries_runs s limit _ Hs Hlimit)|].
    pose proof (get_recent_entries_runs s limit (db ++ [chat; voice]) Hs Hlimit)
      as Hrows.
    split.
    + intros row. apply (get_recent_entries_sound s limit _ _ row Hrows).
    + intros Hall.
      split; apply (get_recent_entries_complete s limit _ _ _ Hrows Hall);
        try (apply in_or_app; right; simpl; tauto).
      * now left.
      * now right.
Qed.

(** ** Reading back what [json.dumps] wrote *)

Module JsonFacts.
Import Json.

Lemma hex_digit_value (d : N) : d < 16 -> hex_value (hex_digit d) = Some d.
Proof.
  intros H.
  assert (Hd : In d [0; 1; 2; 3; 4; 5; 6; 7; 8; 9; 10; 11; 12; 13; 14; 15])
    by (simpl; lia).
  simpl in Hd. repeat (destruct Hd as [<-|Hd]; [reflexivity|]). destruct Hd.
Qed.

Lemma nibbles (n : N) :
  n < 65536 ->
  (((n / 4096) mod 16 * 16 + (n / 256) mod 16) * 16 + (n / 16) mod 16) * 16
  + n mod 16 = n.
Proof.
  intros H.
  pose proof (N.div_mod n 16 ltac:(lia)).
  pose proof (N.div_mod (n / 16) 16 ltac:(lia)).
  pose proof (N.div_mod (n / 256) 16 ltac:(lia)).
  pose proof (N.mod_small (n / 4096) 16).
  assert (n / 256 = n / 16 / 16) by (rewrite N.Div0.div_div; reflexivity).
  assert (n / 4096 = n / 256 / 16) by (rewrite N.Div0.div_div; reflexivity).
  assert (n / 4096 < 16) by (apply N.Div0.div_lt_upper_bound; lia).
  lia.
Qed.

Lemma nibble (n k : N) : N.land (N.shiftr n k) 15 = (n / 2 ^ k) mod 16.
Proof.
  rewrite N.shiftr_div_pow2. change 15 with (N.ones 4). now rewrite N.land_ones.
Qed.

Lemma decode_hex4_hex4 (n : N) :
  n < 65536 ->
  decode_hex4 (hex_digit (N.land (N.shiftr n 12) 15))
              (hex_digit (N.land (N.shiftr n 8) 15))
              (hex_digit (N.land (N.shiftr n 4) 15))
              (hex_digit (N.land n 15)) = Some n.
Proof.
  intros H. unfold decode_hex4.
  rewrite !nibble.
  change (N.land n 15) with (N.land n (N.ones 4)). rewrite N.land_ones.
  change (2 ^ 12) with 4096. change (2 ^ 8) with 256. change (2 ^ 4) with 16.
  rewrite !hex_digit_value by (apply N.mod_lt; lia).
  now rewrite nibbles.
Qed.

Lemma land_shiftl_low (a b : N) : b < 1024 -> N.land (N.shiftl a 10) b = 0.
Proof.
  intros Hb. apply N.bits_inj. intros i.
  rewrite N.land_spec, N.bits_0.
  destruct (N.lt_ge_cases i 10) as [Hi|Hi].
  - now rewrite N.shiftl_spec_low.
  - destruct (N.eq_dec b 0) as [->|Hb0].
    + now rewrite N.bits_0, andb_false_r.
    + rewrite (N.bits_above_log2 b i), andb_false_r; [reflexivity|].
      apply N.lt_le_trans with 10; [|exact Hi].
      apply N.log2_lt_pow2; lia.
Qed.

Lemma lor_shiftl_low (a b : N) :
  b < 1024 -> N.lor (N.shiftl a 10) b = a * 1024 + b.
Proof.
  intros Hb.
  rewrite <- N.lxor_lor, <- N.add_nocarry_lxor by now apply land_shiftl_low.
  now rewrite N.shiftl_mul_pow2.
Qed.

(** The surrogate pair the encoder writes for a code point beyond the
    basic plane, and the decoder's way back. *)
Lemma surrogate_pair (c : N) :
  0x10000 <= c < 0x110000 ->
  let n := c - 0x10000 in
  let s1 := N.lor 0xd800 (N.land (N.shiftr n 10) 0x3ff) in
  let s2 := N.lor 0xdc00 (N.land n 0x3ff) in
  s1 < 65536 /\ s2 < 65536
  /\ is_high_surrogate s1 = true /\ is_low_surrogate s2 = true
  /\ join_surrogates s1 s2 = c.
Proof.
  intros Hc n s1 s2.
  assert (Hn : n < 1048576) by (unfold n; lia).
  assert (Hhi : N.land (N.shiftr n 10) 0x3ff = n / 1024).
  { rewrite N.shiftr_div_pow2. change 0x3ff with (N.ones 10).
    rewrite N.land_ones. change (2 ^ 10) with 1024.
    apply N.mod_small. apply N.Div0.div_lt_upper_bound. lia. }
  assert (Hlo : N.land n 0x3ff = n mod 1024).
  { change 0x3ff with (N.ones 10). now rewrite N.land_ones. }
  assert (Hq : n / 1024 < 1024) by (apply N.Div0.div_lt_upper_bound; lia).
  assert (Hr : n mod 1024 < 1024) by (apply N.mod_lt; lia).
  assert (H1 : s1 = 0xd800 + n / 1024).
  { unfold s1. rewrite Hhi. change 0xd800 with (N.shiftl 54 10).
    rewrite lor_shiftl_low by exact Hq. reflexivity. }
  assert (H2 : s2 = 0xdc00 + n mod 1024).
  { unfold s2. rewrite Hlo. change 0xdc00 with (N.shiftl 55 10).
    rewrite lor_shiftl_low by exact Hr. reflexivity. }
  split; [lia|]. split; [lia|].
  split; [unfold is_high_surrogate; apply andb_true_iff; split; apply N.leb_le; lia|].
  split; [unfold is_low_surrogate; apply andb_true_iff; split; apply N.leb_le; lia|].
  unfold join_surrogates.
  replace (s1 - 0xd800) with (n / 1024) by lia.
  replace (s2 - 0xdc00) with (n mod 1024) by lia.
  rewrite lor_shiftl_low by exact Hr.
  pose proof (N.div_mod n 1024 ltac:(lia)). unfold n in *. lia.
Qed.

Lemma scanstring_plain (c : N) (rest : pystr) :
  c <> 34 -> c <> 92 -> 32 <= c ->
  scanstring (c :: rest) = cons_char c (scanstring rest).
Proof.
  intros H1 H2 H3. simpl.
  rewrite (proj2 (N.eqb_neq c 34) H1), (proj2 (N.eqb_neq c 92) H2).
  now rewrite (proj2 (N.ltb_ge c 32) H3).
Qed.

Lemma scanstring_backslash_u (u : N) (rest : pystr) :
  u < 65536 -> is_high_surrogate u = false ->
  scanstring (backslash_u u ++ rest) = cons_char u (scanstring rest).
Proof.
  intros Hu Hhigh. unfold backslash_u, hex4.
  cbn -[decode_hex4 is_high_surrogate hex_digit N.land N.shiftr].
  now rewrite (decode_hex4_hex4 u Hu), Hhigh.
Qed.

Lemma scanstring_surrogates (hi lo : N) (rest : pystr) :
  hi < 65536 -> lo < 65536 ->
  is_high_surrogate hi = true -> is_low_surrogate lo = true ->
  scanstring (backslash_u hi ++ backslash_u lo ++ rest)
  = cons_char (join_surrogates hi lo) (scanstring rest).
Proof.
  intros Hhi Hlo Hhigh Hlow. unfold backslash_u, hex4.
  cbn -[decode_hex4 is_high_surrogate is_low_surrogate join_surrogates
        hex_digit N.land N.shiftr].
  now rewrite (decode_hex4_hex4 hi Hhi), Hhigh, (decode_hex4_hex4 lo Hlo), Hlow.
Qed.

Lemma scanstring_escape_char (c : N) (rest : pystr) :
  scalar_value c ->
  scanstring (escape_char c ++ rest) = cons_char c (scanstring rest).
Proof.
  intros [Hrange Hsur]. unfold escape_char.
  destruct (N.eqb_spec c 34) as [->|H34]; [reflexivity|].
  destruct (N.eqb_spec c 92) as [->|H92]; [reflexivity|].
  destruct (N.eqb_spec c 10) as [->|H10]; [reflexivity|].
  destruct (N.eqb_spec c 13) as [->|H13]; [reflexivity|].
  destruct (N.eqb_spec c 9) as [->|H9]; [reflexivity|].
  destruct (N.eqb_spec c 8) as [->|H8]; [reflexivity|].
  destruct (N.eqb_spec c 12) as [->|H12]; [reflexivity|].
  destruct ((32 <=? c) && (c <=? 126)) eqn:Hprint.
  - apply andb_true_iff in Hprint. destruct Hprint as [Hlo _].
    apply N.leb_le in Hlo. now apply scanstring_plain.
  - destruct (N.ltb_spec c 0x10000) as [Hbmp|Hastral].
    + apply scanstring_backslash_u; [exact Hbmp|].
      unfold is_high_surrogate. apply andb_false_iff.
      destruct (N.leb_spec 0xd800 c); [right|now left].
      apply N.leb_gt. lia.
    + destruct (surrogate_pair c (conj Hastral Hrange)) as (H1 & H2 & H3 & H4 & H5).
      cbv zeta. rewrite <- app_assoc.
      rewrite (scanstring_surrogates _ _ rest H1 H2 H3 H4).
      cbv zeta in H5. now rewrite H5.
Qed.

Lemma scanstring_encoded (s rest : pystr) :
  unicode_text s ->
  scanstring (flat_map escape_char s ++ 34 :: rest) = Some (s, rest).
Proof.
  induction 1 as [|c s Hc _ IH]; [reflexivity|].
  cbn [flat_map]. rewrite <- app_assoc.
  now rewrite (scanstring_escape_char c _ Hc), IH.
Qed.

Lemma encode_string_app (s rest : pystr) :
  encode_string s ++ rest = 34 :: flat_map escape_char s ++ 34 :: rest.
Proof. unfold encode_string. cbn [app]. now rewrite <- app_assoc. Qed.

Lemma scan_once_string (fuel : nat) (s rest : pystr) :
  unicode_text s ->
  scan_once (S fuel) (encode_string s ++ rest) = Some (JStr s, rest).
Proof.
  intros Hs. rewrite encode_string_app.
  change (scan_once (S fuel) (34 :: flat_map escape_char s ++ 34 :: rest))
    with (match scanstring (flat_map escape_char s ++ 34 :: rest) with
          | Some (x, r') => Some (JStr x, r')
          | None => None
          end).
  now rewrite (scanstring_encoded s rest Hs).
Qed.

Lemma scan_members_unfold (fuel : nat) (s : pystr) :
  scan_members (S fuel) s
  = match scanstring s with
    | None => None
    | Some (key, r) =>
        match skip_ws r with
        | c :: r1 =>
            if c =? 58 then
              match scan_once fuel (skip_ws r1) with
              | None => None
              | Some (v, r2) =>
                  match skip_ws r2 with
                  | c2 :: r3 =>
                      if c2 =? 125 then Some ([(key, v)], r3)
                      else if c2 =? 44 then
                        match skip_ws r3 with
                        | c3 :: r4 =>
                            if c3 =? 34 then
                              match scan_members fuel r4 with
                              | Some (kvs, r') => Some ((key, v) :: kvs, r')
                              | None => None
                              end
                            else None
                        | [] => None
                        end
                      else None
                  | [] => None
                  end
              end
            else None
        | [] => None
        end
    end.
Proof. reflexivity. Qed.

Lemma scan_items_unfold (fuel : nat) (s : pystr) :
  scan_items (S fuel) s
  = match scan_once fuel s with
    | None => None
    | Some (v, r) =>
        match skip_ws r with
        | c :: r1 =>
            if c =? 93 then Some ([v], r1)
            else if c =? 44 then
              match scan_items fuel (skip_ws r1) with
              | Some (vs, r') => Some (v :: vs, r')
              | None => None
              end
            else None
        | [] => None
        end
    end.
Proof. reflexivity. Qed.

Lemma scan_once_object (fuel : nat) (r : pystr) :
  scan_once (S fuel) (123 :: 34 :: r)
  = match scan_members fuel r with
    | Some (pairs, r') => Some (JObj (dict_of_pairs pairs), r')
    | None => None
    end.
Proof. reflexivity. Qed.

Lemma scan_once_array (fuel : nat) (r : pystr) :
  scan_once (S fuel) (91 :: 123 :: r)
  = match scan_items fuel (123 :: r) with
    | Some (vs, r') => Some (JArr vs, r')
    | None => None
    end.
Proof. reflexivity. Qed.

Lemma scan_once_quoted (fuel : nat) (s rest : pystr) :
  unicode_text s ->
  scan_once (S fuel) (34 :: flat_map escape_char s ++ 34 :: rest) = Some (JStr s, rest).
Proof. intros Hs. rewrite <- encode_string_app. now apply scan_once_string. Qed.

#[local] Arguments scan_once : simpl never.
#[local] Arguments scan_members : simpl never.
#[local] Arguments scan_items : simpl never.
#[local] Arguments scanstring : simpl never.
#[local] Arguments encode_string : simpl never.

(** A member [key: text] that another member follows. *)
Lemma scan_members_more (fuel : nat) (key s more : pystr) :
  unicode_text key -> unicode_text s ->
  scan_members (S (S fuel))
    (flat_map escape_char key ++ 34 :: py ": " ++ encode_string s
       ++ py ", " ++ 34 :: more)
  = match scan_members (S fuel) more with
    | Some (kvs, r') => Some ((key, JStr s) :: kvs, r')
    | None => None
    end.
Proof.
  intros Hk Hs. rewrite scan_members_unfold, (scanstring_encoded key _ Hk).
  change (py ": ") with [58; 32]. change (py ", ") with [44; 32].
  rewrite encode_string_app. cbn.
  rewrite (scan_once_quoted fuel s _ Hs). cbn. reflexivity.
Qed.

(** The last member of an object. *)
Lemma scan_members_last (fuel : nat) (key s rest : pystr) :
  unicode_text key -> unicode_text s ->
  scan_members (S (S fuel))
    (flat_map escape_char key ++ 34 :: py ": " ++ encode_string s ++ 125 :: rest)
  = Some ([(key, JStr s)], rest).
Proof.
  intros Hk Hs. rewrite scan_members_unfold, (scanstring_encoded key _ Hk).
  change (py ": ") with [58; 32].
  rewrite encode_string_app. cbn.
  rewrite (scan_once_quoted fuel s _ Hs). cbn. reflexivity.
Qed.

Ltac text_literal := apply unicode_text_check; reflexivity.

Lemma role_name_text (r : role) : unicode_text (role_name r).
Proof. destruct r; text_literal. Qed.

Lemma dumps_object_head (rt : runtime) (members : list (pystr * json)) :
  exists tail, dumps rt (JObj members) = 123 :: tail.
Proof. eexists. reflexivity. Qed.

Lemma dumps_fragment (rt : runtime) (f : fragment) (s rest : pystr) :
  frag_content f = JStr s ->
  dumps rt (fragment_json f) ++ rest
  = 123 :: 34 :: flat_map escape_char (py "role") ++ 34 :: py ": "
      ++ encode_string (role_name (frag_role f)) ++ py ", "
      ++ 34 :: flat_map escape_char (py "content") ++ 34 :: py ": "
      ++ encode_string s ++ py ", "
      ++ 34 :: flat_map escape_char (py "timestamp") ++ 34 :: py ": "
      ++ encode_string (frag_timestamp f) ++ 125 :: rest.
Proof.
  intros Hs. unfold fragment_json. rewrite Hs.
  change (dumps rt (JObj [ (py "role", JStr (role_name (frag_role f)));
                           (py "content", JStr s);
                           (py "timestamp", JStr (frag_timestamp f)) ]))
    with ([123]
          ++ ((encode_string (py "role") ++ py ": "
               ++ encode_string (role_name (frag_role f)))
              ++ py ", "
              ++ (encode_string (py "content") ++ py ": " ++ encode_string s)
              ++ py ", "
              ++ (encode_string (py "timestamp") ++ py ": "
                  ++ encode_string (frag_timestamp f)))
          ++ [125]).
  rewrite !(encode_string_app (py "role")), !(encode_string_app (py "content")),
    !(encode_string_app (py "timestamp")).
  repeat (rewrite <- ?app_assoc; cbn [app]). reflexivity.
Qed.

Lemma scan_once_fragment (rt : runtime) (fuel : nat) (f : fragment) (rest : pystr) :
  unicode_fragment f ->
  scan_once (5 + fuel) (dumps rt (fragment_json f) ++ rest)
  = Some (fragment_json f, rest).
Proof.
  intros [(s & Hs & Htext) Htime].
  rewrite (dumps_fragment rt f s rest Hs).
  change (5 + fuel)%nat with (S (S (S (S (S fuel))))).
  rewrite scan_once_object.
  rewrite scan_members_more by (try apply role_name_text; text_literal).
  rewrite scan_members_more by (try exact Htext; text_literal).
  rewrite scan_members_last by (try exact Htime; text_literal).
  unfold fragment_json. rewrite Hs. reflexivity.
Qed.

Lemma app_comma (x : pystr) : py ", " ++ x = 44 :: 32 :: x.
Proof. reflexivity. Qed.

Lemma join_cons2 (sep x y : pystr) (l : list pystr) :
  join sep (x :: y :: l) = x ++ sep ++ join sep (y :: l).
Proof. reflexivity. Qed.

Lemma items_head (rt : runtime) (f : fragment) (t : list fragment) (rest : pystr) :
  exists tail,
    join (py ", ") (map (dumps rt) (map fragment_json (f :: t))) ++ rest = 123 :: tail.
Proof.
  destruct (dumps_object_head rt
              [ (py "role", JStr (role_name (frag_role f)));
                (py "content", frag_content f);
                (py "timestamp", JStr (frag_timestamp f)) ]) as [tail Htail].
  destruct t as [|g t]; cbn [map]; [cbn [join]|rewrite join_cons2];
    unfold fragment_json at 1; rewrite Htail; eexists; reflexivity.
Qed.

Lemma scan_items_fragments (rt : runtime) (t : list fragment) :
  Forall unicode_fragment t -> t <> [] ->
  forall fuel rest,
    (List.length t + 5 <= fuel)%nat ->
    scan_items fuel (join (py ", ") (map (dumps rt) (map fragment_json t)) ++ 93 :: rest)
    = Some (map fragment_json t, rest).
Proof.
  induction 1 as [|f t Hf Ht IH]; [congruence|]. intros _ fuel rest Hfuel.
  destruct fuel as [|fuel]; [simpl in Hfuel; lia|].
  rewrite scan_items_unfold.
  replace fuel with (5 + (fuel - 5))%nat at 1 by (simpl in Hfuel; lia).
  destruct t as [|g t].
  - cbn [map join]. rewrite (scan_once_fragment rt _ f _ Hf). cbn. reflexivity.
  - cbn [map]. rewrite join_cons2, <- !app_assoc.
    rewrite (scan_once_fragment rt _ f _ Hf).
    rewrite app_comma. cbn -[join dumps fragment_json py].
    destruct (items_head rt g t (93 :: rest)) as [tail Htail].
    cbn [map] in Htail. rewrite Htail. cbn -[join dumps fragment_json py].
    rewrite <- Htail.
    change (fragment_json g :: map fragment_json t) with (map fragment_json (g :: t)).
    change (dumps rt (fragment_json g) :: map (dumps rt) (map fragment_json t))
      with (map (dumps rt) (map fragment_json (g :: t))).
    rewrite (IH ltac:(discriminate) fuel rest) by (simpl in Hfuel |- *; lia).
    reflexivity.
Qed.

Lemma join_length (sep : pystr) (l : list pystr) :
  (forall x, In x l -> (1 <= List.length x)%nat) ->
  (List.length l <= List.length (join sep l))%nat.
Proof.
  induction l as [|x l IH]; intros H; [simpl; lia|].
  pose proof (H x (or_introl eq_refl)) as Hx.
  destruct l as [|y l]; [simpl; exact Hx|].
  rewrite join_cons2, !length_app.
  assert (Hl : (List.length (y :: l) <= List.length (join sep (y :: l)))%nat)
    by (apply IH; intros z Hz; apply H; now right).
  simpl List.length in *. lia.
Qed.

Lemma loads_transcript (rt : runtime) (t : list fragment) :
  Forall unicode_fragment t ->
  loads (dumps rt (transcript_json t)) = Some (transcript_json t).
Proof.
  intros Ht. destruct t as [|f t]; [reflexivity|].
  unfold transcript_json, loads.
  change (dumps rt (JArr (map fragment_json (f :: t))))
    with (91 :: join (py ", ") (map (dumps rt) (map fragment_json (f :: t))) ++ [93]).
  set (items := join (py ", ") (map (dumps rt) (map fragment_json (f :: t)))).
  assert (Hlen : (List.length (f :: t) <= List.length items)%nat).
  { unfold items. rewrite <- (length_map fragment_json), <- (length_map (dumps rt)).
    apply join_length. intros x Hx. apply in_map_iff in Hx.
    destruct Hx as (j & <- & Hj). apply in_map_iff in Hj.
    destruct Hj as (g & <- & _).
    destruct (dumps_object_head rt
                [ (py "role", JStr (role_name (frag_role g)));
                  (py "content", frag_content g);
                  (py "timestamp", JStr (frag_timestamp g)) ]) as [tail Htail].
    unfold fragment_json. rewrite Htail. simpl. lia. }
  assert (Hitems : scan_items (2 * List.length (91 :: items ++ [93])) (items ++ [93])
                   = Some (map fragment_json (f :: t), [])).
  { unfold items at 2.
    apply (scan_items_fragments rt (f :: t) Ht ltac:(discriminate)).
    cbn [List.length] in *. rewrite length_app. cbn [List.length]. lia. }
  destruct (items_head rt f t [93]) as [tail Htail]. fold items in Htail.
  cbn [skip_ws is_ws]. cbn -[items scan_once Nat.mul List.length].
  rewrite Htail in Hitems |- *. rewrite scan_once_array, Hitems. reflexivity.
Qed.

End JsonFacts.

(** ** The persisted transcript *)

Lemma unicode_fragment_text (f : fragment) : unicode_fragment f -> text_fragment f.
Proof. intros [(s & Hs & _) _]. now exists s. Qed.



Lemma unicode_text_join (sep : pystr) (l : list pystr) :
  unicode_text sep -> Forall unicode_text l -> unicode_text (join sep l).
Proof.
  intros Hsep. induction 1 as [|x l Hx Hl IH]; [constructor|].
  destruct l as [|y l]; [exact Hx|].
  change (join sep (x :: y :: l)) with (x ++ sep ++ join sep (y :: l)).
  apply Forall_app. split; [exact Hx|]. apply Forall_app. split; [exact Hsep|exact IH].
Qed.

Lemma user_texts_unicode (t : list fragment) :
  Forall unicode_fragment t -> Forall unicode_text (user_texts t).
Proof.
  induction 1 as [|f t [(s & Hs & Hu) _] _ IH]; [constructor|].
  unfold user_texts in *. cbn [flat_map]. rewrite Hs.
  destruct (frag_role f); [constructor; assumption|exact IH].
Qed.

Lemma user_summary_encodable (t : list fragment) :
  Forall unicode_fragment t -> encodable (join (py " ") (user_texts t)) = true.
Proof.
  intros Ht. apply encodable_unicode, unicode_text_join.
  - apply unicode_text_check. reflexivity.
  - now apply user_texts_unicode.
Qed.


(** A [user] fragment whose content is not text makes [" ".join] raise:
    the exception is caught in [save_voice_transcript] and nothing is
    written. *)
Lemma non_text_content_is_not_saved (rt : runtime) (ck : clock)
    (t : list fragment) (f : fragment) (ty : json) (db : database) :
  In f t -> frag_role f = user -> ~ text_fragment f ->
  save_voice_transcript rt ck t ty db = db.
Proof.
  intros Hin Hrole Hnot. unfold save_voice_transcript.
  assert (Hnone : all_text (user_content t) = None).
  { unfold user_content. induction t as [|g t IH]; [destruct Hin|].
    cbn [filter]. destruct Hin as [->|Hin].
    - rewrite Hrole. cbn [is_user map all_text].
      destruct (frag_content f) eqn:Hc; try reflexivity.
      exfalso. apply Hnot. now exists s.
    - destruct (is_user (frag_role g)); [|now apply IH].
      cbn [map all_text]. rewrite (IH Hin).
      destruct (frag_content g); reflexivity. }
  rewrite Hnone. destruct (user_content t); reflexivity.
Qed.

(** * The theorems on sample inputs *)

Lemma committed_requests_one_response_witness :
  fst (fst (relay_step sample_runtime initial_session (Text committed_text)
              (all_sent "2025-03-01T10:00:01")))
  = [ ToUpstream
        (Text (jq "{'type': 'response.create', 'response': {'modalities': ['text', 'audio']}}"));
      ToClient (Text committed_text) ]
  /\ awaiting_response
       (snd (fst (relay_step sample_runtime initial_session (Text committed_text)
                    (all_sent "2025-03-01T10:00:01")))) = true.
Proof.
  destruct (committed_requests_one_response sample_runtime initial_session
              committed_text
              [(py "type", JStr (py "input_audio_buffer.committed"))]
              (all_sent "2025-03-01T10:00:01")
              ltac:(vm_compute; reflexivity) ltac:(vm_compute; reflexivity))
    as [Hfalse _].
  exact (Hfalse ltac:(reflexivity)).
Defined.

(** C1 as the specification states it fails: when the send of
    [response.create] raises, the flag is still false afterwards. *)
Lemma committed_send_failure_leaves_flag_false : ~ committed_always_sets_flag.
Proof.
  intros claim.
  destruct (claim sample_runtime initial_session committed_text
              [(py "type", JStr (py "input_audio_buffer.committed"))]
              create_fails
              ltac:(vm_compute; reflexivity) ltac:(vm_compute; reflexivity)
              ltac:(reflexivity))
    as [_ Hflag].
  vm_compute in Hflag. discriminate Hflag.
Qed.


Lemma transcript_persisted_iff_user_fragment_witness :
  exists e,
    stored (voice_websocket sample_runtime (sample_setup dreams_config)
              three_fragment_events []) = [e].
Proof.
  destruct (transcript_persisted_iff_user_fragment sample_runtime
              (sample_setup dreams_config) three_fragment_events []
              ltac:(vm_compute; discriminate))
    as [[_ Hsaved] _].
  apply Hsaved. split.
  - exists {| frag_role := user; frag_content := JStr (py "A");
              frag_timestamp := py "2025-03-01T10:00:01" |}.
    split; [vm_compute; tauto|reflexivity].
  - exists [py "A"; py "C"]. repeat split; vm_compute; reflexivity.
Defined.

(** C3 as the specification states it fails: a transcription event
    that carries [null] records a [user] fragment whose content is not
    text; [" ".join] raises in the flush and nothing is stored. *)
Lemma null_transcript_is_not_persisted : ~ persisted_iff_user_fragment.
Proof.
  intros claim.
  destruct (claim sample_runtime (sample_setup dreams_config)
              null_transcript_events [] ltac:(vm_compute; discriminate))
    as [_ Hsaved].
  destruct Hsaved as [e He].
  - exists {| frag_role := user; frag_content := JNull;
              frag_timestamp := py "2025-03-01T10:00:01" |}.
    split; [vm_compute; tauto|reflexivity].
  - vm_compute in He. discriminate He.
Qed.

Lemma three_fragments_unicode : Forall unicode_fragment three_fragments.
Proof.
  unfold three_fragments.
  repeat (apply Forall_cons;
          [ split;
            [ eexists; split; [reflexivity|apply unicode_text_check; reflexivity]
            | apply unicode_text_check; reflexivity ]
          | ]).
  apply Forall_nil.
Defined.



Lemma unparsable_upstream_text_is_forwarded_raw_witness :
  relay_step sample_runtime initial_session (Text (py "not json"))
    (all_sent "2025-03-01T10:00:01")
  = ([ToClient (Text (py "not json"))], initial_session, true).
Proof.
  exact (proj1 (unparsable_upstream_text_is_forwarded_raw sample_runtime
                  initial_session (py "not json") (all_sent "2025-03-01T10:00:01") []
                  ltac:(vm_compute; reflexivity))).
Defined.

Lemma failures_reported_to_client_witness :
  snd (relay_loops sample_runtime initial_session true
         [Client (ReceiveBytes []) (Raises ConnectionClosed)])
  = Failed ConnectionClosed.
Proof.
  destruct (failures_reported_to_client sample_runtime (sample_setup dreams_config)
              [] []) as (_ & _ & Hfail).
  apply Hfail; discriminate.
Defined.

(** C6 as the specification states it fails: the session is set up, the
    client sends audio, the send upstream raises, and the client is sent
    a structured error. *)
Lemma upstream_send_failure_is_reported : ~ failures_after_setup_are_silent.
Proof.
  intros claim.
  apply (claim sample_runtime (sample_setup dreams_config)
           [Client (ReceiveBytes []) (Raises ConnectionClosed)] []
           _ _ ltac:(vm_compute; reflexivity)
           ltac:(intros f io' [H|[]]; discriminate H)
           (Text (jq "{'type': 'error', 'message': 'connection closed'}"))).
  vm_compute. tauto.
Qed.

Lemma missing_api_key_reports_and_stops_witness :
  trace (voice_websocket sample_runtime no_key_setup three_fragment_events [])
  = [ToClient (Text (jq "{'type': 'error', 'message': 'OpenAI API key not configured'}"))]
  /\ stored (voice_websocket sample_runtime no_key_setup three_fragment_events []) = [].
Proof.
  destruct (missing_api_key_reports_and_stops sample_runtime no_key_setup
              three_fragment_events [] ltac:(reflexivity))
    as (_ & _ & _ & Hdb & _ & Htrace).
  split; [|exact Hdb].
  destruct (Htrace ltac:(reflexivity)) as [-> _]. vm_compute. reflexivity.
Defined.

Lemma voice_and_text_entries_by_category_witness :
  exists chat voice,
    save_voice_transcript sample_runtime sample_clock three_fragments
      (JStr (py "reflection"))
      (saved (JournalDB.save_entry sample_runtime sample_clock (py "A quiet day")
                (py "reflection") (py "What made it quiet?") []))
    = [chat; voice]
    /\ entry_type chat = py "reflection"
    /\ entry_type voice = py "voice_reflection"
    /\ JournalDB.count_entries (py "reflection") [chat; voice] = 2%nat.
Proof.
  destruct (voice_and_text_entries_by_category sample_runtime sample_clock sample_clock
              (py "A quiet day") (py "What made it quiet?") (py "reflection")
              three_fragments []
              (saved (JournalDB.save_entry sample_runtime sample_clock
                        (py "A quiet day") (py "reflection")
                        (py "What made it quiet?") []))
              ltac:(reflexivity) ltac:(vm_compute; discriminate))
    as (chat & voice & _ & Hdb & Htc & Htv & _ & Hcount & _).
  exists chat, voice. repeat split; assumption.
Defined.



Lemma persisted_type_is_voice_prefixed_raw_type_witness :
  map entry_type
    (stored (voice_websocket sample_runtime (sample_setup dreams_config)
               three_fragment_events []))
  = [py "voice_dreams"]
  /\ session_type
       (final (voice_websocket sample_runtime (sample_setup dreams_config)
                 three_fragment_events [])) = JStr (py "dreams").
Proof.
  destruct (persisted_type_is_voice_prefixed_raw_type sample_runtime
              (sample_setup dreams_config) three_fragment_events [] dreams_config
              [(py "session_type", JStr (py "dreams"))] (py "dreams")
              ltac:(reflexivity) ltac:(reflexivity) ltac:(vm_compute; reflexivity)
              ltac:(vm_compute; reflexivity))
    as (Hty & _ & _).
  split; [vm_compute; reflexivity|exact Hty].
Defined.

(** * Further properties of the relay *)

Lemma client_frames_app (a b : list action) :
  client_frames (a ++ b) = client_frames a ++ client_frames b.
Proof.
  induction a as [|x a IH]; [reflexivity|].
  destruct x; simpl; now rewrite IH.
Qed.

Lemma upstream_sends_app (a b : list action) :
  upstream_sends (a ++ b) = upstream_sends a ++ upstream_sends b.
Proof.
  induction a as [|x a IH]; [reflexivity|].
  destruct x; simpl; now rewrite IH.
Qed.

(** One iteration of the relay task: the frame is forwarded and its
    fragments are recorded, or (a JSON text that is not an object)
    nothing is done and the task ends. *)
Lemma relay_step_shape (rt : runtime) (st : session) (m : frame) (io : relay_io) :
  let '(acts, st', alive) := relay_step rt st m io in
  (client_frames acts = [m]
   /\ conversation_transcript st' = conversation_transcript st ++ recorded m io)
  \/ (acts = [] /\ st' = st /\ alive = false
      /\ exists t v, m = Text t /\ Json.loads t = Some v /\ is_object v = false).
Proof.
  unfold relay_step, recorded. destruct m as [t|b].
  - destruct (Json.loads t) as [v|] eqn:Hl.
    + destruct v as [| | | | |data];
        try (right; repeat split; exists t; eexists; repeat split; eauto).
      left. cbv zeta. rewrite client_frames_app. split.
      * destruct (type_is data (py "input_audio_buffer.committed")
                  && negb (awaiting_response st)); reflexivity.
      * repeat match goal with
               | |- context [if ?c then _ else _] => destruct c
               end; cbn; now rewrite ?app_nil_r.
    + left. split; [reflexivity|]. now rewrite app_nil_r.
  - left. split; [reflexivity|]. now rewrite app_nil_r.
Qed.

Lemma relay_loops_dead (rt : runtime) (events : list event) :
  forall st,
    let '(acts, st', _) := relay_loops rt st false events in
    client_frames acts = []
    /\ conversation_transcript st' = conversation_transcript st.
Proof.
  induction events as [|ev rest IH]; intros st; [split; reflexivity|].
  destruct ev as [m io| |m sent|e]; cbn [relay_loops].
  - apply IH.
  - apply IH.
  - pose proof (client_step_keeps st m sent) as Hk.
    assert (Hn : client_frames (fst (fst (client_step st m sent))) = [])
      by (destruct m; reflexivity).
    destruct (client_step st m sent) as [[acts st1] [| |e]]; simpl in Hk, Hn.
    + specialize (IH st1).
      destruct (relay_loops rt st1 false rest) as [[acts2 st2] e2].
      rewrite client_frames_app, Hn. destruct IH as [-> ->].
      split; [reflexivity|]. tauto.
    + split; [exact Hn|]. tauto.
    + split; [exact Hn|]. tauto.
  - split; reflexivity.
Qed.

(** X1. What the client is sent by the two loops is the first [k] frames
    that came from upstream, unchanged and in their order of arrival, and
    the transcript has grown by exactly the fragments of these [k]
    frames, in the same order. *)
Theorem relay_forwards_in_order (rt : runtime) (events : list event) :
  forall st alive,
    let '(acts, st', _) := relay_loops rt st alive events in
    exists k,
      client_frames acts = map fst (firstn k (upstream_events events))
      /\ conversation_transcript st'
         = conversation_transcript st
           ++ flat_map (fun p => recorded (fst p) (snd p))
                (firstn k (upstream_events events)).
Proof.
  induction events as [|ev rest IH]; intros st alive.
  { exists 0%nat. split; [reflexivity|]. simpl. now rewrite app_nil_r. }
  assert (Hdead : forall evs,
             let '(acts, st', _) := relay_loops rt st false evs in
             exists k,
               client_frames acts
               = map fst (firstn k (upstream_events (ev :: rest)))
               /\ conversation_transcript st'
                  = conversation_transcript st
                    ++ flat_map (fun p => recorded (fst p) (snd p))
                         (firstn k (upstream_events (ev :: rest)))).
  { intros evs. pose proof (relay_loops_dead rt evs st) as Hd.
    destruct (relay_loops rt st false evs) as [[acts st'] e].
    destruct Hd as [-> ->]. exists 0%nat. split; [reflexivity|].
    simpl. now rewrite app_nil_r. }
  destruct ev as [m io| |m sent|e]; cbn [relay_loops].
  - destruct alive; [|apply Hdead].
    pose proof (relay_step_shape rt st m io) as Hs.
    destruct (relay_step rt st m io) as [[acts st1] alive1].
    destruct Hs as [[Hframes Htr]|(-> & -> & -> & _)].
    + specialize (IH st1 alive1).
      destruct (relay_loops rt st1 alive1 rest) as [[acts2 st2] e2].
      destruct IH as (k & Hk1 & Hk2). exists (S k).
      rewrite client_frames_app, Hframes, Hk1, Hk2, Htr.
      cbn [upstream_events firstn map flat_map fst snd app].
      split; [reflexivity|]. now rewrite <- app_assoc.
    + specialize (Hdead rest).
      destruct (relay_loops rt st false rest) as [[acts2 st2] e2]. exact Hdead.
  - apply Hdead.
  - pose proof (client_step_keeps st m sent) as Hk.
    assert (Hn : client_frames (fst (fst (client_step st m sent))) = [])
      by (destruct m; reflexivity).
    destruct (client_step st m sent) as [[acts st1] [| |e]]; simpl in Hk, Hn.
    + specialize (IH st1 alive).
      destruct (relay_loops rt st1 alive rest) as [[acts2 st2] e2].
      destruct IH as (k & Hk1 & Hk2). exists k.
      rewrite client_frames_app, Hn, Hk1, Hk2.
      destruct Hk as (_ & _ & ->). split; reflexivity.
    + exists 0%nat. rewrite Hn. destruct Hk as (_ & _ & ->).
      split; [reflexivity|]. simpl. now rewrite app_nil_r.
    + exists 0%nat. rewrite Hn. destruct Hk as (_ & _ & ->).
      split; [reflexivity|]. simpl. now rewrite app_nil_r.
  - exists 0%nat. split; [reflexivity|]. simpl. now rewrite app_nil_r.
Qed.

(** X2. A text from upstream that is JSON but not an object is not
    forwarded: the relay task ends on it without a word, and from then on
    the client is sent no frame from upstream at all, though the session
    itself goes on. *)
Theorem non_object_json_stops_relay (rt : runtime) (st : session) (t : pystr)
    (v : json) (io : relay_io) (rest : list event) :
  Json.loads t = Some v -> is_object v = false ->
  relay_step rt st (Text t) io = ([], st, false)
  /\ relay_loops rt st true (Upstream (Text t) io :: rest)
     = relay_loops rt st false rest
  /\ client_frames (fst (fst (relay_loops rt st true (Upstream (Text t) io :: rest))))
     = [].
Proof.
  intros Hl Hv.
  assert (Hstep : relay_step rt st (Text t) io = ([], st, false)).
  { unfold relay_step. rewrite Hl. destruct v; try reflexivity; discriminate. }
  assert (Hloops : relay_loops rt st true (Upstream (Text t) io :: rest)
                   = relay_loops rt st false rest).
  { cbn [relay_loops]. rewrite Hstep.
    destruct (relay_loops rt st false rest) as [[acts st'] e]. reflexivity. }
  split; [exact Hstep|]. split; [exact Hloops|]. rewrite Hloops.
  pose proof (relay_loops_dead rt rest st) as Hd.
  destruct (relay_loops rt st false rest) as [[acts st'] e]. now destruct Hd.
Qed.

Lemma type_is_true (data : list (pystr * json)) (name : pystr) :
  type_is data name = true -> dict_get data (py "type") = Some (JStr name).
Proof.
  unfold type_is. destruct (dict_get data (py "type")) as [[| | |t| |]|];
    try discriminate.
  intros H. apply str_eqb_eq in H. now subst.
Qed.

(** One iteration whose own request goes through: requests and the flag
    against completions. *)
Lemma relay_step_requests (rt : runtime) (st : session) (m : frame) (io : relay_io) :
  create_sent io = Done ->
  let '(acts, st', _) := relay_step rt st m io in
  (forall f, In f (upstream_sends acts) -> f = Text (Json.dumps rt response_create))
  /\ (List.length (upstream_sends acts) + flag_count (awaiting_response st)
      <= flag_count (is_completion m) + flag_count (awaiting_response st'))%nat.
Proof.
  intros Hsent. unfold relay_step, is_completion. destruct m as [t|b].
  2:{ split; [intros f []|simpl; lia]. }
  destruct (Json.loads t) as [[| | | | |data]|];
    try (split; [intros f []|simpl; lia]).
  cbv zeta. rewrite Hsent. cbn [is_done]. rewrite andb_true_r.
  destruct (type_is data (py "input_audio_buffer.committed")) eqn:Hc.
  - destruct (committed_is_no_completion data (type_is_true _ _ Hc))
      as (_ & -> & -> & ->).
    destruct (awaiting_response st) eqn:Haw; cbn.
    + rewrite Haw. split; [intros f []|simpl; lia].
    + split; [intros f [<-|[]]; reflexivity|simpl; lia].
  - cbn [andb app]. split.
    + intros f []. 
    + destruct (existsb (type_is data) completion_events);
        repeat match goal with
               | |- context [if ?c then _ else _] => destruct c
               end; cbn; destruct (awaiting_response st); simpl; lia.
Qed.

(** X3. While only the relay task runs and its requests go through,
    everything it sends upstream is a [response.create], and it never has
    two of them outstanding: the requests sent, plus one if a response
    was awaited at the start, are at most the completion events received,
    plus one if a response is awaited at the end. *)
Theorem auto_advance_is_bounded (rt : runtime) (events : list event) :
  forallb relay_only events = true ->
  forall st alive,
    let '(acts, st', _) := relay_loops rt st alive events in
    (forall f, In f (upstream_sends acts) -> f = Text (Json.dumps rt response_create))
    /\ (List.length (upstream_sends acts) + flag_count (awaiting_response st)
        <= List.length (filter (fun p => is_completion (fst p)) (upstream_events events))
           + flag_count (awaiting_response st'))%nat.
Proof.
  induction events as [|ev rest IH]; intros Hev st alive.
  { split; [intros f []|simpl; lia]. }
  cbn [forallb] in Hev. apply andb_true_iff in Hev. destruct Hev as [Hev Hrest].
  specialize (IH Hrest).
  destruct ev as [m io| |m sent|e]; try discriminate; cbn [relay_loops].
  - cbn [upstream_events filter fst].
    destruct alive.
    + pose proof (relay_step_requests rt st m io
                    ltac:(simpl in Hev; destruct (create_sent io); [reflexivity|discriminate]))
        as Hs.
      destruct (relay_step rt st m io) as [[acts st1] alive1].
      destruct Hs as [Hs1 Hs2]. specialize (IH st1 alive1).
      destruct (relay_loops rt st1 alive1 rest) as [[acts2 st2] e2].
      destruct IH as [IH1 IH2]. rewrite upstream_sends_app. split.
      * intros f Hf. apply in_app_or in Hf. destruct Hf; auto.
      * rewrite length_app.
        destruct (is_completion m); cbn [flag_count List.length] in *; lia.
    + specialize (IH st false).
      destruct (relay_loops rt st false rest) as [[acts2 st2] e2].
      destruct IH as [IH1 IH2]. split; [exact IH1|].
      destruct (is_completion m); cbn [List.length]; lia.
  - specialize (IH st false).
    destruct (relay_loops rt st false rest) as [[acts2 st2] e2]. exact IH.
Qed.

(** * Further properties of the handler *)

Lemma relay_step_traffic (rt : runtime) (st : session) (m : frame) (io : relay_io) :
  forallb is_traffic (fst (fst (relay_step rt st m io))) = true.
Proof.
  unfold relay_step. destruct m as [t|b]; [|reflexivity].
  destruct (Json.loads t) as [[| | | | |data]|]; try reflexivity.
  cbv zeta. cbn [fst].
  destruct (type_is data (py "input_audio_buffer.committed")
            && negb (awaiting_response st)); reflexivity.
Qed.

Lemma client_step_traffic (st : session) (m : asgi_message) (sent : outcome) :
  forallb is_traffic (fst (fst (client_step st m sent))) = true.
Proof. destruct m; reflexivity. Qed.

Lemma relay_loops_traffic (rt : runtime) (events : list event) :
  forall st alive,
    forallb is_traffic (fst (fst (relay_loops rt st alive events))) = true.
Proof.
  induction events as [|ev rest IH]; intros st alive; [reflexivity|].
  destruct ev as [m io| |m sent|e]; cbn [relay_loops].
  - destruct alive; [|apply IH].
    pose proof (relay_step_traffic rt st m io) as Hs.
    destruct (relay_step rt st m io) as [[acts st1] alive1].
    specialize (IH st1 alive1).
    destruct (relay_loops rt st1 alive1 rest) as [[acts2 st2] e2].
    cbn [fst] in *. rewrite forallb_app, Hs, IH. reflexivity.
  - apply IH.
  - pose proof (client_step_traffic st m sent) as Hs.
    destruct (client_step st m sent) as [[acts st1] [| |e]]; cbn [fst] in *.
    + specialize (IH st1 alive).
      destruct (relay_loops rt st1 alive rest) as [[acts2 st2] e2].
      cbn [fst] in *. rewrite forallb_app, Hs, IH. reflexivity.
    + exact Hs.
    + exact Hs.
  - reflexivity.
Qed.

(** The setup either leaves the handler with no connection upstream, or
    has opened one as its first action. *)
Lemma session_setup_shape (rt : runtime) (io : setup_io) :
  let '(acts, st, o) := session_setup rt io in
  (openai_ws st = false /\ o <> None /\ o <> Some Pending
   /\ exists mid,
        forallb is_to_client mid = true
        /\ (acts = mid \/ (acts = Connect realtime_url :: mid /\ connected io <> Done)))
  \/ (openai_ws st = true /\ connected io = Done
      /\ exists mid,
           forallb is_traffic mid = true /\ acts = Connect realtime_url :: mid).
Proof.
  unfold session_setup.
  destruct (key_missing (api_key io)).
  { left. split; [reflexivity|].
    split; [destruct (key_error_sent io); discriminate|].
    split; [destruct (key_error_sent io); discriminate|].
    eexists. split; [|left; reflexivity]. reflexivity. }
  destruct (config_data io) as [text|e].
  2:{ left. repeat split; try discriminate. exists []. split; [reflexivity|now left]. }
  destruct (Json.loads text) as [[| | | | |config]|];
    try (left; repeat split; try discriminate;
         exists []; split; [reflexivity|now left]).
  cbv zeta. destruct (printable _).
  2:{ left. repeat split; try discriminate. exists []. split; [reflexivity|now left]. }
  destruct (connected io) eqn:Hcon.
  2:{ left. repeat split; try discriminate. exists []. split; [reflexivity|].
      right. split; [reflexivity|discriminate]. }
  destruct (get_session_prompt _ true);
    [destruct (config_sent io); [destruct (ready_sent io)|]|];
    (right; split; [reflexivity|]; split; [reflexivity|];
     eexists; split; [|reflexivity]; reflexivity).
Qed.

(** A run as a whole: with no connection upstream the trace is traffic
    (to the client) after at most one failed connect; with one, the trace
    is the connect, traffic, and the close once the handler has ended. *)
Lemma run_shape (rt : runtime) (io : setup_io) (events : list event) (db : database) :
  let r := voice_websocket rt io events db in
  (openai_ws (final r) = false /\ ended r <> Running
   /\ exists mid,
        forallb is_to_client mid = true
        /\ (trace r = mid
            \/ (trace r = Connect realtime_url :: mid /\ connected io <> Done)))
  \/ (openai_ws (final r) = true /\ connected io = Done
      /\ exists mid,
           forallb is_traffic mid = true
           /\ trace r
              = Connect realtime_url :: mid
                ++ match ended r with Running => [] | _ => [CloseUpstream] end).
Proof.
  intros r. unfold r, voice_websocket, session_body.
  pose proof (session_setup_shape rt io) as Hs.
  destruct (session_setup rt io) as [[acts0 st0] o].
  destruct Hs as [(Hws & Ho & Hp & mid & Hmid & Hacts)|(Hws & Hcon & mid & Hmid & ->)].
  - left. destruct o as [e|]; [|congruence].
    unfold teardown. rewrite Hws.
    destruct e as [| |x]; [congruence| |]; cbn.
    + split; [exact Hws|]. split; [discriminate|].
      rewrite app_nil_r. exists mid. split; [exact Hmid|].
      destruct Hacts as [->|[-> Hc]]; [now left|right; now split].
    + split; [exact Hws|].
      split; [destruct (error_sent io); discriminate|].
      exists (mid ++ [ToClient (Text (Json.dumps rt (error_message (exn_text rt x))))]).
      split.
      * rewrite forallb_app, Hmid. reflexivity.
      * rewrite ?app_nil_r.
        destruct Hacts as [->|[-> Hc]]; [left|right; split; [|exact Hc]];
          reflexivity.
  - right.
    assert (Hrun : forall acts st e,
               openai_ws st = true -> forallb is_traffic acts = true ->
               let r := match e with
                        | Pending => {| trace := (Connect realtime_url :: mid) ++ acts;
                                        final := st; stored := db; ended := Running |}
                        | Left =>
                            let '(closing, db') := teardown rt io st db in
                            {| trace := ((Connect realtime_url :: mid) ++ acts) ++ closing;
                               final := st; stored := db'; ended := Returned |}
                        | Failed x =>
                            let report :=
                              [ToClient (Text (Json.dumps rt
                                                 (error_message (exn_text rt x))))] in
                            let '(closing, db') := teardown rt io st db in
                            {| trace := ((Connect realtime_url :: mid) ++ acts)
                                        ++ report ++ closing;
                               final := st; stored := db';
                               ended := match error_sent io with
                                        | Done => Returned
                                        | Raises e' => Propagated e'
                                        end |}
                        end in
               openai_ws (final r) = true /\ connected io = Done
               /\ exists mid',
                    forallb is_traffic mid' = true
                    /\ trace r
                       = Connect realtime_url :: mid'
                         ++ match ended r with Running => [] | _ => [CloseUpstream] end).
    { intros acts st e Hopen Hacts. unfold teardown. rewrite Hopen.
      destruct e as [| |x]; cbn.
      - repeat split; try assumption. exists (mid ++ acts).
        split; [now rewrite forallb_app, Hmid, Hacts|]. now rewrite app_nil_r.
      - repeat split; try assumption. exists (mid ++ acts).
        split; [now rewrite forallb_app, Hmid, Hacts|]. now rewrite <- app_assoc.
      - repeat split; try assumption. exists (mid ++ acts
                ++ [ToClient (Text (Json.dumps rt (error_message (exn_text rt x))))]).
        split; [rewrite !forallb_app, Hmid, Hacts; reflexivity|].
        destruct (error_sent io); now rewrite <- !app_assoc. }
    destruct o as [e|].
    + specialize (Hrun [] st0 e Hws eq_refl). rewrite app_nil_r in Hrun.
      cbv zeta in Hrun. 
      destruct e as [| |x]; [| |]; cbn in *; rewrite ?app_nil_r in Hrun; exact Hrun.
    + pose proof (relay_loops_keeps rt events st0 true) as Hkeep.
      pose proof (relay_loops_traffic rt events st0 true) as Htr.
      destruct (relay_loops rt st0 true events) as [[acts st] e].
      cbn [fst snd] in *. destruct Hkeep as [Hk _].
      exact (Hrun acts st e ltac:(congruence) Htr).
Qed.

Lemma traffic_no_connection (l : list action) :
  forallb is_traffic l = true ->
  ~ In CloseUpstream l /\ forall u, ~ In (Connect u) l.
Proof.
  intros H. rewrite forallb_forall in H.
  split; [|intros u]; intros Hin; apply H in Hin; discriminate.
Qed.

Lemma to_client_only (l : list action) :
  forallb is_to_client l = true ->
  ~ In CloseUpstream l /\ (forall u, ~ In (Connect u) l)
  /\ forall f, ~ In (ToUpstream f) l.
Proof.
  intros H. rewrite forallb_forall in H.
  split; [|split; [intros u|intros f]]; intros Hin; apply H in Hin; discriminate.
Qed.

(** X4. Once the handler has ended, the connection upstream has been
    closed if and only if it had been opened, that is, if the connect was
    made and did not raise; the close is then the last action and the
    only one.  While the handler runs, nothing is closed. *)
Theorem upstream_closed_iff_opened (rt : runtime) (io : setup_io)
    (events : list event) (db : database) :
  let r := voice_websocket rt io events db in
  (openai_ws (final r) = true
   <-> In (Connect realtime_url) (trace r) /\ connected io = Done)
  /\ (ended r = Running -> ~ In CloseUpstream (trace r))
  /\ (ended r <> Running ->
      (In CloseUpstream (trace r) <-> openai_ws (final r) = true)
      /\ (openai_ws (final r) = true ->
          exists before,
            trace r = before ++ [CloseUpstream] /\ ~ In CloseUpstream before)).
Proof.
  intros r.
  destruct (run_shape rt io events db)
    as [(Hws & Hend & mid & Hmid & Htrace)|(Hws & Hcon & mid & Hmid & Htrace)];
    fold r in Hws, Htrace; try fold r in Hend.
  - destruct (to_client_only mid Hmid) as (Hclose & Hconn & _).
    assert (Hnc : ~ In CloseUpstream (trace r)).
    { destruct Htrace as [->|[-> _]]; [exact Hclose|].
      intros [H|H]; [discriminate|contradiction]. }
    split; [|split].
    + rewrite Hws. split; [discriminate|]. intros [Hin Hdone].
      destruct Htrace as [Ht|[_ Hc]]; [|contradiction].
      rewrite Ht in Hin. now apply Hconn in Hin.
    + intros _. exact Hnc.
    + intros _. rewrite Hws. split; [split; [contradiction|discriminate]|discriminate].
  - destruct (traffic_no_connection mid Hmid) as (Hclose & Hconn).
    split; [|split].
    + rewrite Hws, Htrace. split; [intros _; split; [now left|exact Hcon]|reflexivity].
    + intros Hrun. rewrite Htrace, Hrun, app_nil_r.
      intros [H|H]; [discriminate|contradiction].
    + intros Hend. rewrite Htrace.
      assert (Hclosing : match ended r with Running => [] | _ => [CloseUpstream] end
                         = [CloseUpstream])
        by (destruct (ended r); [congruence|reflexivity|reflexivity]).
      rewrite Hclosing, Hws. split.
      * split; [reflexivity|]. intros _. right. apply in_or_app. right. now left.
      * intros _. exists (Connect realtime_url :: mid). split; [reflexivity|].
        intros [H|H]; [discriminate|contradiction].
Qed.

(** X5. Nothing is sent upstream unless the connect was made and went
    through, and the handler connects at most once: a trace with a
    connect or with a send upstream starts with the connect and holds no
    other. *)
Theorem upstream_sends_follow_the_connect (rt : runtime) (io : setup_io)
    (events : list event) (db : database) :
  let r := voice_websocket rt io events db in
  (forall f, In (ToUpstream f) (trace r) -> connected io = Done)
  /\ (forall a,
        In a (trace r) -> (exists f, a = ToUpstream f) \/ (exists u, a = Connect u) ->
        exists rest,
          trace r = Connect realtime_url :: rest
          /\ forall u, ~ In (Connect u) rest).
Proof.
  intros r.
  destruct (run_shape rt io events db)
    as [(Hws & Hend & mid & Hmid & Htrace)|(Hws & Hcon & mid & Hmid & Htrace)];
    fold r in Htrace.
  - destruct (to_client_only mid Hmid) as (Hclose & Hconn & Hup).
    split.
    + intros f Hin. destruct Htrace as [Ht|[Ht _]]; rewrite Ht in Hin.
      * now apply Hup in Hin.
      * destruct Hin as [H|H]; [discriminate|now apply Hup in H].
    + intros a Hin Ha. destruct Htrace as [Ht|[Ht _]].
      * rewrite Ht in Hin. exfalso.
        destruct Ha as [[f ->]|[u ->]]; [now apply Hup in Hin|now apply Hconn in Hin].
      * exists mid. split; [exact Ht|exact Hconn].
  - destruct (traffic_no_connection mid Hmid) as (Hclose & Hconn).
    split; [intros f _; exact Hcon|].
    intros a _ _. eexists. split; [exact Htrace|].
    intros u Hin. apply in_app_or in Hin. destruct Hin as [Hin|Hin].
    + now apply Hconn in Hin.
    + destruct (ended r); simpl in Hin; intuition discriminate.
Qed.

Lemma session_setup_parsed (rt : runtime) (io : setup_io)
    (text : pystr) (config : list (pystr * json)) :
  key_missing (api_key io) = false ->
  config_data io = Ok text ->
  Json.loads text = Some (JObj config) ->
  session_setup rt io =
  let chosen := dict_get_default config (py "session_type") (JStr (py "reflection")) in
  let st1 := set_session_type initial_session chosen in
  if printable chosen then
    match connected io with
    | Raises e => ([Connect realtime_url], st1, Some (Failed e))
    | Done =>
        let st2 := set_connected st1 in
        match get_session_prompt chosen true with
        | Raise e => ([Connect realtime_url], st2, Some (Failed e))
        | Ok instructions =>
            let configure :=
              [ Connect realtime_url;
                ToUpstream (Text (Json.dumps rt (session_config instructions))) ] in
            match config_sent io with
            | Raises e => (configure, st2, Some (Failed e))
            | Done =>
                let ready :=
                  configure ++ [ToClient (Text (Json.dumps rt ready_message))] in
                match ready_sent io with
                | Raises e => (ready, st2, Some (Failed e))
                | Done => (ready, st2, None)
                end
            end
        end
    end
  else ([], st1, Some (Failed UnicodeEncodeError)).
Proof.
  intros Hk Hc Hl. unfold session_setup. rewrite Hk, Hc, Hl. reflexivity.
Qed.

Lemma final_session_type_parsed (rt : runtime) (io : setup_io) (events : list event)
    (db : database) (text : pystr) (config : list (pystr * json)) :
  key_missing (api_key io) = false ->
  config_data io = Ok text ->
  Json.loads text = Some (JObj config) ->
  session_type (final (voice_websocket rt io events db))
  = dict_get_default config (py "session_type") (JStr (py "reflection")).
Proof.
  intros Hk Hc Hl. rewrite final_of_body. unfold session_body.
  rewrite (session_setup_parsed rt io text config Hk Hc Hl). cbv zeta.
  destruct (printable _); [|reflexivity].
  destruct (connected io); [|reflexivity].
  destruct (get_session_prompt _ true); [|reflexivity].
  destruct (config_sent io); [|reflexivity].
  destruct (ready_sent io); [|reflexivity].
  match goal with
  | |- context [relay_loops rt ?st0 true events] =>
      pose proof (relay_loops_keeps rt events st0 true) as Hkeep;
      destruct (relay_loops rt st0 true events) as [[acts st] e]
  end.
  cbn [fst snd] in *. destruct Hkeep as [_ ->]. reflexivity.
Qed.

Lemma trace_starts_with_setup (rt : runtime) (io : setup_io) (events : list event)
    (db : database) :
  exists rest,
    trace (voice_websocket rt io events db)
    = fst (fst (session_setup rt io)) ++ rest.
Proof.
  unfold voice_websocket, session_body.
  destruct (session_setup rt io) as [[acts0 st0] [e|]]; cbn [fst].
  - destruct e as [| |x]; [exists []; now rewrite app_nil_r| |];
      destruct (teardown rt io st0 db) as [closing db']; eexists; reflexivity.
  - destruct (relay_loops rt st0 true events) as [[acts st] e].
    destruct e as [| |x]; [eexists; reflexivity| |];
      destruct (teardown rt io st db) as [closing db']; cbn [trace];
      rewrite <- !app_assoc; eexists; reflexivity.
Qed.

(** X6. A first message that is a JSON object without ["session_type"]
    makes the session a "reflection" session: the state says so, the
    instructions sent upstream are the reflection ones, and an entry the
    session adds has the type ["voice_reflection"]. *)
Theorem missing_session_type_is_reflection (rt : runtime) (io : setup_io)
    (events : list event) (db : database) (text : pystr)
    (config : list (pystr * json)) :
  key_missing (api_key io) = false ->
  config_data io = Ok text ->
  Json.loads text = Some (JObj config) ->
  dict_get config (py "session_type") = None ->
  let r := voice_websocket rt io events db in
  session_type (final r) = JStr (py "reflection")
  /\ (stored r = db
      \/ exists e, stored r = db ++ [e] /\ entry_type e = py "voice_reflection")
  /\ (connected io = Done ->
      exists instructions,
        dict_get JournalPrompts.VOICE_PROMPTS (py "reflection") = Some instructions
        /\ In (ToUpstream (Text (Json.dumps rt (session_config instructions))))
              (trace r)).
Proof.
  intros Hk Hc Hl Hnone r.
  pose proof (final_session_type_parsed rt io events db text config Hk Hc Hl) as Hty.
  fold r in Hty. unfold dict_get_default in Hty. rewrite Hnone in Hty.
  split; [exact Hty|split].
  - pose proof (stored_cases rt io events db) as Hcases. fold r in Hcases.
    destruct Hcases as [H|(e & He & Htag)]; [now left|].
    right. exists e. split; [exact He|]. now rewrite Htag, Hty.
  - intros Hcon. eexists. split; [reflexivity|].
    destruct (trace_starts_with_setup rt io events db) as [rest Hrest].
    fold r in Hrest. rewrite Hrest. apply in_or_app. left.
    rewrite (session_setup_parsed rt io text config Hk Hc Hl).
    unfold dict_get_default. rewrite Hnone, Hcon. cbv zeta.
    change (get_session_prompt (JStr (py "reflection")) true)
      with (@Ok pystr (dict_get_default JournalPrompts.VOICE_PROMPTS (py "reflection")
                         (dict_get_default JournalPrompts.VOICE_PROMPTS
                            (py "reflection") []))).
    cbv iota.
    destruct (config_sent io); [destruct (ready_sent io)|]; cbn [fst];
      right; left; reflexivity.
Qed.

(** X7. A ["session_type"] that is a list or an object cannot be looked
    up in the prompt table: the handler has connected by then, so it
    reports the [TypeError] to the client, closes the connection it just
    opened, and stores nothing; the events that follow are never
    read. *)
Theorem unhashable_session_type_is_reported (rt : runtime) (io : setup_io)
    (events : list event) (db : database) (text : pystr)
    (config : list (pystr * json)) (v : json) :
  key_missing (api_key io) = false ->
  config_data io = Ok text ->
  Json.loads text = Some (JObj config) ->
  dict_get config (py "session_type") = Some v ->
  hashable v = false ->
  connected io = Done ->
  let r := voice_websocket rt io events db in
  trace r = [ Connect realtime_url;
              ToClient (Text (Json.dumps rt (error_message (exn_text rt TypeError))));
              CloseUpstream ]
  /\ stored r = db
  /\ ended r <> Running.
Proof.
  intros Hk Hc Hl Hv Hhash Hcon r. unfold r, voice_websocket, session_body.
  rewrite (session_setup_parsed rt io text config Hk Hc Hl).
  unfold dict_get_default. rewrite Hv, Hcon. cbv zeta.
  assert (Hraise : get_session_prompt v true = Raise TypeError)
    by (destruct v; try discriminate; reflexivity).
  assert (Hprint : printable v = true)
    by (destruct v; try discriminate; reflexivity).
  rewrite Hprint, Hraise. cbn.
  repeat split. destruct (error_sent io); discriminate.
Qed.

(** X8. When the client's first message cannot be read as a JSON object
    (the receive raises, the text is not JSON, or it is JSON of another
    kind), the handler reports one error to the client and stops: it
    never connects upstream and stores nothing. *)
Theorem unreadable_config_is_reported (rt : runtime) (io : setup_io)
    (events : list event) (db : database) :
  key_missing (api_key io) = false ->
  (forall text config,
     config_data io = Ok text -> Json.loads text <> Some (JObj config)) ->
  let r := voice_websocket rt io events db in
  (exists e,
     trace r = [ToClient (Text (Json.dumps rt (error_message (exn_text rt e))))]
     /\ match config_data io with
        | Raise x => e = x
        | Ok text =>
            match Json.loads text with
            | None => e = JSONDecodeError
            | Some _ => e = AttributeError
            end
        end)
  /\ final r = initial_session
  /\ stored r = db
  /\ ended r <> Running.
Proof.
  intros Hk Hbad r. unfold r, voice_websocket, session_body, session_setup.
  rewrite Hk.
  destruct (config_data io) as [text|x] eqn:Hc.
  - destruct (Json.loads text) as [[| | | | |config]|] eqn:Hl;
      try (cbn; split; [eexists; split; reflexivity|];
           repeat split; destruct (error_sent io); discriminate).
    exfalso. exact (Hbad text config eq_refl Hl).
  - cbn. split; [eexists; split; reflexivity|].
    repeat split; destruct (error_sent io); discriminate.
Qed.

Lemma user_content_has_user (t : list fragment) :
  user_content t <> [] -> exists f, In f t /\ frag_role f = user.
Proof.
  intros Hne. destruct (roles_split t) as [H|H]; [exact H|].
  now rewrite (user_content_none t H) in Hne.
Qed.

Lemma save_voice_transcript_entry (rt : runtime) (ck : clock) (t : list fragment)
    (ty : json) (db : database) :
  save_voice_transcript rt ck t ty db = db
  \/ exists e,
       save_voice_transcript rt ck t ty db = db ++ [e]
       /\ entry_date e = today ck
       /\ entry_type e = py "voice_" ++ format_value rt ty
       /\ entry_ai_prompts e = Json.dumps rt (transcript_json t)
       /\ exists f, In f t /\ frag_role f = user.
Proof.
  unfold save_voice_transcript, insert_entry.
  destruct (user_content t) as [|j l] eqn:Hu; [now left|].
  destruct (all_text (j :: l)); [|now left].
  destruct (_ && _); [|now left].
  right. eexists. split; [reflexivity|]. repeat split.
  apply user_content_has_user. rewrite Hu. discriminate.
Qed.

(** X9. A run of the handler never changes or removes a row of the
    table.  It adds nothing while it runs, and at its end at most one
    row: dated today, typed ["voice_"] and the session type, holding the
    whole transcript as JSON, and only when the transcript has a [user]
    fragment. *)
Theorem run_appends_at_most_one_entry (rt : runtime) (io : setup_io)
    (events : list event) (db : database) :
  let r := voice_websocket rt io events db in
  (ended r = Running -> stored r = db)
  /\ (stored r = db
      \/ exists e,
           stored r = db ++ [e]
           /\ entry_date e = today (flush_clock io)
           /\ entry_type e
              = py "voice_" ++ format_value rt (session_type (final r))
           /\ entry_ai_prompts e
              = Json.dumps rt (transcript_json (conversation_transcript (final r)))
           /\ exists f,
                In f (conversation_transcript (final r)) /\ frag_role f = user).
Proof.
  intros r. unfold r. rewrite final_of_body. unfold voice_websocket.
  destruct (session_body rt io events) as [[acts st] [| |x]]; cbn.
  - split; [reflexivity|now left].
  - split; [discriminate|].
    destruct (conversation_transcript st) eqn:Ht; [now left|]. rewrite <- Ht.
    apply save_voice_transcript_entry.
  - split; [destruct (error_sent io); discriminate|].
    destruct (conversation_transcript st) eqn:Ht; [now left|]. rewrite <- Ht.
    apply save_voice_transcript_entry.
Qed.

Lemma non_object_json_stops_relay_witness :
  client_frames
    (fst (fst (relay_loops sample_runtime initial_session true
                 (Upstream (Text (jq "['not', 'an', 'object']"))
                    (all_sent "2025-03-01T10:00:00")
                  :: three_fragment_events))))
  = [].
Proof.
  exact (proj2 (proj2 (non_object_json_stops_relay sample_runtime initial_session
                         (jq "['not', 'an', 'object']")
                         (JArr [JStr (py "not"); JStr (py "an"); JStr (py "object")])
                         (all_sent "2025-03-01T10:00:00") three_fragment_events
                         ltac:(vm_compute; reflexivity) ltac:(reflexivity)))).
Defined.

Lemma auto_advance_is_bounded_witness :
  upstream_sends
    (fst (fst (relay_loops sample_runtime initial_session true committed_twice_events)))
  = [ Text (Json.dumps sample_runtime response_create);
      Text (Json.dumps sample_runtime response_create) ]
  /\ forall f,
       In f (upstream_sends
               (fst (fst (relay_loops sample_runtime initial_session true
                            committed_twice_events)))) ->
       f = Text (Json.dumps sample_runtime response_create).
Proof.
  split; [vm_compute; reflexivity|].
  pose proof (auto_advance_is_bounded sample_runtime committed_twice_events
                ltac:(reflexivity) initial_session true) as H.
  destruct (relay_loops sample_runtime initial_session true committed_twice_events)
    as [[acts st] e].
  exact (proj1 H).
Defined.

Lemma missing_session_type_is_reflection_witness :
  map entry_type
    (stored (voice_websocket sample_runtime (sample_setup (jq "{}"))
               three_fragment_events []))
  = [py "voice_reflection"]
  /\ session_type
       (final (voice_websocket sample_runtime (sample_setup (jq "{}"))
                 three_fragment_events [])) = JStr (py "reflection").
Proof.
  split; [vm_compute; reflexivity|].
  exact (proj1 (missing_session_type_is_reflection sample_runtime
                  (sample_setup (jq "{}")) three_fragment_events [] (jq "{}") []
                  ltac:(reflexivity) ltac:(reflexivity)
                  ltac:(vm_compute; reflexivity) ltac:(reflexivity))).
Defined.

Lemma unhashable_session_type_is_reported_witness :
  trace (voice_websocket sample_runtime
           (sample_setup (jq "{'session_type': ['reflection']}"))
           three_fragment_events [])
  = [ Connect realtime_url;
      ToClient (Text (jq "{'type': 'error', 'message': 'connection closed'}"));
      CloseUpstream ].
Proof.
  destruct (unhashable_session_type_is_reported sample_runtime
              (sample_setup (jq "{'session_type': ['reflection']}"))
              three_fragment_events []
              (jq "{'session_type': ['reflection']}")
              [(py "session_type", JArr [JStr (py "reflection")])]
              (JArr [JStr (py "reflection")])
              ltac:(reflexivity) ltac:(reflexivity) ltac:(vm_compute; reflexivity)
              ltac:(vm_compute; reflexivity) ltac:(reflexivity) ltac:(reflexivity))
    as [-> _].
  vm_compute. reflexivity.
Defined.

Lemma unreadable_config_is_reported_witness :
  trace (voice_websocket sample_runtime (sample_setup (py "hello"))
           three_fragment_events [])
  = [ToClient (Text (jq "{'type': 'error', 'message': 'connection closed'}"))]
  /\ stored (voice_websocket sample_runtime (sample_setup (py "hello"))
               three_fragment_events []) = [].
Proof.
  destruct (unreadable_config_is_reported sample_runtime (sample_setup (py "hello"))
              three_fragment_events []
              ltac:(reflexivity)
              ltac:(intros text config H; injection H as <-; vm_compute; discriminate))
    as (_ & _ & Hdb & _).
  split; [vm_compute; reflexivity|exact Hdb].
Defined.

(** * Further properties of the entries table *)

Lemma str_leb_refl (a : pystr) : str_leb a a = true.
Proof.
  induction a as [|x a IH]; [reflexivity|]. simpl.
  now rewrite N.eqb_refl, IH, orb_true_r.
Qed.






Lemma sql_integer_range (n : Z) :
  sql_integer n = true <-> (- 2 ^ 63 <= n < 2 ^ 63)%Z.
Proof. unfold sql_integer. rewrite andb_true_iff, Z.leb_le, Z.ltb_lt. tauto. Qed.


(** X11. [save_entry] raises exactly when the type or the content holds
    a lone surrogate.  When it returns, the count of a category [s] that
    can be encoded has grown by one exactly when the type is [s] or
    ["voice_" ++ s], and every other category is as it was.  So a chat
    entry typed ["voice_" ++ s] is counted in category [s] like a voice
    entry. *)
Theorem save_entry_counts (rt : runtime) (ck : clock)
    (content ty response s : pystr) (db : database) :
  unicode_text s ->
  (JournalDB.save_entry rt ck content ty response db = None
   <-> ~ (unicode_text ty /\ unicode_text content))
  /\ forall db',
       JournalDB.save_entry rt ck content ty response db = Some db' ->
       (ty = s \/ ty = py "voice_" ++ s ->
        JournalDB.count_entries s db' = S (JournalDB.count_entries s db))
       /\ (ty <> s -> ty <> py "voice_" ++ s ->
           JournalDB.count_entries s db' = JournalDB.count_entries s db
           /\ JournalDB.get_recent_entries s (-1) db'
              = JournalDB.get_recent_entries s (-1) db).
Proof.
  intros Hs. split.
  - unfold JournalDB.save_entry, insert_entry.
    rewrite <- !encodable_unicode.
    destruct (encodable ty); destruct (encodable content); cbn [andb];
      split; intros H; try discriminate H; try reflexivity;
      try (exfalso; apply H; split; reflexivity);
      intros [H1 H2]; discriminate.
  - intros db' Hsave.
    destruct (save_entry_some rt ck content ty response db db' Hsave)
      as (_ & _ & ->).
    match goal with |- context [db ++ [?e]] => set (new := e) end.
    assert (Hty : entry_type new = ty) by reflexivity.
    clearbody new.
    destruct (count_entries_app s db new) as [Hin Hout]. rewrite Hty in Hin, Hout.
    split; [exact Hin|]. intros H1 H2. split; [now apply Hout|].
    rewrite !get_recent_entries_runs
      by (try (now apply encodable_unicode); reflexivity).
    rewrite filter_app. cbn [filter].
    assert (Hc : in_category s new = false).
    { destruct (in_category s new) eqn:Hc; [|reflexivity].
      apply in_category_spec in Hc. rewrite Hty in Hc. tauto. }
    now rewrite Hc, app_nil_r.
Qed.

(** * Further properties of the stored prompt data *)

Module JsonRecords.
Import Json JsonFacts.

#[local] Arguments scan_once : simpl never.
#[local] Arguments scan_members : simpl never.
#[local] Arguments scan_items : simpl never.
#[local] Arguments scanstring : simpl never.
#[local] Arguments encode_string : simpl never.

Lemma dumps_chat_record (rt : runtime) (c a n rest : pystr) :
  dumps rt (chat_record c a n) ++ rest
  = 123 :: 34 :: flat_map escape_char (py "user") ++ 34 :: py ": "
      ++ encode_string c ++ py ", "
      ++ 34 :: flat_map escape_char (py "ai") ++ 34 :: py ": "
      ++ encode_string a ++ py ", "
      ++ 34 :: flat_map escape_char (py "timestamp") ++ 34 :: py ": "
      ++ encode_string n ++ 125 :: rest.
Proof.
  unfold chat_record.
  change (dumps rt (JObj [ (py "user", JStr c); (py "ai", JStr a);
                           (py "timestamp", JStr n) ]))
    with ([123]
          ++ ((encode_string (py "user") ++ py ": " ++ encode_string c)
              ++ py ", "
              ++ (encode_string (py "ai") ++ py ": " ++ encode_string a)
              ++ py ", "
              ++ (encode_string (py "timestamp") ++ py ": " ++ encode_string n))
          ++ [125]).
  rewrite !(encode_string_app (py "user")), !(encode_string_app (py "ai")),
    !(encode_string_app (py "timestamp")).
  repeat (rewrite <- ?app_assoc; cbn [app]). reflexivity.
Qed.

Lemma scan_once_chat_record (rt : runtime) (fuel : nat) (c a n rest : pystr) :
  unicode_text c -> unicode_text a -> unicode_text n ->
  scan_once (5 + fuel) (dumps rt (chat_record c a n) ++ rest)
  = Some (chat_record c a n, rest).
Proof.
  intros Hc Ha Hn. rewrite dumps_chat_record.
  change (5 + fuel)%nat with (S (S (S (S (S fuel))))).
  rewrite scan_once_object.
  rewrite scan_members_more by (try exact Hc; text_literal).
  rewrite scan_members_more by (try exact Ha; text_literal).
  rewrite scan_members_last by (try exact Hn; text_literal).
  reflexivity.
Qed.

Lemma loads_chat_record (rt : runtime) (c a n : pystr) :
  unicode_text c -> unicode_text a -> unicode_text n ->
  loads (dumps rt (JArr [chat_record c a n])) = Some (JArr [chat_record c a n]).
Proof.
  intros Hc Ha Hn. unfold loads.
  change (dumps rt (JArr [chat_record c a n]))
    with (91 :: dumps rt (chat_record c a n) ++ [93]).
  destruct (dumps_object_head rt
              [ (py "user", JStr c); (py "ai", JStr a); (py "timestamp", JStr n) ])
    as [tail Htail].
  fold (chat_record c a n) in Htail.
  assert (Hitems : forall k,
             scan_items (S (5 + k)) (dumps rt (chat_record c a n) ++ [93])
             = Some ([chat_record c a n], [])).
  { intros k. rewrite scan_items_unfold.
    rewrite (scan_once_chat_record rt k c a n [93] Hc Ha Hn). reflexivity. }
  rewrite Htail in Hitems |- *.
  cbn [skip_ws is_ws]. cbn -[scan_once Nat.mul List.length].
  rewrite scan_once_array.
  change ((123 :: tail) ++ [93]) with (123 :: tail ++ [93]) in Hitems.
  replace (Nat.mul 2 (List.length (91 :: 123 :: tail ++ [93])))
    with (S (5 + (2 * List.length tail)))%nat
    by (cbn [List.length]; rewrite length_app; cbn [List.length]; lia).
  rewrite Hitems. reflexivity.
Qed.

End JsonRecords.

(** X12. What [save_entry] stores can be read back: for a message, a
    type, a reply and a clock reading that are Unicode text,
    [save_entry] appends one row, and [parse_ai_prompts] of the stored
    [ai_prompts] is the list of the one record with the message under
    ["user"], the reply under ["ai"] and the time under ["timestamp"]. *)
Theorem save_entry_prompts_round_trip (rt : runtime) (ck : clock)
    (content ty response : pystr) (db : database) :
  unicode_text content -> unicode_text ty -> unicode_text response ->
  unicode_text (now ck) ->
  exists e,
    JournalDB.save_entry rt ck content ty response db = Some (db ++ [e])
    /\ entry_type e = ty
    /\ entry_content e = content
    /\ entry_date e = today ck
    /\ parse_ai_prompts (entry_ai_prompts e)
       = [chat_record content response (now ck)].
Proof.
  intros Hc Hty Hr Hn. unfold JournalDB.save_entry, insert_entry.
  rewrite (proj2 (encodable_unicode ty) Hty),
    (proj2 (encodable_unicode content) Hc).
  eexists. split; [reflexivity|].
  cbn [new_entry entry_type entry_content entry_date entry_ai_prompts].
  repeat split. unfold parse_ai_prompts.
  fold (chat_record content response (now ck)).
  rewrite (JsonRecords.loads_chat_record rt content response (now ck) Hc Hr Hn).
  change (Json.dumps rt (JArr [chat_record content response (now ck)]))
    with (91 :: Json.dumps rt (chat_record content response (now ck)) ++ [93]).
  reflexivity.
Qed.

(** X13. What [save_voice_transcript] stores can be read back by the
    same function: for a transcript of Unicode text with a [user]
    fragment and a type tag that can be encoded, one row is appended, and
    [parse_ai_prompts] of the stored [ai_prompts] is the list of the
    fragments' objects, in order. *)
Theorem voice_transcript_prompts_round_trip (rt : runtime) (ck : clock)
    (t : list fragment) (ty : json) (db : database) :
  Forall unicode_fragment t ->
  (exists f, In f t /\ frag_role f = user) ->
  encodable (py "voice_" ++ format_value rt ty) = true ->
  exists e,
    save_voice_transcript rt ck t ty db = db ++ [e]
    /\ parse_ai_prompts (entry_ai_prompts e) = map fragment_json t.
Proof.
  intros Ht Huser Hty.
  assert (Htext : Forall text_fragment t).
  { apply Forall_forall. intros f Hf. apply unicode_fragment_text.
    revert f Hf. now apply Forall_forall. }
  rewrite (save_voice_transcript_stored rt ck t ty db Htext Huser Hty
             (user_summary_encodable t Ht)).
  eexists. split; [reflexivity|]. cbn [new_entry entry_ai_prompts].
  unfold parse_ai_prompts.
  rewrite (JsonFacts.loads_transcript rt t Ht).
  destruct t as [|f t]; [destruct Huser as (f & [] & _)|].
  change (Json.dumps rt (transcript_json (f :: t)))
    with (91 :: join (py ", ") (map (Json.dumps rt) (map fragment_json (f :: t)))
            ++ [93]).
  reflexivity.
Qed.

(** ** The theorems on the sample table *)


Lemma save_entry_counts_witness :
  JournalDB.count_entries (py "reflection")
    (saved (JournalDB.save_entry sample_runtime later_clock
              (py "again") (py "voice_reflection") (py "ok") sample_entries))
  = S (JournalDB.count_entries (py "reflection") sample_entries).
Proof.
  exact (proj1 (proj2 (save_entry_counts sample_runtime later_clock
                         (py "again") (py "voice_reflection") (py "ok")
                         (py "reflection") sample_entries
                         ltac:(apply unicode_text_check; reflexivity))
                  _ eq_refl)
           (or_intror eq_refl)).
Defined.

Lemma save_entry_prompts_round_trip_witness :
  exists e,
    JournalDB.save_entry sample_runtime sample_clock
      (py "hello") (py "reflection") (py "How was your day?") sample_entries
    = Some (sample_entries ++ [e])
    /\ entry_type e = py "reflection"
    /\ entry_content e = py "hello"
    /\ entry_date e = py "2025-03-01"
    /\ parse_ai_prompts (entry_ai_prompts e)
       = [chat_record (py "hello") (py "How was your day?")
            (py "2025-03-01T10:00:00")].
Proof.
  exact (save_entry_prompts_round_trip sample_runtime sample_clock
           (py "hello") (py "reflection") (py "How was your day?") sample_entries
           ltac:(apply unicode_text_check; reflexivity)
           ltac:(apply unicode_text_check; reflexivity)
           ltac:(apply unicode_text_check; reflexivity)
           ltac:(apply unicode_text_check; reflexivity)).
Defined.

Lemma voice_transcript_prompts_round_trip_witness :
  exists e,
    save_voice_transcript sample_runtime sample_clock three_fragments
      (JStr (py "reflection")) sample_entries
    = sample_entries ++ [e]
    /\ parse_ai_prompts (entry_ai_prompts e) = map fragment_json three_fragments.
Proof.
  exact (voice_transcript_prompts_round_trip sample_runtime sample_clock
           three_fragments (JStr (py "reflection")) sample_entries
           three_fragments_unicode
           (ex_intro _ {| frag_role := user; frag_content := JStr (py "A");
                          frag_timestamp := py "2025-03-01T10:00:01" |}
              (conj (or_introl eq_refl) eq_refl))
           ltac:(reflexivity)).
Defined.

(** * Further properties of listing and context *)

Lemma parse_chat_record (rt : runtime) (c a n : pystr) :
  unicode_text c -> unicode_text a -> unicode_text n ->
  parse_ai_prompts (Json.dumps rt (JArr [chat_record c a n])) = [chat_record c a n].
Proof.
  intros Hc Ha Hn. unfold parse_ai_prompts.
  rewrite (JsonRecords.loads_chat_record rt c a n Hc Ha Hn).
  change (Json.dumps rt (JArr [chat_record c a n]))
    with (91 :: Json.dumps rt (chat_record c a n) ++ [93]).
  reflexivity.
Qed.

Lemma parse_transcript (rt : runtime) (t : list fragment) :
  Forall unicode_fragment t ->
  parse_ai_prompts (Json.dumps rt (transcript_json t)) = map fragment_json t.
Proof.
  intros Ht. unfold parse_ai_prompts.
  rewrite (JsonFacts.loads_transcript rt t Ht).
  destruct t as [|f t]; [reflexivity|].
  change (Json.dumps rt (transcript_json (f :: t)))
    with (91 :: join (py ", ") (map (Json.dumps rt) (map fragment_json (f :: t)))
            ++ [93]).
  reflexivity.
Qed.


Lemma order_by_newest (new : entry) (l : list entry) :
  (forall e, In e l ->
             str_leb (entry_created_at new) (entry_created_at e) = false) ->
  order_by_created_at_desc (l ++ [new]) = new :: order_by_created_at_desc l.
Proof.
  unfold order_by_created_at_desc. induction l as [|x l IH]; intros Hnew.
  - reflexivity.
  - cbn [app fold_right]. rewrite IH by (intros e He; apply Hnew; now right).
    cbn [insert_desc]. now rewrite (Hnew x (or_introl eq_refl)).
Qed.

Lemma clip_not_empty (n : nat) (s : pystr) : s <> [] -> clip n s <> [].
Proof.
  unfold clip. intros Hs. destruct (n <? List.length s)%nat; [|exact Hs].
  intros H. apply app_eq_nil in H. destruct H as [_ H]. discriminate.
Qed.

Lemma truthy_text (nonzero : pystr -> bool) (s : pystr) :
  s <> [] -> truthy nonzero (JStr s) = true.
Proof. destruct s; [congruence|reflexivity]. Qed.

Lemma entry_context_chat (rt : runtime) (nonzero : pystr -> bool)
    (content response time date : pystr) :
  unicode_text content -> unicode_text response -> unicode_text time ->
  response <> [] ->
  entry_context rt nonzero
    (content, Json.dumps rt (JArr [chat_record content response time]), date)
  = Some [ py "[" ++ date ++ py "] You: " ++ clip 200 content;
           py "AI: " ++ clip 150 response ].
Proof.
  intros Hc Hr Ht Hne. unfold entry_context.
  rewrite (parse_chat_record rt content response time Hc Hr Ht).
  cbn [rev app]. unfold chat_record. cbn [last_ai_reply].
  change (get_or_none _ (py "ai")) with (JStr response).
  rewrite (truthy_text nonzero response Hne). cbn [clip_value].
  rewrite (truthy_text nonzero _ (clip_not_empty 150 response Hne)).
  reflexivity.
Qed.

(** X15. The conversation just saved leads the context of the next
    request: after [save_entry] of a message of Unicode text with a reply
    that is not empty, in a category that can be encoded, at a clock
    later than every entry of the category, [get_recent_context] with a
    limit from 1 to below 2^63 starts with the dated message clipped to
    200 characters and the reply clipped to 150, followed by the parts
    of the [limit - 1] entries that were the most recent before. *)
Theorem recent_context_after_save (rt : runtime) (nonzero : pystr -> bool)
    (ck : clock) (content ty response s : pystr) (limit : Z) (db : database) :
  unicode_text content -> unicode_text response -> unicode_text (now ck) ->
  unicode_text s ->
  response <> [] ->
  ty = s \/ ty = py "voice_" ++ s ->
  (1 <= limit < 2 ^ 63)%Z ->
  (forall e, In e db -> in_category s e = true ->
             str_leb (current_timestamp ck) (entry_created_at e) = false) ->
  exists db' older,
    JournalDB.save_entry rt ck content ty response db = Some db'
    /\ JournalDB.get_recent_entries s (limit - 1) db = Some older
    /\ get_recent_context rt nonzero s limit db'
       = match context_parts rt nonzero older with
         | Some more =>
             Some (Some (join (py " | ")
                           ((py "[" ++ today ck ++ py "] You: " ++ clip 200 content)
                            :: (py "AI: " ++ clip 150 response) :: more)))
         | None => None
         end.
Proof.
  intros Hc Hr Hn Hs Hne Hty Hlimit Hnewer.
  assert (Hes : encodable s = true) by now apply encodable_unicode.
  assert (Hety : encodable ty = true).
  { destruct Hty as [->| ->]; [exact Hes|]. rewrite encodable_app, Hes. reflexivity. }
  unfold JournalDB.save_entry, insert_entry.
  rewrite Hety, (proj2 (encodable_unicode content) Hc). cbn [andb].
  fold (chat_record content response (now ck)).
  match goal with |- context [db ++ [?e]] => set (new := e) end.
  do 2 eexists. split; [reflexivity|].
  split; [apply get_recent_entries_runs; [exact Hes|apply sql_integer_range; lia]|].
  unfold get_recent_context.
  rewrite get_recent_entries_runs by (try exact Hes; apply sql_integer_range; lia).
  assert (Hcat : in_category s new = true) by (apply in_category_spec; exact Hty).
  rewrite filter_app. cbn [filter]. rewrite Hcat.
  rewrite order_by_newest.
  2:{ intros e He. apply filter_In in He. destruct He as [He Hse].
      exact (Hnewer e He Hse). }
  unfold sql_limit.
  destruct (Z.ltb_spec limit 0) as [?|_]; [lia|].
  destruct (Z.ltb_spec (limit - 1) 0) as [?|_]; [lia|].
  replace (Z.to_nat limit) with (S (Z.to_nat (limit - 1))) by lia.
  cbn [firstn map context_parts].
  change (selected_columns new)
    with (content, Json.dumps rt (JArr [chat_record content response (now ck)]),
          today ck).
  rewrite (entry_context_chat rt nonzero content response (now ck) (today ck)
             Hc Hr Hn Hne).
  destruct (context_parts rt nonzero _); reflexivity.
Qed.

Lemma last_ai_reply_fragments (nonzero : pystr -> bool) (l : list fragment) :
  Forall text_fragment l ->
  last_ai_reply nonzero (map fragment_json l)
  = Some (JStr match find is_reply l with
               | Some f => clip 150 (content_text f)
               | None => []
               end).
Proof.
  induction 1 as [|f l [s Hs] _ IH]; [reflexivity|].
  destruct f as [r c ts]. cbn in Hs. subst c.
  cbn [map find]. unfold fragment_json at 1, is_reply at 1, content_text at 1.
  cbn [frag_role frag_content frag_timestamp last_ai_reply].
  change (get_or_none _ (py "ai")) with JNull.
  change (get_or_none _ (py "content")) with (JStr s).
  cbn [truthy].
  destruct r.
  - change (get_is _ (py "role") (py "assistant")) with false.
    cbn [andb]. exact IH.
  - change (get_is _ (py "role") (py "assistant")) with true.
    cbn [andb]. destruct s as [|x s]; [exact IH|]. reflexivity.
Qed.

(** X16. For a voice entry the context quotes the last reply spoken: the
    row [save_voice_transcript] stores for a transcript of Unicode text
    with a [user] fragment, under a type tag that can be encoded, gives
    the dated, clipped words of the user and then the text, clipped to
    150 characters, of the last [assistant] fragment whose text is not
    empty; with no such fragment it gives the user's words alone. *)
Theorem voice_context_quotes_last_reply (rt : runtime) (nonzero : pystr -> bool)
    (ck : clock) (t : list fragment) (ty : json) (db : database) :
  Forall unicode_fragment t ->
  (exists f, In f t /\ frag_role f = user) ->
  encodable (py "voice_" ++ format_value rt ty) = true ->
  exists e,
    save_voice_transcript rt ck t ty db = db ++ [e]
    /\ entry_context rt nonzero (selected_columns e)
       = Some ((py "[" ++ today ck ++ py "] You: "
                  ++ clip 200 (join (py " ") (user_texts t)))
               :: match find is_reply (rev t) with
                  | Some f => [py "AI: " ++ clip 150 (content_text f)]
                  | None => []
                  end).
Proof.
  intros Ht Huser Hty.
  assert (Htext : Forall text_fragment t).
  { apply Forall_forall. intros f Hf. apply unicode_fragment_text.
    revert f Hf. now apply Forall_forall. }
  rewrite (save_voice_transcript_stored rt ck t ty db Htext Huser Hty
             (user_summary_encodable t Ht)).
  eexists. split; [reflexivity|].
  unfold selected_columns, entry_context.
  cbn [new_entry entry_content entry_ai_prompts entry_date].
  rewrite (parse_transcript rt t Ht).
  assert (Hloop : match map fragment_json t with
                  | [] => Some (JStr [])
                  | _ :: _ => last_ai_reply nonzero (rev (map fragment_json t))
                  end
                  = last_ai_reply nonzero (map fragment_json (rev t))).
  { rewrite map_rev. destruct (map fragment_json t) eqn:Hm; [|reflexivity].
    reflexivity. }
  rewrite Hloop, last_ai_reply_fragments by (now apply Forall_rev).
  destruct (find is_reply (rev t)) as [f|] eqn:Hfind; [|reflexivity].
  apply find_some in Hfind. destruct Hfind as [_ Hreply].
  assert (Hne : content_text f <> []).
  { unfold is_reply, content_text in *.
    destruct (frag_role f); [discriminate|].
    destruct (frag_content f) as [| | |[|x s]| |]; discriminate. }
  now rewrite (truthy_text nonzero _ (clip_not_empty 150 _ Hne)).
Qed.

(** ** The theorems on the sample table *)


Lemma recent_context_after_save_witness :
  exists db' older,
    JournalDB.save_entry sample_runtime latest_clock
      (py "a quiet day") (py "reflection") (py "What made it quiet?")
      sample_entries = Some db'
    /\ JournalDB.get_recent_entries (py "reflection") (3 - 1) sample_entries
       = Some older
    /\ get_recent_context sample_runtime (fun _ => true) (py "reflection") 3 db'
       = match context_parts sample_runtime (fun _ => true) older with
         | Some more =>
             Some (Some (join (py " | ")
                           ((py "[" ++ today latest_clock ++ py "] You: "
                               ++ clip 200 (py "a quiet day"))
                            :: (py "AI: " ++ clip 150 (py "What made it quiet?"))
                            :: more)))
         | None => None
         end.
Proof.
  exact (recent_context_after_save sample_runtime (fun _ => true) latest_clock
           (py "a quiet day") (py "reflection") (py "What made it quiet?")
           (py "reflection") 3 sample_entries
           ltac:(apply unicode_text_check; reflexivity)
           ltac:(apply unicode_text_check; reflexivity)
           ltac:(apply unicode_text_check; reflexivity)
           ltac:(apply unicode_text_check; reflexivity)
           ltac:(discriminate)
           (or_introl eq_refl)
           ltac:(lia)
           ltac:(intros e He _; vm_compute in He;
                 destruct He as [<-|[<-|[<-|[]]]]; reflexivity)).
Defined.

Lemma voice_context_quotes_last_reply_witness :
  exists e,
    save_voice_transcript sample_runtime sample_clock three_fragments
      (JStr (py "reflection")) [] = [e]
    /\ entry_context sample_runtime (fun _ => true) (selected_columns e)
       = Some [ py "[2025-03-01] You: A C"; py "AI: B" ].
Proof.
  exact (voice_context_quotes_last_reply sample_runtime (fun _ => true)
           sample_clock three_fragments (JStr (py "reflection")) []
           three_fragments_unicode
           (ex_intro _ {| frag_role := user; frag_content := JStr (py "A");
                          frag_timestamp := py "2025-03-01T10:00:01" |}
              (conj (or_introl eq_refl) eq_refl))
           ltac:(reflexivity)).
Defined.

(** * Further properties of the summaries *)

Lemma summary_window_length (s : pystr) (db : database) :
  List.length (summary_window s db)
  = Nat.min 20 (JournalDB.count_entries s db - 3).
Proof.
  unfold summary_window, JournalDB.count_entries.
  now rewrite length_firstn, length_skipn, order_by_length.
Qed.

(** X17. The test of [maybe_generate_summary] lets a category of five
    entries through, but [generate_summary] leaves out the three newest
    and wants three of the rest: with five entries or fewer no request is
    made and no summary is stored, whatever the model would answer. *)
Theorem summary_needs_six_entries (rt : runtime) (ops : text_ops)
    (ai : pystr -> result pystr) (ck : clock) (week_ago s : pystr)
    (db : database) (tbl : summaries) :
  (JournalDB.count_entries s db <= 5)%nat ->
  generate_summary rt ops ai ck s db tbl = (tbl, [])
  /\ maybe_generate_summary rt ops ai ck week_ago s db tbl = (tbl, []).
Proof.
  intros Hcount.
  assert (Hgen : generate_summary rt ops ai ck s db tbl = (tbl, [])).
  { unfold generate_summary. destruct (encodable s); [|reflexivity].
    cbn [negb]. rewrite summary_window_length.
    destruct (Nat.ltb_spec (Nat.min 20 (JournalDB.count_entries s db - 3)) 3);
      [reflexivity|lia]. }
  split; [exact Hgen|]. unfold maybe_generate_summary. rewrite Hgen.
  now destruct (_ && _).
Qed.

Lemma split_on_first (sep : N) (s : pystr) :
  exists first rest,
    split_on sep s = first :: rest
    /\ ~ In sep first
    /\ (s = first \/ exists more, s = first ++ sep :: more).
Proof.
  induction s as [|c s (first & rest & Hsplit & Hin & Hs)].
  - exists [], []. split; [reflexivity|]. split; [intros []|now left].
  - cbn [split_on]. destruct (N.eqb_spec c sep) as [->|Hc].
    + exists [], (split_on sep s). split; [reflexivity|]. split; [intros []|].
      right. now exists s.
    + rewrite Hsplit. exists (c :: first), rest. split; [reflexivity|]. split.
      * intros [H|H]; [congruence|contradiction].
      * destruct Hs as [->|[more ->]]; [now left|]. right. now exists more.
Qed.

(** X18. With six entries or more of distinct creation times in a
    category that can be encoded, no summary of the last week and an
    answer of Unicode text that can be read, one request is made, for
    the entries after the three newest, and one row is appended to the
    summaries: its session type is the category, its text is the answer
    up to the first line break, its themes and goals are the JSON lists
    of those read from the answer, its dates are the clock's, and its
    entry count is the number of entries handed to the model, at most 20
    and three fewer than the category has. *)
Theorem generated_summary_row (rt : runtime) (ops : text_ops)
    (ai : pystr -> result pystr) (ck : clock) (week_ago s : pystr)
    (db : database) (tbl : summaries) (prompt response : pystr)
    (themes goals : list pystr) :
  unicode_text s -> unicode_text response ->
  NoDup (map entry_created_at (filter (in_category s) db)) ->
  (6 <= JournalDB.count_entries s db)%nat ->
  has_recent_summary week_ago s tbl = false ->
  prompt = summary_prompt s
             (join [10; 10]
                (map (fun e => py "[" ++ entry_date e ++ py "] " ++ entry_content e)
                   (summary_window s db))) ->
  ai prompt = Ok response ->
  read_lines ops (split_on 10 response) [] [] = Some (themes, goals) ->
  exists row,
    maybe_generate_summary rt ops ai ck week_ago s db tbl = (tbl ++ [row], [prompt])
    /\ summary_id row = N.of_nat (List.length tbl) + 1
    /\ summary_session_type row = s
    /\ ~ In 10 (summary_text row)
    /\ (response = summary_text row
        \/ exists more, response = summary_text row ++ 10 :: more)
    /\ summary_key_themes row = Json.dumps rt (JArr (map JStr themes))
    /\ summary_mentioned_goals row = Json.dumps rt (JArr (map JStr goals))
    /\ summary_entry_count row = Nat.min 20 (JournalDB.count_entries s db - 3)
    /\ summary_last_entry_date row = today ck
    /\ summary_updated_at row = now ck.
Proof.
  intros Hs Hresponse _ Hcount Hrecent -> Hai Hread.
  destruct (split_on_first 10 response) as (first & rest & Hsplit & Hin & Hfirst).
  assert (Hef : encodable first = true).
  { apply encodable_unicode.
    destruct Hfirst as [<-|[more ->]]; [exact Hresponse|].
    now apply Forall_app in Hresponse. }
  exists (new_summary rt ck s first themes goals
            (Nat.min 20 (JournalDB.count_entries s db - 3)) tbl).
  split; [|cbn [new_summary summary_id summary_session_type summary_text
                summary_key_themes summary_mentioned_goals summary_entry_count
                summary_last_entry_date summary_updated_at];
           repeat split; assumption].
  unfold maybe_generate_summary. rewrite Hrecent.
  destruct (Nat.leb_spec 5 (JournalDB.count_entries s db)) as [_|?]; [|lia].
  cbn [andb negb]. unfold generate_summary.
  rewrite (proj2 (encodable_unicode s) Hs). cbn [negb].
  rewrite summary_window_length.
  destruct (Nat.ltb_spec (Nat.min 20 (JournalDB.count_entries s db - 3)) 3);
    [lia|].
  rewrite Hai, Hread, Hsplit. unfold save_summary.
  now rewrite (proj2 (encodable_unicode s) Hs), Hef.
Qed.

Lemma insert_updated_desc_not_nil (r : summary) (l : list summary) :
  insert_updated_desc r l <> [].
Proof. destruct l; simpl; [|destruct (str_leb _ _)]; discriminate. Qed.

Lemma order_by_updated_nil (l : list summary) :
  order_by_updated_at_desc l = [] -> l = [].
Proof.
  destruct l as [|r l]; [reflexivity|]. simpl. intros H.
  now apply insert_updated_desc_not_nil in H.
Qed.

Lemma get_summary_none (s : pystr) (tbl : summaries) :
  get_summary s tbl = None <-> filter (of_session_type s) tbl = [].
Proof.
  unfold get_summary. split.
  - destruct (order_by_updated_at_desc _) eqn:H; [|discriminate].
    intros _. now apply order_by_updated_nil.
  - intros ->. reflexivity.
Qed.

Lemma no_summary_none_recent (week_ago s : pystr) (tbl : summaries) :
  filter (of_session_type s) tbl = [] -> has_recent_summary week_ago s tbl = false.
Proof.
  intros H. unfold has_recent_summary.
  induction tbl as [|r tbl IH]; [reflexivity|].
  cbn [filter] in *. destruct (of_session_type s r); [discriminate|].
  cbn [andb]. now apply IH.
Qed.

(** X19. A summary is generated for a session type at most once:
    [get_historical_summary] considers generating only when the table has
    no summary of the type, and then the test for a summary of the last
    week cannot fail, so that the cutoff has no effect on what the
    function returns, stores or requests.  When the table has a summary
    of the type, nothing is stored and nothing is requested. *)
Theorem summary_generated_only_once (rt : runtime) (ops : text_ops)
    (nonzero : pystr -> bool) (ai : pystr -> result pystr) (ck : clock)
    (week_ago week_ago' s : pystr) (db : database) (tbl : summaries) :
  get_historical_summary rt ops nonzero ai ck week_ago s db tbl
  = get_historical_summary rt ops nonzero ai ck week_ago' s db tbl
  /\ ((exists r, In r tbl /\ summary_session_type r = s) ->
      exists returned,
        get_historical_summary rt ops nonzero ai ck week_ago s db tbl
        = (returned, tbl, [])).
Proof.
  unfold get_historical_summary. split.
  - destruct (encodable s); [cbn [negb]|reflexivity].
    destruct (get_summary s tbl) eqn:Hget; [reflexivity|].
    apply get_summary_none in Hget. unfold maybe_generate_summary.
    now rewrite !(no_summary_none_recent _ s tbl Hget).
  - intros (r & Hr & Hs).
    destruct (encodable s); [cbn [negb]|eexists; reflexivity].
    destruct (get_summary s tbl) eqn:Hget.
    + eexists. reflexivity.
    + apply get_summary_none in Hget.
      assert (Hin : In r (filter (of_session_type s) tbl)).
      { apply filter_In. split; [exact Hr|]. unfold of_session_type.
        rewrite Hs. apply str_eqb_refl. }
      rewrite Hget in Hin. destruct Hin.
Qed.

(** ** The theorems on sample tables *)

Lemma summary_needs_six_entries_witness :
  maybe_generate_summary sample_runtime ascii_ops (fun _ => Ok sample_answer)
    latest_clock (py "2025-02-24 08:00:00") (py "reflection") sample_entries []
  = ([], []).
Proof.
  exact (proj2 (summary_needs_six_entries sample_runtime ascii_ops
                  (fun _ => Ok sample_answer) latest_clock
                  (py "2025-02-24 08:00:00") (py "reflection") sample_entries []
                  ltac:(vm_compute; lia))).
Defined.

Lemma generated_summary_row_witness :
  exists row,
    maybe_generate_summary sample_runtime ascii_ops (fun _ => Ok sample_answer)
      latest_clock (py "2025-02-24 08:00:00") (py "reflection") six_entries []
    = ([row],
       [summary_prompt (py "reflection")
          (join [10; 10]
             (map (fun e => py "[" ++ entry_date e ++ py "] " ++ entry_content e)
                (summary_window (py "reflection") six_entries)))])
    /\ summary_text row = py "Calm weeks, steady work."
    /\ summary_entry_count row = 3%nat.
Proof.
  destruct (generated_summary_row sample_runtime ascii_ops
              (fun _ => Ok sample_answer) latest_clock (py "2025-02-24 08:00:00")
              (py "reflection") six_entries [] _ sample_answer
              [py "rest"; py "focus"] [py "sleep early"]
              ltac:(apply unicode_text_check; reflexivity)
              ltac:(apply unicode_text_check; reflexivity)
              ltac:(vm_compute; repeat constructor; simpl; intuition discriminate)
              ltac:(vm_compute; lia) ltac:(reflexivity) eq_refl eq_refl
              ltac:(vm_compute; reflexivity))
    as (row & Hrun & _ & _ & _ & _ & _ & _ & Hcount & _).
  exists row. split; [exact Hrun|].
  assert (Hrow : row = new_summary sample_runtime latest_clock (py "reflection")
                         (py "Calm weeks, steady work.")
                         [py "rest"; py "focus"] [py "sleep early"] 3 []).
  { assert (H : [row] = [new_summary sample_runtime latest_clock (py "reflection")
                           (py "Calm weeks, steady work.")
                           [py "rest"; py "focus"] [py "sleep early"] 3 []]).
    { apply (f_equal fst) in Hrun. cbn [fst app] in Hrun. rewrite <- Hrun.
      vm_compute. reflexivity. }
    now injection H. }
  rewrite Hrow. split; reflexivity.
Defined.

Lemma summary_generated_only_once_witness :
  exists returned,
    get_historical_summary sample_runtime ascii_ops (fun _ => true)
      (fun _ => Ok sample_answer) latest_clock (py "2025-02-24 08:00:00")
      (py "reflection") six_entries
      (saved_summaries
         (save_summary sample_runtime sample_clock (py "reflection")
            (py "Calm weeks.") [py "rest"] [] 3 []))
    = (returned,
       saved_summaries
         (save_summary sample_runtime sample_clock (py "reflection")
            (py "Calm weeks.") [py "rest"] [] 3 []),
       []).
Proof.
  exact (proj2 (summary_generated_only_once sample_runtime ascii_ops
                  (fun _ => true) (fun _ => Ok sample_answer) latest_clock
                  (py "2025-02-24 08:00:00") (py "2025-02-24 08:00:00")
                  (py "reflection") six_entries
                  (saved_summaries
                     (save_summary sample_runtime sample_clock (py "reflection")
                        (py "Calm weeks.") [py "rest"] [] 3 [])))
           (ex_intro _ _ (conj (or_introl eq_refl) eq_refl))).
Defined.

(** * Further properties of the stored summary *)

Module JsonTexts.
Import Json JsonFacts.

Lemma scan_once_texts (fuel : nat) (r : pystr) :
  scan_once (S fuel) (91 :: 34 :: r)
  = match scan_items fuel (34 :: r) with
    | Some (vs, r') => Some (JArr vs, r')
    | None => None
    end.
Proof. reflexivity. Qed.

#[local] Arguments scan_once : simpl never.
#[local] Arguments scan_members : simpl never.
#[local] Arguments scan_items : simpl never.
#[local] Arguments scanstring : simpl never.
#[local] Arguments encode_string : simpl never.

Lemma texts_head (x : pystr) (l : list pystr) (rest : pystr) :
  exists tail,
    join (py ", ") (map encode_string (x :: l)) ++ rest = 34 :: tail.
Proof.
  destruct l as [|y l]; cbn [map]; [cbn [join]|rewrite join_cons2];
    rewrite <- ?app_assoc, encode_string_app; eexists; reflexivity.
Qed.

Lemma scan_items_texts (l : list pystr) :
  Forall unicode_text l -> l <> [] ->
  forall fuel rest,
    (List.length l + 1 <= fuel)%nat ->
    scan_items fuel (join (py ", ") (map encode_string l) ++ 93 :: rest)
    = Some (map JStr l, rest).
Proof.
  induction 1 as [|x l Hx Hl IH]; [congruence|]. intros _ fuel rest Hfuel.
  destruct fuel as [|[|fuel]]; [simpl in Hfuel; lia|simpl in Hfuel; lia|].
  rewrite scan_items_unfold.
  destruct l as [|y l].
  - cbn [map join]. rewrite (scan_once_string fuel x _ Hx). reflexivity.
  - cbn [map]. rewrite join_cons2, <- !app_assoc.
    rewrite (scan_once_string fuel x _ Hx).
    rewrite app_comma. cbn [skip_ws is_ws N.eqb Pos.eqb orb].
    change (44 =? 93) with false. change (44 =? 44) with true. cbv iota.
    destruct (texts_head y l (93 :: rest)) as [tail Htail].
    cbn [map] in Htail. rewrite Htail. cbn [skip_ws is_ws N.eqb Pos.eqb orb].
    rewrite <- Htail.
    change (encode_string y :: map encode_string l)
      with (map encode_string (y :: l)).
    rewrite (IH ltac:(discriminate) (S fuel) rest) by (simpl in Hfuel |- *; lia).
    reflexivity.
Qed.

Lemma dumps_texts (rt : runtime) (x : pystr) (l : list pystr) :
  dumps rt (JArr (map JStr (x :: l)))
  = 91 :: join (py ", ") (map encode_string (x :: l)) ++ [93].
Proof.
  change (dumps rt (JArr (map JStr (x :: l))))
    with (91 :: join (py ", ") (map (dumps rt) (map JStr (x :: l))) ++ [93]).
  rewrite map_map. reflexivity.
Qed.

Lemma loads_texts (rt : runtime) (l : list pystr) :
  Forall unicode_text l ->
  loads (dumps rt (JArr (map JStr l))) = Some (JArr (map JStr l)).
Proof.
  intros Hl. destruct l as [|x l]; [reflexivity|].
  rewrite dumps_texts. unfold loads.
  set (items := join (py ", ") (map encode_string (x :: l))).
  assert (Hlen : (List.length (x :: l) <= List.length items)%nat).
  { unfold items. rewrite <- (length_map encode_string).
    apply join_length. intros s Hs. apply in_map_iff in Hs.
    destruct Hs as (t & <- & _). rewrite <- (app_nil_r (encode_string t)).
    rewrite encode_string_app. simpl. lia. }
  assert (Hitems : scan_items (2 * List.length (91 :: items ++ [93])) (items ++ [93])
                   = Some (map JStr (x :: l), [])).
  { unfold items at 2. apply (scan_items_texts (x :: l) Hl ltac:(discriminate)).
    cbn [List.length] in *. rewrite length_app. cbn [List.length]. lia. }
  destruct (texts_head x l [93]) as [tail Htail]. fold items in Htail.
  cbn [skip_ws is_ws]. cbn -[items scan_once Nat.mul List.length].
  rewrite Htail in Hitems |- *. rewrite scan_once_texts, Hitems. reflexivity.
Qed.

End JsonTexts.

Lemma all_text_texts (l : list pystr) : all_text (map JStr l) = Some l.
Proof. induction l as [|x l IH]; simpl; [reflexivity|now rewrite IH]. Qed.

Lemma loads_or_empty_texts (rt : runtime) (l : list pystr) :
  Forall unicode_text l ->
  loads_or_empty (Json.dumps rt (JArr (map JStr l))) = Some (JArr (map JStr l)).
Proof.
  intros Hl. destruct l as [|x l]; [reflexivity|].
  rewrite JsonTexts.dumps_texts. cbn [loads_or_empty].
  rewrite <- (JsonTexts.dumps_texts rt). now apply JsonTexts.loads_texts.
Qed.

Lemma order_by_updated_newest (new : summary) (l : list summary) :
  (forall r, In r l ->
             str_leb (summary_updated_at new) (summary_updated_at r) = false) ->
  order_by_updated_at_desc (l ++ [new]) = new :: order_by_updated_at_desc l.
Proof.
  unfold order_by_updated_at_desc. induction l as [|x l IH]; intros Hnew.
  - reflexivity.
  - cbn [app fold_right]. rewrite IH by (intros r Hr; apply Hnew; now right).
    cbn [insert_updated_desc]. now rewrite (Hnew x (or_introl eq_refl)).
Qed.

Lemma labelled_texts (nonzero : pystr -> bool) (label : pystr) (l : list pystr) :
  (if truthy nonzero (JArr (map JStr l))
   then option_map (fun j => [label ++ j]) (join_value (py ", ") (JArr (map JStr l)))
   else Some [])
  = Some match l with
         | [] => []
         | _ :: _ => [label ++ join (py ", ") l]
         end.
Proof.
  destruct l as [|x l]; [reflexivity|].
  cbn [map truthy join_value].
  change (JStr x :: map JStr l) with (map JStr (x :: l)).
  now rewrite all_text_texts.
Qed.

(** X20. A summary that was saved is what the next request is told:
    after [save_summary] of a session type, a text, themes and goals
    that are Unicode text, at a time later than every summary of the
    session type, [get_historical_summary] returns the summary text, then
    ["Key themes: "] with the themes joined by [", "] when there are
    themes, then ["Goals mentioned: "] with the goals when there are
    goals, joined by [" | "]; it stores nothing and requests nothing. *)
Theorem saved_summary_is_the_context (rt : runtime) (ops : text_ops)
    (nonzero : pystr -> bool) (ai : pystr -> result pystr) (ck ck' : clock)
    (week_ago s text : pystr) (themes goals : list pystr) (count : nat)
    (db : database) (tbl : summaries) :
  unicode_text s -> unicode_text text ->
  Forall unicode_text themes -> Forall unicode_text goals ->
  (forall r, In r tbl -> summary_session_type r = s ->
             str_leb (now ck) (summary_updated_at r) = false) ->
  exists tbl',
    save_summary rt ck s text themes goals count tbl = Some tbl'
    /\ get_historical_summary rt ops nonzero ai ck' week_ago s db tbl'
       = (Some (Some (join (py " | ")
                        ([text]
                         ++ match themes with
                            | [] => []
                            | _ :: _ => [py "Key themes: " ++ join (py ", ") themes]
                            end
                         ++ match goals with
                            | [] => []
                            | _ :: _ =>
                                [py "Goals mentioned: " ++ join (py ", ") goals]
                            end))),
          tbl', []).
Proof.
  intros Hs Htext Hthemes Hgoals Hnewer.
  unfold save_summary.
  rewrite (proj2 (encodable_unicode s) Hs), (proj2 (encodable_unicode text) Htext).
  eexists. split; [reflexivity|].
  unfold get_historical_summary, get_summary.
  rewrite (proj2 (encodable_unicode s) Hs). cbn [andb negb].
  set (new := new_summary rt ck s text themes goals count tbl).
  rewrite filter_app. cbn [filter].
  assert (Hty : of_session_type s new = true) by apply str_eqb_refl.
  rewrite Hty, order_by_updated_newest.
  2:{ intros r Hr. apply filter_In in Hr. destruct Hr as [Hr Ht].
      apply Hnewer; [exact Hr|]. now apply str_eqb_eq. }
  unfold new. cbn [new_summary summary_text summary_key_themes summary_mentioned_goals].
  unfold summary_context.
  rewrite (loads_or_empty_texts rt themes Hthemes),
    (loads_or_empty_texts rt goals Hgoals).
  rewrite !labelled_texts. reflexivity.
Qed.

Lemma saved_summary_is_the_context_witness :
  exists tbl',
    save_summary sample_runtime latest_clock (py "reflection")
      (py "Calm weeks.") [py "rest"; py "focus"] [] 3
      (saved_summaries
         (save_summary sample_runtime sample_clock (py "reflection")
            (py "A busy month.") [] [py "rest more"] 4 []))
    = Some tbl'
    /\ get_historical_summary sample_runtime ascii_ops (fun _ => true)
         (fun _ => Ok sample_answer) latest_clock (py "2025-02-24 08:00:00")
         (py "reflection") six_entries tbl'
       = (Some (Some (py "Calm weeks. | Key themes: rest, focus")), tbl', []).
Proof.
  exact (saved_summary_is_the_context sample_runtime ascii_ops (fun _ => true)
           (fun _ => Ok sample_answer) latest_clock latest_clock
           (py "2025-02-24 08:00:00") (py "reflection") (py "Calm weeks.")
           [py "rest"; py "focus"] [] 3 six_entries
           (saved_summaries
              (save_summary sample_runtime sample_clock (py "reflection")
                 (py "A busy month.") [] [py "rest more"] 4 []))
           ltac:(apply unicode_text_check; reflexivity)
           ltac:(apply unicode_text_check; reflexivity)
           ltac:(apply Forall_cons;
                 [apply unicode_text_check; reflexivity
                 |apply Forall_cons;
                  [apply unicode_text_check; reflexivity|apply Forall_nil]])
           ltac:(apply Forall_nil)
           ltac:(intros r [<-|[]] _; reflexivity)).
Defined.
